(** * sih-backend: submission store and upload pipeline

    A shallow embedding of the Express handlers of the repository
    ([server.js] and its sibling variants) together with the parts of the
    JavaScript runtime they lean on: dynamically typed values, Numbers,
    object spread, and [JSON.stringify] / [JSON.parse] as used by the
    flat-file store. *)

From Stdlib Require Import ZArith Ascii String Decimal DecimalFacts DecimalN SpecFloat.
From stdpp Require Import base tactics option list sorting strings.

Local Open Scope Z_scope.
Local Open Scope list_scope.

(** ** JavaScript numbers *)

Module Number.

(** The Number type is IEEE 754 binary64. *)
Definition prec : Z := 53.
Definition emax : Z := 1024.

Definition sf_eqb (x y : spec_float) : bool :=
  match x, y with
  | S754_zero s, S754_zero s' => Bool.eqb s s'
  | S754_infinity s, S754_infinity s' => Bool.eqb s s'
  | S754_nan, S754_nan => true
  | S754_finite s m e, S754_finite s' m' e' =>
      Bool.eqb s s' && Pos.eqb m m' && Z.eqb e e'
  | _, _ => false
  end.

(** *** Decimal digits *)

Definition digit_value (d : digits) : N :=
  match d with
  | d0 => 0 | d1 => 1 | d2 => 2 | d3 => 3 | d4 => 4
  | d5 => 5 | d6 => 6 | d7 => 7 | d8 => 8 | d9 => 9
  end%N.

(** The value of a digit sequence, most significant digit first. *)
Definition value_of (ds : list digits) : N :=
  foldl (λ a d, a * 10 + digit_value d)%N 0%N ds.

Definition digits_of (n : N) : list digits := DecimalFacts.to_list (N.to_uint n).

Definition digit_char (d : digits) : ascii :=
  match d with
  | d0 => "0" | d1 => "1" | d2 => "2" | d3 => "3" | d4 => "4"
  | d5 => "5" | d6 => "6" | d7 => "7" | d8 => "8" | d9 => "9"
  end%char.

Definition digit_of_char (c : ascii) : option digits :=
  if Ascii.eqb c "0" then Some d0
  else if Ascii.eqb c "1" then Some d1
  else if Ascii.eqb c "2" then Some d2
  else if Ascii.eqb c "3" then Some d3
  else if Ascii.eqb c "4" then Some d4
  else if Ascii.eqb c "5" then Some d5
  else if Ascii.eqb c "6" then Some d6
  else if Ascii.eqb c "7" then Some d7
  else if Ascii.eqb c "8" then Some d8
  else if Ascii.eqb c "9" then Some d9
  else None.

Definition render (ds : list digits) : list ascii := map digit_char ds.

(** *** From a decimal to the nearest Number *)

(** The Number nearest to [m * 10 ^ e], ties to even, with the sign
    given; beyond the largest finite Number it is an infinity. *)
Definition of_decimal (sign : bool) (m : N) (e : Z) : spec_float :=
  match m with
  | N0 => S754_zero sign
  | Npos p =>
      if 0 <=? e then
        if 400 <? e then S754_infinity sign
        else binary_round prec emax sign (Z.to_pos (Zpos p * 10 ^ e)) 0
      else if Z.of_nat (length (digits_of m)) + e <? -400 then S754_zero sign
      else SFdiv prec emax (S754_finite sign p 0)
             (S754_finite false (Z.to_pos (10 ^ (- e))) 0)
  end.

(** *** From a Number to its shortest decimal *)

(** [m * 2 ^ e] as a fraction. *)
Definition ratio (m : positive) (e : Z) : Z * Z :=
  if 0 <=? e then (Zpos m * 2 ^ e, 1) else (Zpos m, 2 ^ (- e)).

Fixpoint leading_zeros (fuel : nat) (num den : Z) : Z :=
  match fuel with
  | O => 1
  | S fuel =>
      if den <=? num * 10 then 1 else 1 + leading_zeros fuel (num * 10) den
  end.

(** The [n] with [10 ^ (n - 1) <= num / den < 10 ^ n]. *)
Definition decade (num den : Z) : Z :=
  let q := num / den in
  if 0 <? q then Z.of_nat (length (digits_of (Z.to_N q)))
  else 1 - leading_zeros 400 num den.

Fixpoint strip_zeros (fuel : nat) (s : Z) (p : Z) : Z * Z :=
  match fuel with
  | O => (s, p)
  | S fuel =>
      if (s mod 10 =? 0) && negb (s =? 0) then strip_zeros fuel (s / 10) (p + 1)
      else (s, p)
  end.

(** The decimal [s * 10 ^ p], without its trailing zeros, if it denotes
    [x]. *)
Definition denotes (x : spec_float) (sign : bool) (s p : Z) : option (N * Z) :=
  let '(s', p') := strip_zeros 20 s p in
  if sf_eqb (of_decimal sign (Z.to_N s') p') x then Some (Z.to_N s', p') else None.

(** The two decimals of [k] digits around [num / den]: of those that
    denote [x] the nearer one, and the even one on a tie. *)
Definition candidate (x : spec_float) (sign : bool) (num den n : Z) (k : Z)
  : option (N * Z) :=
  let p := n - k in
  let '(tn, td) :=
    if 0 <=? p then (num, den * 10 ^ p) else (num * 10 ^ (- p), den) in
  let lo := tn / td in
  let r := tn mod td in
  match denotes x sign lo p, denotes x sign (lo + 1) p with
  | Some a, Some b =>
      Some (if 2 * r <? td then a
            else if td <? 2 * r then b
            else if Z.even lo then a else b)
  | Some a, None => Some a
  | None, Some b => Some b
  | None, None => None
  end.

Fixpoint search (x : spec_float) (sign : bool) (num den n : Z)
    (fuel : nat) (k : Z) : option (N * Z) :=
  match fuel with
  | O => None
  | S fuel =>
      match candidate x sign num den n k with
      | Some c => Some c
      | None => search x sign num den n fuel (k + 1)
      end
  end.

(** Number::toString, step 5: the integers [s] and [n - k] for the finite
    Number [(-1) ^ sign * m * 2 ^ e], with [k] as small as possible.
    Seventeen digits are enough for every Number. *)
Definition shortest (sign : bool) (m : positive) (e : Z) : option (N * Z) :=
  let '(num, den) := ratio m e in
  search (S754_finite sign m e) sign num den (decade num den) 17 1.

(** *** The type of Numbers *)

Definition is_double (x : spec_float) : bool :=
  valid_binary prec emax x
  && match x with
     | S754_finite sign m e => bool_decide (is_Some (shortest sign m e))
     | _ => true
     end.

Record number : Type := mk_number { num : spec_float; num_ok : is_double num = true }.

Definition make (x : spec_float) : option number :=
  match is_double x as b return is_double x = b → option number with
  | true => λ H, Some (mk_number x H)
  | false => λ _, None
  end eq_refl.

Definition zero : number := mk_number (S754_zero false) eq_refl.
Definition infinity : number := mk_number (S754_infinity false) eq_refl.
Definition nan : number := mk_number S754_nan eq_refl.

(** An integer as a Number. *)
Definition of_Z (n : Z) : number :=
  default zero (make (binary_normalize prec emax n 0 false)).

Definition is_finite (x : number) : bool :=
  match num x with
  | S754_zero _ | S754_finite _ _ _ => true
  | _ => false
  end.

(** [+0], [-0] and [NaN] are the falsy Numbers. *)
Definition is_falsy (x : number) : bool :=
  match num x with
  | S754_zero _ | S754_nan => true
  | _ => false
  end.

Definition is_negative_zero (x : number) : bool :=
  match num x with
  | S754_zero true => true
  | _ => false
  end.

(** *** Number::toString *)

Definition chars (s : string) : list ascii := list_ascii_of_string s.

(** Steps 6 to 10, for the digits [ds] of [s] and the position [n] of the
    decimal point. *)
Definition decimal_text (ds : list digits) (n : Z) : list ascii :=
  let k := Z.of_nat (length ds) in
  if (k <=? n) && (n <=? 21) then
    render ds ++ replicate (Z.to_nat (n - k)) "0"%char
  else if (0 <? n) && (n <=? 21) then
    render (take (Z.to_nat n) ds) ++ "."%char :: render (drop (Z.to_nat n) ds)
  else if (-6 <? n) && (n <=? 0) then
    "0"%char :: "."%char :: replicate (Z.to_nat (- n)) "0"%char ++ render ds
  else
    let e := n - 1 in
    let exponent :=
      "e"%char :: (if 0 <=? e then "+"%char else "-"%char)
      :: render (digits_of (Z.abs_N e)) in
    match ds with
    | [] => []
    | [d] => digit_char d :: exponent
    | d :: rest => digit_char d :: "."%char :: render rest ++ exponent
    end.

Definition finite_text (sign : bool) (m : positive) (e : Z) : list ascii :=
  (if sign then ["-"%char] else [])
  ++ match shortest sign m e with
     | Some (s, p) =>
         let ds := digits_of s in decimal_text ds (p + Z.of_nat (length ds))
     | None => []
     end.

Definition number_text (x : number) : list ascii :=
  match num x with
  | S754_nan => chars "NaN"
  | S754_zero _ => chars "0"
  | S754_infinity false => chars "Infinity"
  | S754_infinity true => chars "-Infinity"
  | S754_finite sign m e => finite_text sign m e
  end.

(** *** Reading a JSON number *)

Fixpoint read_digits (s : list ascii) : list digits * list ascii :=
  match s with
  | c :: r =>
      match digit_of_char c with
      | Some d => let '(ds, r') := read_digits r in (d :: ds, r')
      | None => ([], s)
      end
  | [] => ([], [])
  end.

(** [int]: a lone [0], or digits that do not start with [0]. *)
Definition read_int (s : list ascii) : option (list digits * list ascii) :=
  match s with
  | c :: r =>
      match digit_of_char c with
      | Some d0 => Some ([d0], r)
      | Some d => let '(ds, r') := read_digits r in Some (d :: ds, r')
      | None => None
      end
  | [] => None
  end.

(** [frac]: nothing, or a point and at least one digit. *)
Definition read_frac (s : list ascii) : option (list digits * list ascii) :=
  match s with
  | c :: r =>
      if Ascii.eqb c "."%char then
        match read_digits r with
        | ([], _) => None
        | (ds, r') => Some (ds, r')
        end
      else Some ([], s)
  | [] => Some ([], [])
  end.

(** [exp]: nothing, or [e] or [E], an optional sign and at least one
    digit. *)
Definition read_exp (s : list ascii) : option (Z * list ascii) :=
  match s with
  | c :: r =>
      if Ascii.eqb c "e"%char || Ascii.eqb c "E"%char then
        let '(negative, r1) :=
          match r with
          | c' :: r' =>
              if Ascii.eqb c' "-"%char then (true, r')
              else if Ascii.eqb c' "+"%char then (false, r')
              else (false, r)
          | [] => (false, r)
          end in
        match read_digits r1 with
        | ([], _) => None
        | (ds, r2) =>
            Some (if negative then - Z.of_N (value_of ds)
                  else Z.of_N (value_of ds), r2)
        end
      else Some (0, s)
  | [] => Some (0, [])
  end.

(** [int frac exp], read as a decimal and rounded. *)
Definition read_unsigned (sign : bool) (s : list ascii)
  : option (spec_float * list ascii) :=
  '(i, s2) ← read_int s;
  '(f, s3) ← read_frac s2;
  '(e, s4) ← read_exp s3;
  Some (of_decimal sign (value_of (i ++ f)) (e - Z.of_nat (length f)), s4).

(** A JSON number at the head of [s], and the Number it denotes. *)
Definition read_number (s : list ascii) : option (spec_float * list ascii) :=
  match s with
  | c :: r =>
      if Ascii.eqb c "-"%char then read_unsigned true r
      else read_unsigned false s
  | [] => None
  end.

(** *** Notions used to state that a text reads back *)

(** The text does not go on with a digit. *)
Definition no_digit (rest : list ascii) : Prop :=
  match rest with
  | [] => True
  | c :: _ => digit_of_char c = None
  end.

Definition step (a : N) (d : digits) : N := (a * 10 + digit_value d)%N.

(** The text does not go on with anything a number could go on with. *)
Definition ends_number (rest : list ascii) : Prop :=
  match rest with
  | [] => True
  | c :: _ =>
      digit_of_char c = None ∧ Ascii.eqb c "."%char = false
      ∧ Ascii.eqb c "e"%char || Ascii.eqb c "E"%char = false
  end.

(** Negative zero is written as [0], and so reads back as zero. *)
Definition settled (x : spec_float) : spec_float :=
  match x with
  | S754_zero _ => S754_zero false
  | _ => x
  end.

(** A byte count or another natural number, as the Number it is. *)
Definition of_N (n : N) : number := of_Z (Z.of_N n).

(** The integer a Number is, if it is one. *)
Definition to_Z (x : number) : option Z :=
  match num x with
  | S754_zero false => Some 0
  | S754_finite sign m e =>
      let magnitude :=
        if 0 <=? e then Some (Zpos m * 2 ^ e)
        else if Zpos m mod 2 ^ (- e) =? 0 then Some (Zpos m / 2 ^ (- e))
        else None in
      (if sign then Z.opp else id) <$> magnitude
  | _ => None
  end.

Definition literal (n : Z) : option number := Some (of_Z n).

End Number.

(** An integer literal where a Number is expected stands for the Number
    it denotes, and a byte count for the Number it is. *)
Declare Scope number_scope.
Delimit Scope number_scope with number.
Bind Scope number_scope with Number.number.
Number Notation Number.number Number.literal Number.to_Z : number_scope.
Coercion Number.of_N : N >-> Number.number.
(** ** JavaScript values *)

Module JS.

(** Values that occur in the handlers.  A string is held as the bytes of
    its UTF-8 text.  Objects are association lists in property insertion
    order, which is the order [JSON.stringify] walks them in; a property
    name that is an array index, which JavaScript would move to the
    front, is kept where it was written. *)
#[local] Unset Elimination Schemes.
Inductive value : Type :=
| VUndefined
| VNull
| VBool (b : bool)
| VNum (n : Number.number)
| VStr (s : string)
| VArr (elems : list value)
| VObj (props : list (string * value)).
#[local] Set Elimination Schemes.

Definition obj : Type := list (string * value).

(** Text as a sequence of bytes. *)
Definition text : Type := list ascii.

(** ToBoolean. *)
Definition truthy (v : value) : bool :=
  match v with
  | VUndefined | VNull => false
  | VBool b => b
  | VNum n => negb (Number.is_falsy n)
  | VStr s => negb (String.eqb s EmptyString)
  | VArr _ | VObj _ => true
  end.

(** [a || b]. *)
Definition or_else (a b : value) : value := if truthy a then a else b.

(** Own property lookup on an object: [o.k], [undefined] when absent. *)
Fixpoint lookup (k : string) (o : obj) : value :=
  match o with
  | [] => VUndefined
  | (k', v) :: o' => if String.eqb k k' then v else lookup k o'
  end.

(** [o.k] on an arbitrary value that is neither [null] nor [undefined];
    primitives and arrays have none of the property names used here. *)
Definition get (k : string) (v : value) : value :=
  match v with
  | VObj o => lookup k o
  | _ => VUndefined
  end.

(** [o[k] = v] / a property definition in an object literal: an existing
    key keeps its position, a new key goes last. *)
Fixpoint set (k : string) (v : value) (o : obj) : obj :=
  match o with
  | [] => [(k, v)]
  | (k', v') :: o' =>
      if String.eqb k k' then (k, v) :: o' else (k', v') :: set k v o'
  end.

(** [{...o, k1: v1, ..., kn: vn}]. *)
Definition spread (o : obj) (defs : list (string * value)) : obj :=
  foldl (fun acc p => set (fst p) (snd p) acc) o defs.

(** [v === s] for a string [s]. *)
Definition strict_eq_str (v : value) (s : string) : bool :=
  match v with
  | VStr s' => String.eqb s' s
  | _ => false
  end.

Fixpoint join_strings (sep : string) (l : list string) : string :=
  match l with
  | [] => EmptyString
  | [s] => s
  | s :: l' => s +:+ sep +:+ join_strings sep l'
  end.

(** ToString, as applied by a template literal. *)
Fixpoint to_string (v : value) : string :=
  match v with
  | VUndefined => "undefined"
  | VNull => "null"
  | VBool true => "true"
  | VBool false => "false"
  | VNum n => string_of_list_ascii (Number.number_text n)
  | VStr s => s
  | VArr l =>
      join_strings ","
        (map (fun x => match x with
                       | VUndefined | VNull => EmptyString
                       | _ => to_string x
                       end) l)
  | VObj _ => "[object Object]"
  end.

(** A Number after a trip through JSON: one that is not finite comes
    back as [null], negative zero as zero. *)
Definition norm_number (n : Number.number) : value :=
  if Number.is_finite n
  then VNum (if Number.is_negative_zero n then Number.zero else n)
  else VNull.

(** What survives a trip through JSON: an [undefined] member of an object
    is dropped, an [undefined] element of an array becomes [null], and a
    Number becomes what [norm_number] says. *)
Fixpoint norm (v : value) : value :=
  match v with
  | VNum n => norm_number n
  | VArr l =>
      VArr (map (fun x => match x with VUndefined => VNull | _ => norm x end) l)
  | VObj l =>
      VObj (omap (fun p => match snd p with
                           | VUndefined => None
                           | _ => Some (fst p, norm (snd p))
                           end) l)
  | _ => v
  end.

Definition norm_elem (x : value) : value :=
  match x with
  | VUndefined => VNull
  | _ => norm x
  end.

Definition norm_prop (p : string * value) : option (string * value) :=
  match snd p with
  | VUndefined => None
  | _ => Some (fst p, norm (snd p))
  end.

(** The members of an object that reach its JSON text. *)
Definition norm_obj (o : obj) : obj := omap norm_prop o.

(** No [undefined] anywhere: the values [JSON.parse] produces. *)
Fixpoint defined (v : value) : bool :=
  match v with
  | VUndefined => false
  | VArr l => forallb defined l
  | VObj l => forallb (fun p => defined (snd p)) l
  | _ => true
  end.

(** Nothing that a trip through JSON would change: no [undefined]
    anywhere, every Number finite, and no negative zero. *)
Fixpoint clean (v : value) : bool :=
  match v with
  | VUndefined => false
  | VNum n => Number.is_finite n && negb (Number.is_negative_zero n)
  | VArr l => forallb clean l
  | VObj l => forallb (fun p => clean (snd p)) l
  | _ => true
  end.

Definition nodup_keys (o : obj) : bool := bool_decide (NoDup (fst <$> o)).

(** Property names are unique within every object, as they are in any
    JavaScript object. *)
Fixpoint wf (v : value) : bool :=
  match v with
  | VArr l => forallb wf l
  | VObj l => nodup_keys l && forallb (fun p => wf (snd p)) l
  | _ => true
  end.

(** A value that JSON text holds as it is. *)
Definition is_json (v : value) : bool := clean v && wf v.

Definition is_object (v : value) : bool :=
  match v with
  | VObj _ => true
  | _ => false
  end.

(** A record as the handlers hold it in memory: an object whose members
    are JSON values, or [undefined] where the request left one out. *)
Definition is_record (v : value) : bool :=
  match v with
  | VObj o =>
      nodup_keys o
      && forallb (fun p => match snd p with
                           | VUndefined => true
                           | x => is_json x
                           end) o
  | _ => false
  end.

Fixpoint nodes (v : value) : nat :=
  match v with
  | VArr l => S (list_sum (map (fun x => S (nodes x)) l))
  | VObj l => S (list_sum (map (fun p => S (nodes (snd p))) l))
  | _ => 1%nat
  end.

Section value_ind.
Variable P : value → Prop.
Hypothesis Hundef : P VUndefined.
Hypothesis Hnull : P VNull.
Hypothesis Hbool : ∀ b, P (VBool b).
Hypothesis Hnum : ∀ n, P (VNum n).
Hypothesis Hstr : ∀ s, P (VStr s).
Hypothesis Harr : ∀ l, Forall P l → P (VArr l).
Hypothesis Hobj : ∀ l, Forall (fun p => P (snd p)) l → P (VObj l).

Fixpoint value_ind (v : value) : P v :=
  match v with
  | VUndefined => Hundef
  | VNull => Hnull
  | VBool b => Hbool b
  | VNum n => Hnum n
  | VStr s => Hstr s
  | VArr l =>
      Harr l ((fix go (l : list value) : Forall P l :=
                 match l with
                 | [] => Forall_nil_2 _
                 | x :: l' => Forall_cons_2 _ _ _ (value_ind x) (go l')
                 end) l)
  | VObj l =>
      Hobj l ((fix go (l : list (string * value))
                 : Forall (fun p => P (snd p)) l :=
                 match l with
                 | [] => Forall_nil_2 _
                 | p :: l' => Forall_cons_2 _ _ _ (value_ind (snd p)) (go l')
                 end) l)
  end.
End value_ind.

End JS.

Export JS.


(** ** JSON text *)

Module JSON.

Definition nl : ascii := "010"%char.
Definition quote : ascii := "034"%char.
Definition backslash : ascii := "092"%char.

Definition indent (n : nat) : text := replicate n " "%char.

Definition text_of_string (s : string) : text := list_ascii_of_string s.

(** *** Serialisation: [JSON.stringify(v, null, 2)] *)

Definition hex_digit (n : N) : ascii :=
  ascii_of_N (if (n <? 10)%N then 48 + n else 87 + n)%N.

(** QuoteJSONString, one byte.  (A lone surrogate half, which
    [JSON.stringify] writes as an escape, is written here as the bytes
    that hold it; both read back as the same string.) *)
Definition escape_char (c : ascii) : text :=
  let n := N_of_ascii c in
  if Ascii.eqb c quote then [backslash; quote]
  else if Ascii.eqb c backslash then [backslash; backslash]
  else if (n =? 8)%N then [backslash; "b"%char]
  else if (n =? 12)%N then [backslash; "f"%char]
  else if (n =? 10)%N then [backslash; "n"%char]
  else if (n =? 13)%N then [backslash; "r"%char]
  else if (n =? 9)%N then [backslash; "t"%char]
  else if (n <? 32)%N then
    [backslash; "u"%char; "0"%char; "0"%char;
     hex_digit (n / 16); hex_digit (n mod 16)]
  else [c].

Definition quote_string (s : string) : text :=
  quote :: flat_map escape_char (text_of_string s) ++ [quote].

(** The members of a non-empty array or object, one per line at the inner
    indentation, separated by commas. *)
Fixpoint join_lines (ind : nat) (items : list text) : text :=
  match items with
  | [] => []
  | [t] => t
  | t :: ts => t ++ ","%char :: nl :: indent ind ++ join_lines ind ts
  end.

Definition wrap (opening closing : ascii) (ind : nat) (items : list text)
  : text :=
  match items with
  | [] => [opening; closing]
  | _ => opening :: nl :: indent (ind + 2) ++ join_lines (ind + 2) items
         ++ nl :: indent ind ++ [closing]
  end.

(** A finite Number is written by Number::toString, any other Number as
    [null]. *)
Definition number_json (n : Number.number) : text :=
  if Number.is_finite n then Number.number_text n else text_of_string "null".

(** SerializeJSONProperty: [None] is the [undefined] result, which drops
    an object member and prints as [null] inside an array. *)
Fixpoint serialize (ind : nat) (v : value) : option text :=
  match v with
  | VUndefined => None
  | VNull => Some (text_of_string "null")
  | VBool true => Some (text_of_string "true")
  | VBool false => Some (text_of_string "false")
  | VNum n => Some (number_json n)
  | VStr s => Some (quote_string s)
  | VArr l =>
      Some (wrap "["%char "]"%char ind
              (map (fun x => default (text_of_string "null")
                               (serialize (ind + 2) x)) l))
  | VObj l =>
      Some (wrap "{"%char "}"%char ind
              (omap (fun p =>
                       t ← serialize (ind + 2) (snd p);
                       Some (quote_string (fst p) ++ ":"%char :: " "%char :: t))
                 l))
  end.

Definition stringify (v : value) : option text := serialize 0 v.

(** *** Parsing: [JSON.parse] *)

Definition is_ws (c : ascii) : bool :=
  Ascii.eqb c " "%char || Ascii.eqb c nl || Ascii.eqb c "013"%char
  || Ascii.eqb c "009"%char.

Fixpoint skip_ws (s : text) : text :=
  match s with
  | c :: r => if is_ws c then skip_ws r else s
  | [] => []
  end.

Fixpoint strip_prefix (p s : text) : option text :=
  match p, s with
  | [], _ => Some s
  | a :: p', b :: s' => if Ascii.eqb a b then strip_prefix p' s' else None
  | _ :: _, [] => None
  end.

Definition hex_value (c : ascii) : option N :=
  let n := N_of_ascii c in
  if (48 <=? n)%N && (n <=? 57)%N then Some (n - 48)%N
  else if (97 <=? n)%N && (n <=? 102)%N then Some (n - 87)%N
  else if (65 <=? n)%N && (n <=? 70)%N then Some (n - 55)%N
  else None.

Definition hex4 (a b c d : ascii) : option N :=
  x ← hex_value a; y ← hex_value b; z ← hex_value c; w ← hex_value d;
  Some (((x * 16 + y) * 16 + z) * 16 + w)%N.

(** The bytes that hold a code point in a string.  A surrogate half that
    stands alone, for which UTF-8 has no bytes, takes the three bytes of
    the generalised encoding. *)
Definition utf8 (n : N) : text :=
  if (n <? 128)%N then [ascii_of_N n]
  else if (n <? 2048)%N then
    [ascii_of_N (192 + n / 64); ascii_of_N (128 + n mod 64)]
  else if (n <? 65536)%N then
    [ascii_of_N (224 + n / 4096); ascii_of_N (128 + (n / 64) mod 64);
     ascii_of_N (128 + n mod 64)]
  else
    [ascii_of_N (240 + n / 262144); ascii_of_N (128 + (n / 4096) mod 64);
     ascii_of_N (128 + (n / 64) mod 64); ascii_of_N (128 + n mod 64)].

Definition is_lead (n : N) : bool := (55296 <=? n)%N && (n <? 56320)%N.
Definition is_trail (n : N) : bool := (56320 <=? n)%N && (n <? 57344)%N.

(** The code point of a surrogate pair. *)
Definition paired (lead trail : N) : N :=
  (65536 + (lead - 55296) * 1024 + (trail - 56320))%N.

Definition unescape (e : ascii) : option ascii :=
  if Ascii.eqb e quote then Some quote
  else if Ascii.eqb e backslash then Some backslash
  else if Ascii.eqb e "/"%char then Some "/"%char
  else if Ascii.eqb e "b"%char then Some "008"%char
  else if Ascii.eqb e "f"%char then Some "012"%char
  else if Ascii.eqb e "n"%char then Some "010"%char
  else if Ascii.eqb e "r"%char then Some "013"%char
  else if Ascii.eqb e "t"%char then Some "009"%char
  else None.

(** The characters of a string literal, after its opening quote.  Two
    [\u] escapes that are the halves of a surrogate pair give one code
    point. *)
Fixpoint parse_chars (s : text) : option (text * text) :=
  match s with
  | [] => None
  | c :: r =>
      if Ascii.eqb c quote then Some ([], r)
      else if Ascii.eqb c backslash then
        match r with
        | [] => None
        | e :: r' =>
            if Ascii.eqb e "u"%char then
              match r' with
              | h1 :: h2 :: h3 :: h4 :: r'' =>
                  n ← hex4 h1 h2 h3 h4;
                  let alone :=
                    '(cs, rest) ← parse_chars r''; Some (utf8 n ++ cs, rest) in
                  if is_lead n then
                    match r'' with
                    | b :: u :: k1 :: k2 :: k3 :: k4 :: r3 =>
                        if Ascii.eqb b backslash && Ascii.eqb u "u"%char then
                          match hex4 k1 k2 k3 k4 with
                          | Some m =>
                              if is_trail m then
                                '(cs, rest) ← parse_chars r3;
                                Some (utf8 (paired n m) ++ cs, rest)
                              else alone
                          | None => alone
                          end
                        else alone
                    | _ => alone
                    end
                  else alone
              | _ => None
              end
            else
              c' ← unescape e;
              '(cs, rest) ← parse_chars r';
              Some (c' :: cs, rest)
        end
      else if (N_of_ascii c <? 32)%N then None
      else '(cs, rest) ← parse_chars r; Some (c :: cs, rest)
  end.

Definition parse_string (s : text) : option (string * text) :=
  '(cs, rest) ← parse_chars s; Some (string_of_list_ascii cs, rest).

(** A JSON number, as the Number it denotes.  Every binary64 value is a
    Number, so [Number.make] never fails here. *)
Definition parse_number (s : text) : option (Number.number * text) :=
  '(x, r) ← Number.read_number s; n ← Number.make x; Some (n, r).

Fixpoint parse_value (fuel : nat) (s : text) : option (value * text) :=
  match fuel with
  | O => None
  | S fuel =>
      match skip_ws s with
      | [] => None
      | c :: r =>
          if Ascii.eqb c "{"%char then
            match skip_ws r with
            | c' :: r' =>
                if Ascii.eqb c' "}"%char then Some (VObj [], r')
                else '(o, r'') ← parse_members fuel [] r; Some (VObj o, r'')
            | [] => None
            end
          else if Ascii.eqb c "["%char then
            match skip_ws r with
            | c' :: r' =>
                if Ascii.eqb c' "]"%char then Some (VArr [], r')
                else '(l, r'') ← parse_elements fuel r; Some (VArr l, r'')
            | [] => None
            end
          else if Ascii.eqb c quote then
            '(str, r') ← parse_string r; Some (VStr str, r')
          else if Ascii.eqb c "n"%char then
            r' ← strip_prefix (text_of_string "ull") r; Some (VNull, r')
          else if Ascii.eqb c "t"%char then
            r' ← strip_prefix (text_of_string "rue") r; Some (VBool true, r')
          else if Ascii.eqb c "f"%char then
            r' ← strip_prefix (text_of_string "alse") r; Some (VBool false, r')
          else
            '(n, r') ← parse_number (c :: r); Some (VNum n, r')
      end
  end
with parse_elements (fuel : nat) (s : text) : option (list value * text) :=
  match fuel with
  | O => None
  | S fuel =>
      '(v, r) ← parse_value fuel s;
      match skip_ws r with
      | c :: r' =>
          if Ascii.eqb c ","%char then
            '(vs, r'') ← parse_elements fuel r'; Some (v :: vs, r'')
          else if Ascii.eqb c "]"%char then Some ([v], r')
          else None
      | [] => None
      end
  end
with parse_members (fuel : nat) (acc : obj) (s : text) : option (obj * text) :=
  match fuel with
  | O => None
  | S fuel =>
      match skip_ws s with
      | c :: r =>
          if Ascii.eqb c quote then
            '(k, r1) ← parse_string r;
            match skip_ws r1 with
            | c1 :: r2 =>
                if Ascii.eqb c1 ":"%char then
                  '(v, r3) ← parse_value fuel r2;
                  match skip_ws r3 with
                  | c3 :: r4 =>
                      if Ascii.eqb c3 ","%char then
                        parse_members fuel (JS.set k v acc) r4
                      else if Ascii.eqb c3 "}"%char then
                        Some (JS.set k v acc, r4)
                      else None
                  | [] => None
                  end
                else None
            | [] => None
            end
          else None
      | [] => None
      end
  end.

(** [JSON.parse]: one value, surrounded by optional white space; [None]
    is the [SyntaxError]. *)
Definition parse (s : text) : option value :=
  '(v, r) ← parse_value (S (length s)) s;
  match skip_ws r with
  | [] => Some v
  | _ :: _ => None
  end.

(** *** Notions used to state the round trip *)

(** What may follow a number in a text: nothing, or the comma or line
    break that [stringify] puts after a member. *)
Definition number_end (s : text) : bool :=
  match s with
  | [] => true
  | c :: _ => Ascii.eqb c ","%char || Ascii.eqb c nl
  end.

(** A character that can start a serialised value. *)
Definition value_head (c : ascii) : Prop :=
  is_ws c = false ∧ Ascii.eqb c "]"%char = false.

Definition elem_texts (ind : nat) (l : list value) : list text :=
  map (fun x => default (text_of_string "null") (serialize ind x)) l.

Definition member_texts (ind : nat) (l : obj) : list text :=
  omap (fun p => t ← serialize ind (snd p);
                 Some (quote_string (fst p) ++ ":"%char :: " "%char :: t)) l.

(** [v] is read back from its own text, at any indentation and with
    anything after it that could follow a member. *)
Definition parses_back (v : value) : Prop :=
  ∀ ind fuel rest t,
    clean v = true → wf v = true → serialize ind v = Some t →
    (nodes v ≤ fuel)%nat → number_end rest = true →
    parse_value fuel (t ++ rest) = Some (v, rest).

(** The objects [parse_members] builds up. *)
Definition good_obj (o : obj) : Prop :=
  forallb (fun p => defined (snd p)) o = true ∧
  forallb (fun p => wf (snd p)) o = true ∧ NoDup o.*1.

End JSON.

(** ** The handler runtime: exceptions, state, HTTP responses *)

Module Runtime.

(** The exceptions the handlers can meet, with the two properties they
    read from them: [err.code] and [err.message]. *)
Inductive error : Type :=
| FsError (code message : string)
| SyntaxError (message : string)
| TypeError (message : string)
| AxiosError (message : string)
| StoreError (message : string)
| MulterError (code message : string)
| BodyError (status : Z) (message : string).

Definition err_code (e : error) : value :=
  match e with
  | FsError c _ => VStr c
  | _ => VUndefined
  end.

Definition err_message (e : error) : string :=
  match e with
  | FsError _ m | SyntaxError m | TypeError m | AxiosError m | StoreError m
  | MulterError _ m | BodyError _ m => m
  end.

Inductive outcome (A : Type) : Type :=
| Ok (a : A)
| Throw (e : error).
Arguments Ok {A} a.
Arguments Throw {A} e.

(** An [async] computation over a store of type [St]: it ends with a
    value or a thrown exception, and leaves a store behind. *)
Definition M (St A : Type) : Type := St → outcome A * St.

#[global] Instance M_ret {St} : MRet (M St) := λ A a s, (Ok a, s).

#[global] Instance M_bind {St} : MBind (M St) := λ A B f m s,
  match m s with
  | (Ok a, s') => f a s'
  | (Throw e, s') => (Throw e, s')
  end.

Definition throw {St A} (e : error) : M St A := λ s, (Throw e, s).

Definition try_catch {St A} (m : M St A) (handler : error → M St A) : M St A :=
  λ s, match m s with
       | (Ok a, s') => (Ok a, s')
       | (Throw e, s') => handler e s'
       end.

Record response : Type := { status : Z; payload : value }.

(** [res.status(code).json(v)]. *)
Definition json (code : Z) (v : value) : response :=
  {| status := code; payload := v |}.

(** An Express handler whose whole body sits in [try { } catch (err) { }]. *)
Definition handle {St} (m : M St response) (on_error : error → response)
  : St → response * St :=
  λ s, match m s with
       | (Ok r, s') => (r, s')
       | (Throw e, s') => (on_error e, s')
       end.

(** *** What a request brings with it *)

(** [req.file], as multer's memory storage fills it in.  Its [size] is
    the length of a Buffer, which every platform keeps a safe integer. *)
Record upload : Type :=
  { originalname : string; mimetype : string; size : N; buffer : string;
    size_ok : (size <? 2 ^ 53)%N = true }.

(** What a submit handler reads from its request: [req.body], whatever
    value the middleware left there, and [req.file]. *)
Record upload_request : Type :=
  { req_body : value; req_file : option upload }.

(** A request as it reaches the application.
    - [json_fault]: [express.json()] refuses the body (malformed JSON,
      too large, ...) with an error that names the status to answer.
    - [fields]: [req.body] once the body is read: the value of a JSON
      body, or the text fields of a multipart body, where a field sent
      several times is an array and a bracketed name a nested object.
    - [parse_fault]: multer fails while reading the parts (a malformed
      part, a field limit, a file that reaches the size limit exactly
      where the parser counts that as over it).
    - [files]: the parts of a multipart body that carry a file, with
      their field names, in the order sent. *)
Record http_request : Type :=
  { json_fault : option error;
    fields : value;
    parse_fault : option error;
    files : list (string * upload) }.

(** [limits: { fileSize: 10 * 1024 * 1024 }]. *)
Definition file_size_limit : N := 10 * 1024 * 1024.

Definition unexpected_file : error :=
  MulterError "LIMIT_UNEXPECTED_FILE" "Unexpected field".

Definition file_too_large : error :=
  MulterError "LIMIT_FILE_SIZE" "File too large".

(** [upload.single(name)]: the file parts are taken in order; one under
    another field name, or a second one, is refused, and so is one
    over the size limit.  A body that is not multipart passes with no
    file. *)
Definition single (name : string) (r : http_request) : outcome upload_request :=
  match parse_fault r with
  | Some e => Throw e
  | None =>
      match files r with
      | [] => Ok {| req_body := fields r; req_file := None |}
      | (field, file) :: more =>
          if negb (String.eqb field name) then Throw unexpected_file
          else if (file_size_limit <? size file)%N then Throw file_too_large
          else match more with
               | [] => Ok {| req_body := fields r; req_file := Some file |}
               | _ :: _ => Throw unexpected_file
               end
      end
  end.

(** The status Express answers an error with that no handler caught:
    the one the error names, when that is an error status, and 500
    otherwise. *)
Definition err_status (e : error) : Z :=
  match e with
  | BodyError st _ => if (400 <=? st) && (st <? 600) then st else 500
  | _ => 500
  end.

(** The answer of Express to such an error: that status and an HTML
    page, which shows the error and its stack outside production and
    the status text in production.  Of the page only the message of the
    error is kept here. *)
Definition express_error (e : error) : response :=
  {| status := err_status e; payload := VStr (err_message e) |}.

(** What the middleware in front of a submit handler makes of a request:
    [app.use(express.json())], then [upload.single(name)]. *)
Definition accepted (name : string) (r : http_request)
  : outcome upload_request :=
  match json_fault r with
  | Some e => Throw e
  | None => single name r
  end.

(** [app.post(path, upload.single(name), handler)]: an error of the
    middleware never reaches the handler; Express answers it. *)
Definition upload_route {St} (name : string)
    (handler : upload_request → St → response * St) (r : http_request)
  : St → response * St :=
  λ s, match accepted name r with
       | Ok req => handler req s
       | Throw e => (express_error e, s)
       end.

(** The form posted to the pinning service. *)
Record pin_request : Type :=
  { pin_file : upload; pinataMetadata : value; pinataOptions : value;
    authorization : string }.

(** [axios.post] rejects on a network failure or a status outside 2xx and
    otherwise resolves with the response, whose [data] is the decoded
    body. *)
Inductive pin_outcome : Type :=
| PinRejected (message : string)
| PinResolved (data : value).

(** Everything outside the server that one request observes. *)
Record world : Type :=
  { PINATA_JWT : option string;
    pin : pin_outcome;
    uuidv4 : string;
    now : string;
    store_error : option string }.

(** The server's view of the outside: its own store and the requests the
    pinning service has received so far. *)
Record state (Store : Type) : Type :=
  { store : Store; pinned : list pin_request }.
Arguments store {Store} s.
Arguments pinned {Store} s.

Definition axios_post {Store} (form : pin_request) (w : world)
  : M (state Store) value := λ s,
  let s' := {| store := store s; pinned := pinned s ++ [form] |} in
  match pin w with
  | PinResolved data => (Ok data, s')
  | PinRejected msg => (Throw (AxiosError msg), s')
  end.

(** [!process.env.X]. *)
Definition env_truthy (x : option string) : bool :=
  match x with
  | Some s => negb (String.eqb s EmptyString)
  | None => false
  end.

Definition env_string (x : option string) : string :=
  match x with
  | Some s => s
  | None => "undefined"
  end.

(** [v?.k]. *)
Definition opt_get (k : string) (v : value) : value :=
  match v with
  | VUndefined | VNull => VUndefined
  | _ => get k v
  end.

(** The [pinataMetadata] object built by every submit handler. *)
Definition pinata_meta (body : value) (file : upload) : value :=
  VObj [("name", VStr (originalname file));
        ("keyvalues",
         VObj [("uploader", or_else (get "name" body) (VStr "anonymous"));
               ("description",
                or_else (get "description" body) (VStr EmptyString))])].

Definition pinata_options : value := VObj [("cidVersion", VNum 1)].

(** The multipart form sent to [pinFileToIPFS], with its bearer token. *)
Definition pinata_form (jwt : option string) (body : value) (file : upload)
  : pin_request :=
  {| pin_file := file; pinataMetadata := pinata_meta body file;
     pinataOptions := pinata_options;
     authorization := "Bearer " +:+ env_string jwt |}.

Definition gateway_url (ipfsHash : value) : value :=
  if truthy ipfsHash
  then VStr ("https://gateway.pinata.cloud/ipfs/" +:+ to_string ipfsHash)
  else VNull.

(** [arr.findIndex((s) => s.id === id)]: [None] is [-1]; reading [.id]
    off a [null] element throws. *)
Fixpoint findIndex_id (id : string) (l : list value) : outcome (option nat) :=
  match l with
  | [] => Ok None
  | s :: l' =>
      match s with
      | VUndefined | VNull =>
          Throw (TypeError "Cannot read properties of null (reading 'id')")
      | _ =>
          if strict_eq_str (get "id" s) id then Ok (Some 0%nat)
          else match findIndex_id id l' with
               | Ok (Some i) => Ok (Some (S i))
               | r => r
               end
      end
  end.

(** The own enumerable properties an object spread copies.  Only objects
    reach the spread in the handlers: nothing else can carry the [id]
    that selects the element. *)
Definition own_props (v : value) : obj :=
  match v with
  | VObj o => o
  | _ => []
  end.

Definition lift {St A} (r : outcome A) : M St A := λ s, (r, s).

(** Calling an array method on what was read from the file. *)
Definition as_array {St} (method : string) (v : value) : M St (list value) :=
  match v with
  | VArr l => mret l
  | VNull =>
      throw (TypeError ("Cannot read properties of null (reading '"
                        +:+ method +:+ "')"))
  | _ => throw (TypeError ("submissions." +:+ method +:+ " is not a function"))
  end.

(** A value that [const { ... } = v] accepts. *)
Definition destructurable (v : value) : bool :=
  match v with
  | VUndefined | VNull => false
  | _ => true
  end.

(** [const { ... } = v]. *)
Definition destructure {St} (v : value) : M St value :=
  if destructurable v then mret v
  else throw (TypeError "Cannot destructure the request body").

(** Some element of the array carries the id. *)
Definition known (id : string) (l : list value) : bool :=
  existsb (fun x => strict_eq_str (get "id" x) id) l.

(** [{ status: "approved", txHash, tokenId, metadataURI }], the properties
    the minted handlers write, from the destructured request body. *)
Definition minted_fields (b : value) : list (string * value) :=
  [("status", VStr "approved"); ("txHash", get "txHash" b);
   ("tokenId", get "tokenId" b); ("metadataURI", get "metadataURI" b)].

(** The property names [minted_fields] writes. *)
Definition minted_keys : list string :=
  ["status"; "txHash"; "tokenId"; "metadataURI"].

Definition double_quoted (s : string) : string :=
  String "034"%char (s +:+ String "034"%char EmptyString).

Definition error_body (msg : string) : value := VObj [("error", VStr msg)].

(** [res.status(500).json({ error: "Server error", details: err.message })]. *)
Definition server_error (err : error) : response :=
  json 500 (VObj [("error", VStr "Server error");
                  ("details", VStr (err_message err))]).

(** [res.status(201).json({ success: true, submission })]. *)
Definition created (submission : value) : response :=
  json 201 (VObj [("success", VBool true); ("submission", submission)]).

(** [arr.find((s) => s.id === id)]: [undefined] when no element passes;
    reading [.id] off a [null] element throws. *)
Fixpoint find_id (id : string) (l : list value) : outcome value :=
  match l with
  | [] => Ok VUndefined
  | s :: l' =>
      match s with
      | VUndefined | VNull =>
          Throw (TypeError "Cannot read properties of null (reading 'id')")
      | _ => if strict_eq_str (get "id" s) id then Ok s else find_id id l'
      end
  end.

(** One entry of the [attributes] array of the token metadata. *)
Definition trait (name : string) (v : value) : value :=
  VObj [("trait_type", VStr name); ("value", v)].

(** The token metadata the two later variants derive from a record. *)
Definition metadata_view (sub : value) : value :=
  VObj [("name", or_else (get "title" sub) (VStr "Untitled Submission"));
        ("description", or_else (get "description" sub) (VStr EmptyString));
        ("image", get "imageUrl" sub);
        ("metadataURI", get "imageUrl" sub);
        ("attributes",
         VArr [trait "Applicant Address" (get "applicantAddress" sub);
               trait "Latitude" (get "latitude" sub);
               trait "Longitude" (get "longitude" sub)])].

End Runtime.

Export Runtime.

(** ** The flat-file store shared by [server.js] and its two file-backed
       siblings *)

Module FlatFile.

(** The store is [submissions.json], absent until the first save. *)
Definition state : Type := Runtime.state (option text).

Definition readFile : M state text := λ s,
  match store s with
  | Some data => (Ok data, s)
  | None => (Throw (FsError "ENOENT" "ENOENT: no such file or directory"), s)
  end.

Definition writeFile (data : option text) : M state unit :=
  match data with
  | Some t => λ s, (Ok (), {| store := Some t; pinned := pinned s |})
  | None => throw (TypeError "The data argument must be of type string")
  end.

Definition JSON_parse (data : text) : M state value :=
  match JSON.parse data with
  | Some v => mret v
  | None => throw (SyntaxError "Unexpected token in JSON")
  end.

Definition loadSubmissions : M state value :=
  try_catch (data ← readFile; JSON_parse data)
    (λ err, if strict_eq_str (err_code err) "ENOENT" then mret (VArr [])
            else throw err).

Definition saveSubmissions (arr : value) : M state unit :=
  writeFile (JSON.stringify arr).

(** [!body || !body.description], the first test of every file-backed
    submit handler. *)
Definition description_missing (req : upload_request) : bool :=
  let body := req_body req in
  negb (truthy body) || negb (truthy (get "description" body)).

(** The value the file text denotes; an absent file counts as the empty
    array. *)
Definition reads (s : state) (v : value) : Prop :=
  match store s with
  | None => v = VArr []
  | Some data => JSON.parse data = Some v
  end.

(** The file holds the array [l], and every Number in it is one that
    JSON text keeps as it is: finite, and not negative zero. *)
Definition holds (s : state) (l : list value) : Prop :=
  reads s (VArr l) ∧ forallb clean l = true.

(** The text [saveSubmissions] writes for the array [l]. *)
Definition saved (l : list value) : text :=
  default [] (JSON.stringify (VArr l)).

(** [POST /api/submissions/:id/minted], identical in [server.js] and the
    later file-backed variant. *)
Definition markMinted (id : string) (req_body : value)
  : state → response * state :=
  handle
    (b ← destructure req_body;
     submissions ← loadSubmissions;
     l ← as_array "findIndex" submissions;
     idx ← lift (findIndex_id id l);
     match idx with
     | None => mret (json 404 (error_body "Not found"))
     | Some i =>
         let updated :=
           VObj (spread (own_props (default VUndefined (l !! i)))
                   (minted_fields b)) in
         let l' := <[i := updated]> l in
         _ ← saveSubmissions (VArr l');
         mret (json 200 (VObj [("success", VBool true); ("submission", updated)]))
     end)
    (λ _, json 500 (error_body "Failed to mark minted")).

(** The submit pipeline of the file-backed variants, which differ in the
    wording of the missing-file message and in the record they assemble. *)
Definition submit (missing_file : string)
    (assemble : world → value → upload → value → value)
    (w : world) (req : upload_request) : state → response * state :=
  handle
    (let body := req_body req in
     if negb (truthy body) || negb (truthy (get "description" body)) then
       mret (json 400 (error_body "Missing required field: description"))
     else
       match req_file req with
       | None => mret (json 400 (error_body missing_file))
       | Some file =>
           let form := pinata_form (PINATA_JWT w) body file in
           if negb (env_truthy (PINATA_JWT w)) then
             mret (json 500 (error_body "Pinata JWT not configured on server"))
           else
             data ← axios_post form w;
             let ipfsHash := opt_get "IpfsHash" data in
             let submission := assemble w body file ipfsHash in
             submissions ← loadSubmissions;
             l ← as_array "push" submissions;
             _ ← saveSubmissions (VArr (l ++ [submission]));
             mret (created submission)
       end)
    server_error.

End FlatFile.

(** ** [server.js] *)

Module Server.

Definition submission_record (w : world) (body : value) (file : upload)
    (ipfsHash : value) : value :=
  VObj [("id", VStr (uuidv4 w));
        ("applicantAddress", or_else (get "applicantAddress" body) VNull);
        ("title", or_else (get "name" body) VNull);
        ("description", or_else (get "description" body) VNull);
        ("latitude", or_else (get "latitude" body) VNull);
        ("longitude", or_else (get "longitude" body) VNull);
        ("ipfsHash", ipfsHash);
        ("imageUrl", gateway_url ipfsHash);
        ("originalFileName", VStr (originalname file));
        ("mimeType", VStr (mimetype file));
        ("size", VNum (size file));
        ("createdAt", VStr (now w));
        ("status", VStr "pending")].

(** [POST /submitData]. *)
Definition submitData
  : world → upload_request → FlatFile.state → response * FlatFile.state :=
  FlatFile.submit
    ("Missing image file (field name must be " +:+ double_quoted "image" +:+ ")")
    submission_record.

(** The route: [app.post("/submitData", upload.single("image"), ...)]. *)
Definition submitData_route (w : world)
  : http_request → FlatFile.state → response * FlatFile.state :=
  upload_route "image" (submitData w).

(** [GET /api/submissions]. *)
Definition getSubmissions : FlatFile.state → response * FlatFile.state :=
  handle (submissions ← FlatFile.loadSubmissions; mret (json 200 submissions))
    (λ _, json 500 (error_body "Failed to read submissions")).

(** [POST /api/submissions/:id/minted]. *)
Definition markMinted
  : string → value → FlatFile.state → response * FlatFile.state :=
  FlatFile.markMinted.

(** [GET /api/submissions/:id/metadata]: this variant answers with the
    image URL alone. *)
Definition getMetadata (id : string)
  : FlatFile.state → response * FlatFile.state :=
  handle
    (submissions ← FlatFile.loadSubmissions;
     l ← as_array "find" submissions;
     sub ← lift (find_id id l);
     if negb (truthy sub) then mret (json 404 (error_body "Not found"))
     else mret (json 200 (VObj [("metadataURI", get "imageUrl" sub)])))
    (λ _, json 500 (error_body "Error fetching metadata")).

End Server.

(** ** The later file-backed variant, serving [/api/submissions] *)

Module FileApi.

Definition submission_record := Server.submission_record.

Definition postSubmission
  : world → upload_request → FlatFile.state → response * FlatFile.state :=
  FlatFile.submit
    ("Missing file (field name must be " +:+ double_quoted "file" +:+ ")")
    submission_record.

(** The route: [app.post("/api/submissions", upload.single("file"), ...)]. *)
Definition postSubmission_route (w : world)
  : http_request → FlatFile.state → response * FlatFile.state :=
  upload_route "file" (postSubmission w).

Definition getSubmissions : FlatFile.state → response * FlatFile.state :=
  Server.getSubmissions.

Definition markMinted
  : string → value → FlatFile.state → response * FlatFile.state :=
  FlatFile.markMinted.

(** [GET /api/submissions/:id/metadata]. *)
Definition getMetadata (id : string)
  : FlatFile.state → response * FlatFile.state :=
  handle
    (submissions ← FlatFile.loadSubmissions;
     l ← as_array "find" submissions;
     sub ← lift (find_id id l);
     if negb (truthy sub) then mret (json 404 (error_body "Not found"))
     else mret (json 200 (metadata_view sub)))
    (λ _, json 500 (error_body "Error fetching metadata")).

End FileApi.

(** ** The first variant: [/submitData] and [/getSubmissions] only *)

Module Legacy.

(** The record of this variant has no [status], and names its fields
    [name] and [ipfsUrl]. *)
Definition submission_record (w : world) (body : value) (file : upload)
    (ipfsHash : value) : value :=
  VObj [("id", VStr (uuidv4 w));
        ("name", or_else (get "name" body) VNull);
        ("description", or_else (get "description" body) VNull);
        ("latitude", or_else (get "latitude" body) VNull);
        ("longitude", or_else (get "longitude" body) VNull);
        ("ipfsHash", ipfsHash);
        ("ipfsUrl", gateway_url ipfsHash);
        ("originalFileName", VStr (originalname file));
        ("mimeType", VStr (mimetype file));
        ("size", VNum (size file));
        ("createdAt", VStr (now w))].

Definition submitData
  : world → upload_request → FlatFile.state → response * FlatFile.state :=
  FlatFile.submit
    ("Missing image file (field name must be " +:+ double_quoted "image" +:+ ")")
    submission_record.

(** The route: [app.post('/submitData', upload.single('file'), ...)],
    whose field name is not the one the handler's message gives. *)
Definition submitData_route (w : world)
  : http_request → FlatFile.state → response * FlatFile.state :=
  upload_route "file" (submitData w).

(** [GET /getSubmissions]. *)
Definition getSubmissions : FlatFile.state → response * FlatFile.state :=
  handle (submissions ← FlatFile.loadSubmissions;
          mret (json 200 (VObj [("submissions", submissions)])))
    (λ _, json 500 (error_body "Failed to read submissions")).

End Legacy.

(** ** The remote table store *)

Module Supabase.

(** Modelled from the spec: the managed relational backend behind
    [supabase.from(table)] is an external service, known here only by the
    contract of section 4.2 ([insert], [selectAll] with an order,
    [updateWhere]).  A table is the sequence of its rows; a row is sent
    and stored as JSON, so [undefined] members never reach it; a call
    answers with [data] or with [error], and never throws. *)
Definition table : Type := list obj.

Record db : Type := { submissions : table; projects : table }.

Inductive table_name : Type := Submissions | Projects.

Definition rows (t : table_name) (d : db) : table :=
  match t with
  | Submissions => submissions d
  | Projects => projects d
  end.

Definition with_rows (t : table_name) (r : table) (d : db) : db :=
  match t with
  | Submissions => {| submissions := r; projects := projects d |}
  | Projects => {| submissions := submissions d; projects := r |}
  end.

Definition state : Type := Runtime.state db.

Inductive reply (A : Type) : Type :=
| Data (data : A)
| Error (error : Runtime.error).
Arguments Data {A} data.
Arguments Error {A} error.

(** Modelled from the spec: a remote call that errors (section 4.2,
    [StorageError]) leaves the table as it was. *)
Definition remote {A} (w : world) (call : M state (reply A))
  : M state (reply A) :=
  match store_error w with
  | Some msg => mret (Error (StoreError msg))
  | None => call
  end.

(** The table after one more row. *)
Definition inserted (t : table_name) (row : obj) (s : state) : state :=
  {| store := with_rows t (rows t (store s) ++ [norm_obj row]) (store s);
     pinned := pinned s |}.

(** Modelled from the spec: [insert(table, record)] appends the row and
    answers with the stored row. *)
Definition insert (w : world) (t : table_name) (row : obj)
  : M state (reply obj) :=
  remote w (λ s, (Ok (Data (norm_obj row)), inserted t row s)).

(** The sort key of a row: the text of the column, [None] for SQL NULL. *)
Definition sort_key (col : string) (row : obj) : option string :=
  match lookup col row with
  | VStr s => Some s
  | _ => None
  end.

(** [ORDER BY col DESC]: larger keys first, NULLs before everything. *)
Definition desc_leb (col : string) (r1 r2 : obj) : bool :=
  match sort_key col r1, sort_key col r2 with
  | None, _ => true
  | Some _, None => false
  | Some a, Some b => String.leb b a
  end.

Definition desc (col : string) : relation obj :=
  λ r1 r2, desc_leb col r1 r2 = true.

#[global] Instance desc_dec col r1 r2 : Decision (desc col r1 r2) :=
  decide (desc_leb col r1 r2 = true).

(** Modelled from the spec: [selectAll(table, orderBy, descending)]. *)
Definition select_order_desc (w : world) (t : table_name) (col : string)
  : M state (reply (list obj)) :=
  remote w (λ s, (Ok (Data (merge_sort (desc col) (rows t (store s)))), s)).

Definition matches (col val : string) (row : obj) : bool :=
  strict_eq_str (lookup col row) val.

(** The rows a filter [.eq(col, val)] selects. *)
Definition selected (col val : string) (t : table) : list obj :=
  filter (λ r, matches col val r = true) t.

(** The table after the selected rows took the patch. *)
Definition patched (col val : string) (sent : obj) (t : table) : table :=
  map (λ r, if matches col val r then spread r sent else r) t.

(** Modelled from the spec: [updateWhere(table, field, value, patch)]
    asked for exactly one updated row ([.select().single()]).  When the
    filter selects one row, the patch is applied and the new row is the
    answer; with no row or several, the answer is an error and nothing
    is changed. *)
Definition update_eq_single (w : world) (t : table_name) (patch : obj)
    (col val : string) : M state (reply obj) :=
  remote w (λ s,
    let sent := norm_obj patch in
    match selected col val (rows t (store s)) with
    | [r] =>
        (Ok (Data (spread r sent)),
         {| store :=
              with_rows t (patched col val sent (rows t (store s))) (store s);
            pinned := pinned s |})
    | _ =>
        (Ok (Error (StoreError
                      "JSON object requested, multiple (or no) rows returned")), s)
    end).

(** Modelled from the spec: an insert asked for the stored row back
    ([.insert([row]).select().single()]). *)
Definition insert_single (w : world) (t : table_name) (row : obj)
  : M state (reply obj) := insert w t row.

(** [if (error) throw error]. *)
Definition or_throw {A} (r : reply A) : M state A :=
  match r with
  | Data d => mret d
  | Error e => throw e
  end.

(** Modelled from the spec: [selectWhere(table, field, value)] asked for
    exactly one row ([.select("*").eq(col, val).single()]): with no row
    or several, the answer is an error. *)
Definition select_eq_single (w : world) (t : table_name) (col val : string)
  : M state (reply obj) :=
  remote w (λ s,
    match selected col val (rows t (store s)) with
    | [r] => (Ok (Data r), s)
    | _ =>
        (Ok (Error (StoreError
                      "JSON object requested, multiple (or no) rows returned")), s)
    end).

End Supabase.

(** ** The table-backed server *)

Module Api.

Import Supabase.

(** [!body?.description]. *)
Definition description_absent (req : upload_request) : bool :=
  negb (truthy (opt_get "description" (req_body req))).

(** What [markMinted] sends as the patch: the minted fields as JSON. *)
Definition sent (b : value) : obj := norm_obj (minted_fields b).

Definition submission_record (w : world) (body : value) (file : upload)
    (ipfsHash : value) : value :=
  VObj [("id", VStr (uuidv4 w));
        ("applicantAddress", or_else (get "applicantAddress" body) VNull);
        ("title", or_else (get "name" body) VNull);
        ("description", get "description" body);
        ("latitude", or_else (get "latitude" body) VNull);
        ("longitude", or_else (get "longitude" body) VNull);
        ("ipfsHash", ipfsHash);
        ("imageUrl", gateway_url ipfsHash);
        ("originalFileName", VStr (originalname file));
        ("mimeType", VStr (mimetype file));
        ("size", VNum (size file));
        ("createdAt", VStr (now w));
        ("status", VStr "pending")].

(** [POST /api/submissions]. *)
Definition postSubmission (w : world) (req : upload_request)
  : Supabase.state → response * Supabase.state :=
  handle
    (let body := req_body req in
     if negb (truthy (opt_get "description" body)) then
       mret (json 400 (error_body "Missing description"))
     else
       match req_file req with
       | None => mret (json 400 (error_body "Missing file (field name 'file')"))
       | Some file =>
           data ← axios_post (pinata_form (PINATA_JWT w) body file) w;
           let ipfsHash := opt_get "IpfsHash" data in
           let submission := submission_record w body file ipfsHash in
           r ← insert w Submissions (own_props submission);
           _ ← or_throw r;
           mret (created submission)
       end)
    server_error.

(** The route: [app.post("/api/submissions", upload.single("file"), ...)]. *)
Definition postSubmission_route (w : world)
  : http_request → Supabase.state → response * Supabase.state :=
  upload_route "file" (postSubmission w).

(** [GET /api/submissions]. *)
Definition getSubmissions (w : world)
  : Supabase.state → response * Supabase.state :=
  handle
    (r ← select_order_desc w Submissions "createdAt";
     data ← or_throw r;
     mret (json 200 (VArr (map VObj data))))
    (λ _, json 500 (error_body "Failed to fetch submissions")).

(** [POST /api/submissions/:id/minted]. *)
Definition markMinted (w : world) (id : string) (req_body : value)
  : Supabase.state → response * Supabase.state :=
  handle
    (b ← destructure req_body;
     r ← update_eq_single w Submissions (minted_fields b) "id" id;
     data ← or_throw r;
     mret (json 200 (VObj [("success", VBool true); ("submission", VObj data)])))
    (λ _, json 500 (error_body "Failed to mark minted")).

(** [POST /api/projects]. *)
Definition postProject (w : world) (req_body : value)
  : Supabase.state → response * Supabase.state :=
  handle
    (b ← destructure req_body;
     let projectId := get "projectId" b in
     let projectName := get "projectName" b in
     let latitude := get "latitude" b in
     let longitude := get "longitude" b in
     let ecosystemType := get "ecosystemType" b in
     let ownership := get "ownership" b in
     let governance := get "governance" b in
     let implementingAgency := get "implementingAgency" b in
     let projectDescription := get "projectDescription" b in
     let area := get "area" b in
     let establishmentDate := get "establishmentDate" b in
     if negb (truthy projectId) || negb (truthy projectName)
        || negb (truthy latitude) || negb (truthy longitude)
        || negb (truthy ecosystemType) || negb (truthy implementingAgency)
     then mret (json 400 (error_body "Missing required fields"))
     else
       r ← insert_single w Projects
             [("projectId", projectId); ("projectName", projectName);
              ("latitude", latitude); ("longitude", longitude);
              ("ecosystemType", ecosystemType); ("ownership", ownership);
              ("governance", governance);
              ("implementingAgency", implementingAgency);
              ("projectDescription", projectDescription); ("area", area);
              ("establishmentDate", establishmentDate);
              ("status", VStr "draft"); ("createdAt", VStr (now w))];
       data ← or_throw r;
       mret (json 201 (VObj [("success", VBool true); ("project", VObj data)])))
    server_error.

(** [GET /api/submissions/:id/metadata]: whatever error the store
    reports is answered as 404. *)
Definition getMetadata (w : world) (id : string)
  : Supabase.state → response * Supabase.state :=
  handle
    (r ← select_eq_single w Submissions "id" id;
     match r with
     | Error _ => mret (json 404 (error_body "Not found"))
     | Data data => mret (json 200 (metadata_view (VObj data)))
     end)
    (λ _, json 500 (error_body "Error fetching metadata")).

(** [GET /api/projects]. *)
Definition getProjects (w : world)
  : Supabase.state → response * Supabase.state :=
  handle
    (r ← select_order_desc w Projects "createdAt";
     data ← or_throw r;
     mret (json 200 (VArr (map VObj data))))
    (λ _, json 500 (error_body "Failed to fetch projects")).

(** [PUT /api/projects/:id/submit]. *)
Definition submitProject (w : world) (id : string)
  : Supabase.state → response * Supabase.state :=
  handle
    (r ← update_eq_single w Projects [("status", VStr "submitted")]
           "projectId" id;
     data ← or_throw r;
     mret (json 200 (VObj [("success", VBool true); ("project", VObj data)])))
    (λ _, json 500 (error_body "Failed to submit project")).

End Api.

(** ** The project-data routes of the table-backed server *)

Module ProjectData.

(** Modelled from the spec: the three further tables of the table-backed
    server, behind the same contract as [Supabase].  The routes below
    touch no other table, so they are given a store of their own. *)
Record db : Type :=
  { baseline_data : Supabase.table;
    activities : Supabase.table;
    mrv_data : Supabase.table }.

Inductive table_name : Type := BaselineData | Activities | MrvData.

Definition rows (t : table_name) (d : db) : Supabase.table :=
  match t with
  | BaselineData => baseline_data d
  | Activities => activities d
  | MrvData => mrv_data d
  end.

Definition with_rows (t : table_name) (r : Supabase.table) (d : db) : db :=
  match t with
  | BaselineData =>
      {| baseline_data := r; activities := activities d;
         mrv_data := mrv_data d |}
  | Activities =>
      {| baseline_data := baseline_data d; activities := r;
         mrv_data := mrv_data d |}
  | MrvData =>
      {| baseline_data := baseline_data d; activities := activities d;
         mrv_data := r |}
  end.

Definition state : Type := Runtime.state db.

(** Modelled from the spec: a remote call that errors leaves the table
    as it was. *)
Definition remote {A} (w : world) (call : M state (Supabase.reply A))
  : M state (Supabase.reply A) :=
  match store_error w with
  | Some msg => mret (Supabase.Error (StoreError msg))
  | None => call
  end.

(** Modelled from the spec: [.insert([row]).select().single()] appends
    the row and answers with the stored row. *)
Definition insert_single (w : world) (t : table_name) (row : obj)
  : M state (Supabase.reply obj) :=
  remote w (λ s,
    (Ok (Supabase.Data (norm_obj row)),
     {| store := with_rows t (rows t (store s) ++ [norm_obj row]) (store s);
        pinned := pinned s |})).

(** Modelled from the spec: [.select("*").eq(col, val)], the matching rows
    in table order. *)
Definition select_eq (w : world) (t : table_name) (col val : string)
  : M state (Supabase.reply (list obj)) :=
  remote w (λ s,
    (Ok (Supabase.Data (Supabase.selected col val (rows t (store s)))), s)).

(** Modelled from the spec:
    [.select("*").eq(col, val).order(by, { ascending: false })]. *)
Definition select_eq_order_desc (w : world) (t : table_name)
    (col val by_col : string) : M state (Supabase.reply (list obj)) :=
  remote w (λ s,
    (Ok (Supabase.Data
           (merge_sort (Supabase.desc by_col)
              (Supabase.selected col val (rows t (store s))))), s)).

(** [if (error) throw error]. *)
Definition or_throw {A} (r : Supabase.reply A) : M state A :=
  match r with
  | Supabase.Data d => mret d
  | Supabase.Error e => throw e
  end.

(** [res.status(500).json({ error: err.message })]. *)
Definition message_error (err : error) : response :=
  json 500 (error_body (err_message err)).

(** [POST /api/baseline]. *)
Definition postBaseline (w : world) (req_body : value)
  : state → response * state :=
  handle
    (b ← destructure req_body;
     let projectId := get "projectId" b in
     let vegetationCover := get "vegetationCover" b in
     let ndvi := get "ndvi" b in
     let soilOrganicCarbon := get "soilOrganicCarbon" b in
     let bulkDensity := get "bulkDensity" b in
     let soilDepth := get "soilDepth" b in
     let historicalLandUse := get "historicalLandUse" b in
     let samplingDate := get "samplingDate" b in
     let samplingMethod := get "samplingMethod" b in
     let laboratoryCertification := get "laboratoryCertification" b in
     let carbonStock := get "carbonStock" b in
     if negb (truthy projectId) || negb (truthy samplingDate)
     then mret (json 400 (error_body "Missing required fields"))
     else
       r ← insert_single w BaselineData
             [("projectId", projectId); ("vegetationCover", vegetationCover);
              ("ndvi", ndvi); ("soilOrganicCarbon", soilOrganicCarbon);
              ("bulkDensity", bulkDensity); ("soilDepth", soilDepth);
              ("historicalLandUse", historicalLandUse);
              ("samplingDate", samplingDate);
              ("samplingMethod", samplingMethod);
              ("laboratoryCertification", laboratoryCertification);
              ("carbonStock", carbonStock); ("createdAt", VStr (now w))];
       data ← or_throw r;
       mret (json 201 (VObj [("success", VBool true); ("baseline", VObj data)])))
    server_error.

(** [GET /api/baseline/:projectId]. *)
Definition getBaseline (w : world) (projectId : string)
  : state → response * state :=
  handle
    (r ← select_eq w BaselineData "projectId" projectId;
     data ← or_throw r;
     mret (json 200 (VObj [("success", VBool true);
                           ("baseline", VArr (map VObj data))])))
    message_error.

(** [POST /api/activities]. *)
Definition postActivity (w : world) (req_body : value)
  : state → response * state :=
  handle
    (b ← destructure req_body;
     let projectId := get "projectId" b in
     let type := get "type" b in
     let date := get "date" b in
     let species := get "species" b in
     let saplings := get "saplings" b in
     let area := get "area" b in
     let maintenance := get "maintenance" b in
     let crew := get "crew" b in
     let coordinates := get "coordinates" b in
     let photos := get "photos" b in
     let status := get "status" b in
     if negb (truthy projectId) || negb (truthy type) || negb (truthy date)
     then mret (json 400 (error_body "Missing required fields"))
     else
       r ← insert_single w Activities
             [("projectId", projectId); ("type", type); ("date", date);
              ("species", species); ("saplings", saplings); ("area", area);
              ("maintenance", maintenance); ("crew", crew);
              ("coordinates", coordinates); ("photos", photos);
              ("status", or_else status (VStr "planned"));
              ("createdAt", VStr (now w))];
       data ← or_throw r;
       mret (json 201 (VObj [("success", VBool true); ("activity", VObj data)])))
    server_error.

(** [GET /api/activities/:projectId]. *)
Definition getActivities (w : world) (projectId : string)
  : state → response * state :=
  handle
    (r ← select_eq w Activities "projectId" projectId;
     data ← or_throw r;
     mret (json 200 (VObj [("success", VBool true);
                           ("activities", VArr (map VObj data))])))
    message_error.

(** [POST /api/mrv]. *)
Definition postMrv (w : world) (req_body : value)
  : state → response * state :=
  handle
    (b ← destructure req_body;
     let projectId := get "projectId" b in
     let date := get "date" b in
     let type := get "type" b in
     let source := get "source" b in
     let ndvi := get "ndvi" b in
     let evi := get "evi" b in
     let carbonStock := get "carbonStock" b in
     let changeDetection := get "changeDetection" b in
     let status := get "status" b in
     if negb (truthy projectId) || negb (truthy date) || negb (truthy type)
     then mret (json 400 (error_body "Missing required fields"))
     else
       r ← insert_single w MrvData
             [("projectId", projectId); ("date", date); ("type", type);
              ("source", source); ("ndvi", ndvi); ("evi", evi);
              ("carbonStock", carbonStock);
              ("changeDetection", changeDetection);
              ("status", or_else status (VStr "pending"));
              ("createdAt", VStr (now w))];
       data ← or_throw r;
       mret (json 201 (VObj [("success", VBool true); ("mrv", VObj data)])))
    server_error.

(** [GET /api/mrv/:projectId]. *)
Definition getMrv (w : world) (projectId : string)
  : state → response * state :=
  handle
    (r ← select_eq w MrvData "projectId" projectId;
     data ← or_throw r;
     mret (json 200 (VObj [("success", VBool true);
                           ("mrv", VArr (map VObj data))])))
    message_error.

End ProjectData.

(** ** The stand-alone MRV router *)

Module MrvRouter.

Import ProjectData.

(** [res.status(500).json({ error: msg, details: err.message })]. *)
Definition failed (msg : string) (err : error) : response :=
  json 500 (VObj [("error", VStr msg); ("details", VStr (err_message err))]).

(** [router.post("/")]: the row goes to the table with snake-case column
    names, and nothing in the body is required. *)
Definition create (w : world) (req_body : value) : state → response * state :=
  handle
    (b ← destructure req_body;
     let projectId := get "projectId" b in
     let date := get "date" b in
     let type := get "type" b in
     let source := get "source" b in
     let ndvi := get "ndvi" b in
     let evi := get "evi" b in
     let carbonStock := get "carbonStock" b in
     let changeDetection := get "changeDetection" b in
     let status := get "status" b in
     r ← insert_single w MrvData
           [("project_id", projectId); ("date", date); ("type", type);
            ("source", source); ("ndvi", ndvi); ("evi", evi);
            ("carbon_stock", carbonStock);
            ("change_detection", changeDetection);
            ("status", or_else status (VStr "pending"))];
     data ← or_throw r;
     mret (json 200 (VObj [("success", VBool true); ("mrv", VObj data)])))
    (failed "Failed to save MRV data").

(** [router.get("/:projectId")]. *)
Definition byProject (w : world) (projectId : string)
  : state → response * state :=
  handle
    (r ← select_eq_order_desc w MrvData "project_id" projectId "date";
     data ← or_throw r;
     mret (json 200 (VArr (map VObj data))))
    (failed "Failed to fetch MRV data").

End MrvRouter.

(** ** Sample requests and stores *)

Module Example.

Definition photo : upload :=
  {| originalname := "mangrove.png"; mimetype := "image/png"; size := 2048;
     buffer := "PNG"; size_ok := eq_refl |}.

Definition t1 : string := "2025-01-01T10:00:00.000Z".
Definition t2 : string := "2025-01-02T10:00:00.000Z".
Definition t3 : string := "2025-01-03T10:00:00.000Z".

(** The pinning service accepted the file and named it [h]. *)
Definition pinned_as (h : string) : pin_outcome :=
  PinResolved (VObj [("IpfsHash", VStr h); ("PinSize", VNum 2048)]).

(** The pinning service answered 200 with a body that names no hash. *)
Definition no_hash : pin_outcome := PinResolved (VObj []).

Definition unreachable : pin_outcome := PinRejected "connect ECONNREFUSED".

Definition outside (t : string) (p : pin_outcome) : world :=
  {| PINATA_JWT := Some "jwt"; pin := p; uuidv4 := "id-" +:+ t; now := t;
     store_error := None |}.

Definition request : upload_request :=
  {| req_body := VObj [("description", VStr "Mangrove plot");
                       ("name", VStr "Asha")];
     req_file := Some photo |}.

Definition no_description : upload_request :=
  {| req_body := VObj [("name", VStr "Asha")]; req_file := Some photo |}.

Definition no_file : upload_request :=
  {| req_body := VObj [("description", VStr "Mangrove plot")];
     req_file := None |}.

Definition fresh : FlatFile.state := {| store := None; pinned := [] |}.

Definition empty_db : Supabase.state :=
  {| store := {| Supabase.submissions := []; Supabase.projects := [] |};
     pinned := [] |}.

(** Three submissions, made at [t1], [t2] and [t3] in that order. *)
Definition after_three : FlatFile.state :=
  let s1 := (Server.submitData (outside t1 (pinned_as "Qm1")) request fresh).2 in
  let s2 := (Server.submitData (outside t2 (pinned_as "Qm2")) request s1).2 in
  (Server.submitData (outside t3 (pinned_as "Qm3")) request s2).2.

Definition db_three : Supabase.state :=
  let s1 := (Api.postSubmission (outside t1 (pinned_as "Qm1")) request empty_db).2 in
  let s2 := (Api.postSubmission (outside t2 (pinned_as "Qm2")) request s1).2 in
  (Api.postSubmission (outside t3 (pinned_as "Qm3")) request s2).2.

(** The rows of [db_three], in the order they were inserted. *)
Definition row (i : nat) : obj :=
  default [] (Supabase.submissions (store db_three) !! i).

(** What the file of [after_three] holds. *)
Definition stored : list value :=
  match (FlatFile.loadSubmissions after_three).1 with
  | Ok (VArr l) => l
  | _ => []
  end.

(** One field of each element of a listing. *)
Definition column (k : string) (r : response) : list value :=
  match payload r with
  | VArr l => map (get k) l
  | _ => []
  end.

Definition evidence : value :=
  VObj [("txHash", VStr "0xabc"); ("tokenId", VNum 7);
        ("metadataURI", VStr "ipfs://meta")].

(** A project on the equator: every required field is there, and the
    latitude is the number zero. *)
Definition equator_project : value :=
  VObj [("projectId", VStr "P-1"); ("projectName", VStr "Equator mangroves");
        ("latitude", VNum 0); ("longitude", VNum 73);
        ("ecosystemType", VStr "mangrove");
        ("implementingAgency", VStr "Forest Department")].

(** The file exists and does not hold JSON. *)
Definition corrupt : FlatFile.state :=
  {| store := Some (JSON.text_of_string "<html>"); pinned := [] |}.

(** The server was started with [PINATA_JWT] set to the empty string. *)
Definition no_jwt (t : string) (p : pin_outcome) : world :=
  {| PINATA_JWT := Some EmptyString; pin := p; uuidv4 := "id-" +:+ t;
     now := t; store_error := None |}.

(** The server was started without [PINATA_JWT]. *)
Definition unset_jwt (t : string) (p : pin_outcome) : world :=
  {| PINATA_JWT := None; pin := p; uuidv4 := "id-" +:+ t; now := t;
     store_error := None |}.

(** The managed store is down. *)
Definition store_down (t : string) (p : pin_outcome) : world :=
  {| PINATA_JWT := Some "jwt"; pin := p; uuidv4 := "id-" +:+ t; now := t;
     store_error := Some "fetch failed" |}.

(** A request that names no uploader. *)
Definition anonymous : upload_request :=
  {| req_body := VObj [("description", VStr "Mangrove plot")];
     req_file := Some photo |}.

Definition project : value :=
  VObj [("projectId", VStr "P-1"); ("projectName", VStr "Sundarbans east");
        ("latitude", VStr "21.95"); ("longitude", VStr "89.18");
        ("ecosystemType", VStr "mangrove");
        ("implementingAgency", VStr "Forest Department")].

(** The table store after [project] was created at [t1]. *)
Definition db_project : Supabase.state :=
  (Api.postProject (outside t1 no_hash) project empty_db).2.

Definition no_data : ProjectData.state :=
  {| store := {| ProjectData.baseline_data := [];
                 ProjectData.activities := [];
                 ProjectData.mrv_data := [] |};
     pinned := [] |}.

Definition baseline : value :=
  VObj [("projectId", VStr "P-1"); ("samplingDate", VStr "2025-01-01");
        ("soilDepth", VNum 30)].

Definition planting : value :=
  VObj [("projectId", VStr "P-1"); ("type", VStr "planting");
        ("date", VStr "2025-01-02"); ("saplings", VNum 500)].

Definition survey (date : string) : value :=
  VObj [("projectId", VStr "P-1"); ("type", VStr "satellite");
        ("date", VStr date)].

(** A multipart request that the middleware reads without a fault. *)
Definition multipart (body : value) (parts : list (string * upload))
  : http_request :=
  {| json_fault := None; fields := body; parse_fault := None;
     files := parts |}.

(** A described photo, sent under the field name [name]. *)
Definition described (name : string) : http_request :=
  multipart (VObj [("description", VStr "Mangrove plot");
                   ("name", VStr "Asha")]) [(name, photo)].



(** The description field is sent twice. *)
Definition twice_described : upload_request :=
  {| req_body := VObj [("description", VArr [VStr "a"; VStr "b"])];
     req_file := Some photo |}.


End Example.

(** * Facts about numbers *)

Module NumberFacts.

Import Number.


Lemma number_eq (x y : number) : num x = num y → x = y.
Proof.
  destruct x as [x Hx], y as [y Hy]. simpl. intros ->. f_equal. apply proof_irrel.
Qed.

Lemma make_num (x : number) : make (num x) = Some x.
Proof.
  destruct x as [x Hx]. unfold make. simpl.
  generalize (eq_refl (is_double x)).
  generalize (is_double x) at 2 3.
  intros b Hb. destruct b.
  - f_equal. by apply number_eq.
  - congruence.
Qed.

Lemma make_Some x n : make x = Some n → num n = x.
Proof.
  unfold make. generalize (eq_refl (is_double x)).
  generalize (is_double x) at 2 3. intros [] H; [|done]. by intros [= <-].
Qed.

Lemma sf_eqb_eq x y : sf_eqb x y = true → x = y.
Proof.
  destruct x as [s|s| |s m e], y as [s'|s'| |s' m' e']; simpl; try done.
  - by intros <-%Bool.eqb_prop.
  - by intros <-%Bool.eqb_prop.
  - intros [[<-%Bool.eqb_prop <-%Pos.eqb_eq]%andb_true_iff <-%Z.eqb_eq]%andb_true_iff.
    done.
Qed.

(** Digits *)

Lemma digit_of_digit_char d : digit_of_char (digit_char d) = Some d.
Proof. by destruct d. Qed.

Lemma read_digits_render ds rest :
  no_digit rest → read_digits (render ds ++ rest) = (ds, rest).
Proof.
  intros Hr. induction ds as [|d ds IH]; simpl.
  - destruct rest as [|c rest]; [done|]. simpl in *. by rewrite Hr.
  - change (read_digits (digit_char d :: (render ds ++ rest)) = (d :: ds, rest)).
    cbn [read_digits]. by rewrite digit_of_digit_char, IH.
Qed.

Lemma render_app a b : render (a ++ b) = render a ++ render b.
Proof. apply map_app. Qed.

Lemma render_zeros j : render (replicate j d0) = replicate j "0"%char.
Proof. induction j; simpl; by f_equal. Qed.

Lemma foldl_step acc ds :
  foldl step acc ds = (acc * 10 ^ N.of_nat (length ds) + foldl step 0%N ds)%N.
Proof.
  revert acc. induction ds as [|d ds IH]; intros acc.
  - simpl. lia.
  - cbn [foldl length]. rewrite IH, (IH (step 0%N d)).
    rewrite Nat2N.inj_succ, N.pow_succ_r'. unfold step. lia.
Qed.

Lemma value_of_app a b :
  value_of (a ++ b) = (value_of a * 10 ^ N.of_nat (length b) + value_of b)%N.
Proof. unfold value_of. rewrite foldl_app. apply foldl_step. Qed.

Lemma value_of_zeros j : value_of (replicate j d0) = 0%N.
Proof. induction j; [done|]. unfold value_of in *. simpl. exact IHj. Qed.

Lemma value_of_leading_zeros j ds : value_of (replicate j d0 ++ ds) = value_of ds.
Proof. rewrite value_of_app, value_of_zeros. lia. Qed.

Lemma value_of_trailing_zeros j ds :
  value_of (ds ++ replicate j d0) = (value_of ds * 10 ^ N.of_nat j)%N.
Proof. rewrite value_of_app, value_of_zeros, length_replicate. lia. Qed.

Lemma of_uint_acc_fold u acc :
  Npos (Pos.of_uint_acc u acc) = foldl step (Npos acc) (DecimalFacts.to_list u).
Proof.
  revert acc. induction u; intros acc; simpl; [done|..];
    rewrite IHu; f_equal; unfold step; simpl; lia.
Qed.

Lemma of_uint_fold u : N.of_uint u = value_of (DecimalFacts.to_list u).
Proof.
  unfold N.of_uint, value_of. induction u; simpl; [done|exact IHu|..];
    rewrite of_uint_acc_fold; f_equal.
Qed.

Lemma value_of_digits_of n : value_of (digits_of n) = n.
Proof. unfold digits_of. rewrite <- of_uint_fold. apply DecimalN.Unsigned.of_to. Qed.

Lemma digits_of_nonempty n : digits_of n ≠ [].
Proof.
  unfold digits_of. intros H.
  assert (N.to_uint n = Nil) as E by (by apply to_list_inj).
  pose proof (DecimalN.Unsigned.to_of (N.to_uint n)) as Hu.
  rewrite DecimalN.Unsigned.of_to, E in Hu. done.
Qed.

Lemma digits_of_head n ds : digits_of n = d0 :: ds → n = 0%N.
Proof.
  unfold digits_of. intros H.
  pose proof (DecimalN.Unsigned.to_of (N.to_uint n)) as Hu.
  rewrite DecimalN.Unsigned.of_to in Hu.
  destruct (N.to_uint n) as [|u| | | | | | | | |] eqn:E; try done.
  rewrite <- (DecimalN.Unsigned.of_to n), E.
  unfold unorm in Hu. destruct (nzhead (D0 u)) eqn:En; try done.
  - change (nzhead u = Nil) in En.
    clear -En. induction u; try done. simpl in *. auto.
  - by apply nzhead_nonzero in En.
Qed.

(** The shortest decimal denotes the number. *)

Lemma denotes_sound x sign s p d q :
  denotes x sign s p = Some (d, q) → of_decimal sign d q = x.
Proof.
  unfold denotes. destruct (strip_zeros 20 s p) as [s' p'].
  destruct (sf_eqb _ _) eqn:E; [|done]. intros [= <- <-]. by apply sf_eqb_eq.
Qed.

Lemma candidate_sound x sign num den n k d q :
  candidate x sign num den n k = Some (d, q) → of_decimal sign d q = x.
Proof.
  unfold candidate. destruct (if 0 <=? n - k then _ else _) as [tn td].
  destruct (denotes x sign (tn / td) _) as [[a1 a2]|] eqn:Ea;
    destruct (denotes x sign (tn / td + 1) _) as [[b1 b2]|] eqn:Eb;
    intros H; try done; repeat case_match; simplify_eq;
    eauto using denotes_sound.
Qed.

Lemma search_sound x sign num den n fuel k d q :
  search x sign num den n fuel k = Some (d, q) → of_decimal sign d q = x.
Proof.
  revert k. induction fuel as [|fuel IH]; intros k; [done|]. simpl.
  destruct (candidate x sign num den n k) as [[a1 a2]|] eqn:E.
  - intros [= <- <-]. by eapply candidate_sound.
  - apply IH.
Qed.

Lemma shortest_sound sign m e d p :
  shortest sign m e = Some (d, p) → of_decimal sign d p = S754_finite sign m e.
Proof.
  unfold shortest. destruct (ratio m e) as [num den]. apply search_sound.
Qed.

Lemma shortest_nonzero sign m e d p : shortest sign m e = Some (d, p) → d ≠ 0%N.
Proof. intros H%shortest_sound ->. done. Qed.

Lemma of_decimal_shift sign d j :
  d ≠ 0%N → 0 ≤ j ≤ 400 →
  of_decimal sign (d * 10 ^ Z.to_N j) 0 = of_decimal sign d j.
Proof.
  intros Hd Hj. destruct d as [|pd]; [done|].
  destruct (N.pos pd * 10 ^ Z.to_N j)%N as [|q] eqn:E.
  { exfalso. apply N.eq_mul_0 in E as [E|E]; [done|].
    by apply N.pow_nonzero in E. }
  unfold of_decimal.
  replace (0 <=? j) with true by (symmetry; apply Z.leb_le; lia).
  replace (400 <? j) with false by (symmetry; apply Z.ltb_ge; lia).
  cbn [Z.leb Z.ltb Z.compare]. do 2 f_equal.
  apply (f_equal Z.of_N) in E. rewrite N2Z.inj_mul, N2Z.inj_pow, Z2N.id in E by lia.
  simpl Z.of_N in E. rewrite <- E. lia.
Qed.

(** Reading back what [decimal_text] wrote *)

Lemma ends_no_digit rest : ends_number rest → no_digit rest.
Proof. destruct rest; [done|]. by intros [? _]. Qed.

Lemma read_frac_none rest : ends_number rest → read_frac rest = Some ([], rest).
Proof. destruct rest as [|c r]; [done|]. simpl. by intros (_ & -> & _). Qed.

Lemma read_exp_none rest : ends_number rest → read_exp rest = Some (0, rest).
Proof. destruct rest as [|c r]; [done|]. simpl. by intros (_ & _ & ->). Qed.

Lemma read_int_render d ds rest :
  d ≠ d0 → no_digit rest → read_int (render (d :: ds) ++ rest) = Some (d :: ds, rest).
Proof.
  intros Hd Hr.
  change (read_int (digit_char d :: (render ds ++ rest)) = Some (d :: ds, rest)).
  cbn [read_int]. rewrite digit_of_digit_char, read_digits_render by done.
  by destruct d.
Qed.

Lemma read_frac_render ds rest :
  ds ≠ [] → no_digit rest →
  read_frac ("."%char :: render ds ++ rest) = Some (ds, rest).
Proof.
  intros Hd Hr. cbn [read_frac]. rewrite Ascii.eqb_refl, read_digits_render by done.
  by destruct ds.
Qed.

Lemma read_exp_render e rest :
  no_digit rest →
  read_exp ("e"%char :: (if 0 <=? e then "+"%char else "-"%char)
            :: render (digits_of (Z.abs_N e)) ++ rest) = Some (e, rest).
Proof.
  intros Hr. cbn [read_exp]. cbn [Ascii.eqb Bool.eqb orb].
  destruct (0 <=? e) eqn:He; cbn [Ascii.eqb Bool.eqb];
    rewrite read_digits_render by done;
    pose proof (digits_of_nonempty (Z.abs_N e)) as Hne;
    destruct (digits_of (Z.abs_N e)) as [|x l] eqn:E; try done;
    rewrite <- E, value_of_digits_of; do 2 f_equal; lia.
Qed.

Lemma read_unsigned_text sign d p rest :
  d ≠ 0%N → ends_number rest →
  let ds := digits_of d in
  read_unsigned sign (decimal_text ds (p + Z.of_nat (length ds)) ++ rest)
  = Some (of_decimal sign d p, rest).
Proof.
  intros Hd Hrest ds.
  pose proof (ends_no_digit rest Hrest) as Hnd.
  pose proof (value_of_digits_of d) as Hv. fold ds in Hv.
  assert (Hhead : ∃ d1 ds', ds = d1 :: ds' ∧ d1 ≠ d0).
  { destruct ds as [|d1 ds'] eqn:E; [by apply digits_of_nonempty in E|].
    exists d1, ds'. split; [done|]. intros ->. by apply digits_of_head in E. }
  destruct Hhead as (d1 & ds' & Hds & Hd1).
  set (k := Z.of_nat (length ds)). set (n := p + k).
  assert (Hk : 1 ≤ k) by (unfold k; rewrite Hds; simpl; lia).
  unfold decimal_text. fold k.
  destruct ((k <=? n) && (n <=? 21)) eqn:C1.
  { apply andb_true_iff in C1 as [H1%Z.leb_le H2%Z.leb_le].
    rewrite <- render_zeros, <- render_app.
    unfold read_unsigned. rewrite Hds at 1. rewrite <- app_comm_cons.
    rewrite read_int_render by done. cbn [mbind option_bind].
    rewrite read_frac_none by done. cbn [mbind option_bind].
    rewrite read_exp_none by done. cbn [mbind option_bind].
    rewrite app_nil_r, app_comm_cons, <- Hds, value_of_trailing_zeros, Hv.
    replace (N.of_nat (Z.to_nat (n - k))) with (Z.to_N p) by (unfold n; lia).
    replace (0 - Z.of_nat (length (@nil digits))) with 0 by done.
    rewrite of_decimal_shift; [done|done|unfold n in *; lia]. }
  destruct ((0 <? n) && (n <=? 21)) eqn:C2.
  { apply andb_true_iff in C2 as [H1%Z.ltb_lt H2%Z.leb_le].
    assert (Hnk : n < k).
    { apply andb_false_iff in C1 as [C1|C1]; [by apply Z.leb_gt in C1|].
      apply Z.leb_gt in C1. lia. }
    assert (Htake : take (Z.to_nat n) ds = d1 :: take (Z.to_nat n - 1) ds').
    { rewrite Hds. destruct (Z.to_nat n) as [|j] eqn:En; [lia|].
      simpl. by rewrite Nat.sub_0_r. }
    assert (Hdrop : drop (Z.to_nat n) ds ≠ []).
    { intros E. apply (f_equal length) in E. rewrite length_drop in E.
      simpl in E. unfold k in Hnk. lia. }
    unfold read_unsigned. rewrite Htake, <- app_assoc.
    rewrite read_int_render by done. cbn [mbind option_bind].
    rewrite <- app_comm_cons, read_frac_render by done. cbn [mbind option_bind].
    rewrite read_exp_none by done. cbn [mbind option_bind].
    rewrite <- Htake, take_drop, Hv. do 3 f_equal.
    rewrite length_drop. unfold n, k in *. lia. }
  destruct ((-6 <? n) && (n <=? 0)) eqn:C3.
  { apply andb_true_iff in C3 as [H1%Z.ltb_lt H2%Z.leb_le].
    unfold read_unsigned. rewrite <- !app_comm_cons.
    cbn [read_int digit_of_char Ascii.eqb Bool.eqb]. cbn [mbind option_bind].
    rewrite <- render_zeros, <- render_app.
    rewrite read_frac_render; [|by rewrite Hds; destruct (Z.to_nat (- n))|done].
    cbn [mbind option_bind].
    rewrite read_exp_none by done. cbn [mbind option_bind].
    change ([d0] ++ replicate (Z.to_nat (- n)) d0 ++ ds)
      with (replicate (S (Z.to_nat (- n))) d0 ++ ds).
    rewrite value_of_leading_zeros, Hv. do 3 f_equal.
    rewrite length_app, length_replicate. unfold n, k in *. lia. }
  set (e := n - 1).
  assert (Hex : ∀ tl, no_digit tl →
            read_exp (("e"%char :: (if 0 <=? e then "+"%char else "-"%char)
                       :: render (digits_of (Z.abs_N e))) ++ tl) = Some (e, tl)).
  { intros tl Htl. rewrite <- !app_comm_cons. by apply read_exp_render. }
  unfold read_unsigned. rewrite Hds. destruct ds' as [|d2 ds''].
  - rewrite <- app_comm_cons.
    change (digit_char d1 :: ?t) with (render [d1] ++ t).
    rewrite read_int_render by done. cbn [mbind option_bind].
    rewrite <- app_comm_cons at 1. cbn [read_frac Ascii.eqb Bool.eqb].
    cbn [mbind option_bind]. rewrite app_comm_cons, Hex by done.
    cbn [mbind option_bind]. rewrite app_nil_r, <- Hds, Hv. do 3 f_equal.
    unfold e, n, k. rewrite Hds. simpl. lia.
  - rewrite <- app_comm_cons.
    change (digit_char d1 :: ?t) with (render [d1] ++ t).
    rewrite read_int_render by done. cbn [mbind option_bind].
    rewrite <- app_comm_cons, <- app_assoc, read_frac_render;
      [|done|by rewrite <- !app_comm_cons].
    cbn [mbind option_bind]. rewrite Hex by done. cbn [mbind option_bind].
    change ([d1] ++ d2 :: ds'') with (d1 :: d2 :: ds''). rewrite <- Hds, Hv.
    do 3 f_equal. unfold e, n, k. rewrite Hds. simpl length. lia.
Qed.

Lemma decimal_text_head ds n :
  ds ≠ [] → ∃ c t, decimal_text ds n = c :: t ∧ is_Some (digit_of_char c).
Proof.
  intros Hds. unfold decimal_text.
  destruct ds as [|d1 ds']; [done|].
  repeat case_match; simplify_eq; try (eexists _, _; split; [reflexivity|]);
    try (by rewrite digit_of_digit_char); try (by eexists).
  - destruct (Z.to_nat n) eqn:E; [|eexists _, _; split; [reflexivity|]]; simpl.
    + apply andb_true_iff in H0 as [?%Z.ltb_lt _]. lia.
    + by rewrite digit_of_digit_char.
Qed.

(** A finite number is read back from its text, negative zero as zero. *)
Lemma read_number_text (x : number) rest :
  is_finite x = true → ends_number rest →
  read_number (number_text x ++ rest) = Some (settled (num x), rest).
Proof.
  intros Hf Hrest. unfold number_text, is_finite in *.
  pose proof (num_ok x) as Hok. unfold is_double in Hok.
  destruct (num x) as [s|s| |s m e]; try done.
  - cbn [chars list_ascii_of_string app read_number Ascii.eqb Bool.eqb].
    unfold read_unsigned. cbn [read_int digit_of_char Ascii.eqb Bool.eqb].
    cbn [mbind option_bind]. rewrite read_frac_none by done.
    cbn [mbind option_bind]. rewrite read_exp_none by done. done.
  - apply andb_true_iff in Hok as [_ Hs]. apply bool_decide_eq_true_1 in Hs.
    destruct Hs as [[d p] Hs]. unfold finite_text. rewrite Hs.
    pose proof (shortest_sound _ _ _ _ _ Hs) as Hx.
    pose proof (shortest_nonzero _ _ _ _ _ Hs) as Hd.
    cbn [settled]. rewrite <- Hx.
    destruct (decimal_text_head (digits_of d) (p + Z.of_nat (length (digits_of d))))
      as (c & t & Et & [dc Hc]); [apply digits_of_nonempty|].
    destruct s.
    + rewrite <- app_assoc. cbn [app read_number Ascii.eqb Bool.eqb].
      by apply read_unsigned_text.
    + cbn [app]. rewrite Et. cbn [app read_number].
      assert (Ascii.eqb c "-"%char = false) as ->.
      { destruct (Ascii.eqb_spec c "-"%char) as [->|]; done. }
      rewrite app_comm_cons, <- Et. by apply read_unsigned_text.
Qed.

(** Integers *)

Lemma digits2_iter_xO m j :
  digits2_pos (Pos.iter xO m j) = (digits2_pos m + j)%positive.
Proof.
  induction j using Pos.peano_ind.
  - simpl. lia.
  - rewrite Pos.iter_succ. simpl. rewrite IHj. lia.
Qed.

Lemma digits2_bound m : 2 ^ (Zpos (digits2_pos m) - 1) ≤ Zpos m < 2 ^ Zpos (digits2_pos m).
Proof.
  induction m as [m IH|m IH|].
  - cbn [digits2_pos]. rewrite Pos2Z.inj_succ, Z.pow_succ_r by lia.
    replace (Z.succ (Z.pos (digits2_pos m)) - 1) with (Z.succ (Z.pos (digits2_pos m) - 1)) by lia.
    rewrite Z.pow_succ_r by lia. lia.
  - cbn [digits2_pos]. rewrite Pos2Z.inj_succ, Z.pow_succ_r by lia.
    replace (Z.succ (Z.pos (digits2_pos m)) - 1) with (Z.succ (Z.pos (digits2_pos m) - 1)) by lia.
    rewrite Z.pow_succ_r by lia. lia.
  - simpl. lia.
Qed.

Lemma binary_round_aux_exact sign mz ez :
  digits2_pos mz = 53%positive → -52 ≤ ez ≤ 0 →
  binary_round_aux prec emax sign (Zpos mz) ez loc_Exact = S754_finite sign mz ez.
Proof.
  intros Hd He. unfold binary_round_aux, shr_fexp. cbn [Zdigits2]. rewrite Hd.
  assert (fexp prec emax (53 + ez) - ez = 0) as ->
    by (unfold fexp, emin, prec, emax; lia).
  cbn [shr shr_record_of_loc shr_m loc_of_shr_record round_nearest_even Zdigits2].
  rewrite Hd.
  assert (fexp prec emax (53 + ez) - ez = 0) as ->
    by (unfold fexp, emin, prec, emax; lia).
  cbn [shr shr_m].
  replace (ez <=? emax - prec) with true; [done|].
  symmetry. apply Z.leb_le. unfold emax, prec. lia.
Qed.

(** An integer below [2 ^ 53] is a finite Number. *)
Lemma binary_round_small sign m :
  Zpos m < 2 ^ 53 →
  ∃ m' e', binary_round prec emax sign m 0 = S754_finite sign m' e'.
Proof.
  intros Hm. pose proof (digits2_bound m) as Hd.
  assert (Hd53 : Zpos (digits2_pos m) ≤ 53).
  { destruct (Z.le_gt_cases (Zpos (digits2_pos m)) 53) as [|Hgt]; [done|].
    exfalso. assert (2 ^ 53 ≤ 2 ^ (Zpos (digits2_pos m) - 1))
      by (apply Z.pow_le_mono_r; lia). lia. }
  unfold binary_round.
  assert (Hf : fexp prec emax (Zpos (digits2_pos m) + 0) = Zpos (digits2_pos m) - 53)
    by (unfold fexp, emin, prec, emax; lia).
  rewrite Hf. unfold shl_align.
  destruct (Zpos (digits2_pos m) - 53 - 0) as [|q|q] eqn:E; [|lia|].
  - eexists _, _. apply binary_round_aux_exact; [|lia].
    apply Pos2Z.inj. lia.
  - eexists _, _. apply binary_round_aux_exact; [|lia].
    rewrite digits2_iter_xO. apply Pos2Z.inj. rewrite Pos2Z.inj_add. lia.
Qed.

Lemma of_Z_finite n : Z.abs n < 2 ^ 53 → is_finite (of_Z n) = true.
Proof.
  intros Hn. unfold of_Z.
  destruct (make _) as [y|] eqn:E; [|done].
  apply make_Some in E. unfold is_finite. simpl. rewrite E.
  destruct n as [|m|m]; [done|..]; cbn [binary_normalize].
  - destruct (binary_round_small false m) as (m' & e' & ->); [lia|done].
  - destruct (binary_round_small true m) as (m' & e' & ->); [lia|done].
Qed.

Lemma of_Z_not_negative_zero n :
  Z.abs n < 2 ^ 53 → is_negative_zero (of_Z n) = false.
Proof.
  intros Hn. unfold of_Z.
  destruct (make _) as [y|] eqn:E; [|done].
  apply make_Some in E. unfold is_negative_zero. simpl. rewrite E.
  destruct n as [|m|m]; [done|..]; cbn [binary_normalize].
  - destruct (binary_round_small false m) as (m' & e' & ->); [lia|done].
  - destruct (binary_round_small true m) as (m' & e' & ->); [lia|done].
Qed.

End NumberFacts.

Export NumberFacts.

(** * Facts about the JSON text format *)

Local Close Scope Z_scope.

Import JSON.

Lemma skip_ws_app ws s : forallb is_ws ws = true → skip_ws (ws ++ s) = skip_ws s.
Proof.
  induction ws as [|c ws IH]; simpl; [done|].
  intros [Hc Hws]%andb_true_iff. rewrite Hc. auto.
Qed.

Lemma indent_ws n : forallb is_ws (indent n) = true.
Proof. induction n; simpl; auto. Qed.

Lemma skip_ws_line n s : skip_ws (nl :: indent n ++ s) = skip_ws s.
Proof. apply (skip_ws_app (nl :: indent n)). simpl. apply indent_ws. Qed.

Lemma skip_ws_id c s : is_ws c = false → skip_ws (c :: s) = c :: s.
Proof. intros H. simpl. by rewrite H. Qed.

Lemma strip_prefix_app p s : strip_prefix p (p ++ s) = Some s.
Proof. induction p as [|a p IH]; simpl; [done|]. by rewrite Ascii.eqb_refl. Qed.

Lemma parse_chars_escape c r :
  parse_chars (escape_char c ++ r)
  = '(cs, rest) ← parse_chars r; Some (c :: cs, rest).
Proof.
  destruct c as [[] [] [] [] [] [] [] []]; reflexivity.
Qed.

Lemma parse_chars_quoted cs rest :
  parse_chars (flat_map escape_char cs ++ quote :: rest) = Some (cs, rest).
Proof.
  induction cs as [|c cs IH]; [done|].
  change (flat_map escape_char (c :: cs)) with (escape_char c ++ flat_map escape_char cs).
  rewrite <- app_assoc, parse_chars_escape, IH. done.
Qed.

Lemma parse_string_quoted s rest :
  parse_string (flat_map escape_char (text_of_string s) ++ quote :: rest) = Some (s, rest).
Proof.
  unfold parse_string. rewrite parse_chars_quoted. simpl.
  unfold text_of_string. by rewrite string_of_list_ascii_of_string.
Qed.

Lemma number_end_ends s : number_end s = true → Number.ends_number s.
Proof.
  destruct s as [|c s]; [done|]. simpl.
  intros [->%Ascii.eqb_eq| ->%Ascii.eqb_eq]%orb_true_iff; done.
Qed.

(** A Number that JSON text keeps is read back from its text. *)
Lemma parse_number_text (n : Number.number) rest :
  Number.is_finite n = true → Number.is_negative_zero n = false →
  number_end rest = true →
  parse_number (Number.number_text n ++ rest) = Some (n, rest).
Proof.
  intros Hf Hz Hend. unfold parse_number.
  rewrite read_number_text by (done || by apply number_end_ends).
  cbn [mbind option_bind].
  replace (Number.settled (Number.num n)) with (Number.num n).
  - by rewrite make_num.
  - unfold Number.is_negative_zero in Hz.
    by destruct (Number.num n) as [[]| | |].
Qed.

(** Unfolding equations *)
Lemma parse_elements_S fuel s :
  parse_elements (S fuel) s =
  '(v, r) ← parse_value fuel s;
  match skip_ws r with
  | c :: r' =>
      if Ascii.eqb c ","%char then
        '(vs, r'') ← parse_elements fuel r'; Some (v :: vs, r'')
      else if Ascii.eqb c "]"%char then Some ([v], r')
      else None
  | [] => None
  end.
Proof. reflexivity. Qed.

Lemma parse_value_ws fuel ws s :
  forallb is_ws ws = true → parse_value fuel (ws ++ s) = parse_value fuel s.
Proof.
  intros Hws. destruct fuel; [done|]. simpl. by rewrite skip_ws_app.
Qed.

Lemma parse_members_ws fuel acc ws s :
  forallb is_ws ws = true →
  parse_members fuel acc (ws ++ s) = parse_members fuel acc s.
Proof.
  intros Hws. destruct fuel; [done|]. simpl. by rewrite skip_ws_app.
Qed.

Lemma parse_value_line fuel n s :
  parse_value fuel (nl :: indent n ++ s) = parse_value fuel s.
Proof. apply (parse_value_ws fuel (nl :: indent n)). simpl. apply indent_ws. Qed.

Lemma parse_value_space fuel s :
  parse_value fuel (" "%char :: s) = parse_value fuel s.
Proof. by apply (parse_value_ws fuel [" "%char]). Qed.

Lemma parse_members_line fuel acc n s :
  parse_members fuel acc (nl :: indent n ++ s) = parse_members fuel acc s.
Proof. apply (parse_members_ws fuel acc (nl :: indent n)). simpl. apply indent_ws. Qed.

Lemma parse_value_other fuel c s :
  is_ws c = false → Ascii.eqb c "{"%char = false →
  Ascii.eqb c "["%char = false → Ascii.eqb c quote = false →
  Ascii.eqb c "n"%char = false → Ascii.eqb c "t"%char = false →
  Ascii.eqb c "f"%char = false →
  parse_value (S fuel) (c :: s) =
  '(n, r') ← parse_number (c :: s); Some (VNum n, r').
Proof.
  intros Hws H1 H2 H3 H4 H5 H6. cbn [parse_value skip_ws].
  by rewrite Hws, H1, H2, H3, H4, H5, H6.
Qed.

Lemma digit_char_head d fuel s :
  value_head (Number.digit_char d) ∧
  parse_value (S fuel) (Number.digit_char d :: s) =
  '(n, r') ← parse_number (Number.digit_char d :: s); Some (VNum n, r').
Proof. by destruct d. Qed.

(** The text of a finite Number starts as only a number does. *)
Lemma number_text_head (n : Number.number) rest :
  Number.is_finite n = true →
  ∃ c t, Number.number_text n ++ rest = c :: t ∧ value_head c ∧
    ∀ fuel, parse_value (S fuel) (c :: t) =
            '(n', r') ← parse_number (c :: t); Some (VNum n', r').
Proof.
  intros Hf. unfold Number.number_text, Number.is_finite in *.
  pose proof (Number.num_ok n) as Hok. unfold Number.is_double in Hok.
  destruct (Number.num n) as [s|s| |s m e]; try done.
  - eexists _, _. split; [reflexivity|]. split; [done|]. by intros fuel.
  - apply andb_true_iff in Hok as [_ Hs]. apply bool_decide_eq_true_1 in Hs.
    destruct Hs as [[d p] Hs]. unfold Number.finite_text. rewrite Hs.
    destruct s.
    + eexists _, _. split; [reflexivity|]. split; [done|]. by intros fuel.
    + destruct (decimal_text_head (Number.digits_of d)
                  (p + Z.of_nat (length (Number.digits_of d))))
        as (c & t & Et & [dc Hc]); [apply digits_of_nonempty|].
      cbn [app]. rewrite Et. eexists _, _. split; [reflexivity|].
      assert (c = Number.digit_char dc) as ->.
      { by destruct dc, c as [[] [] [] [] [] [] [] []]. }
      split; [apply (digit_char_head dc 0 [])|].
      intros fuel. apply digit_char_head.
Qed.

Lemma parse_value_number (n : Number.number) fuel rest :
  Number.is_finite n = true → Number.is_negative_zero n = false →
  number_end rest = true →
  parse_value (S fuel) (number_json n ++ rest) = Some (VNum n, rest).
Proof.
  intros Hf Hz Hend. unfold number_json. rewrite Hf.
  destruct (number_text_head n rest Hf) as (c & t & E & _ & Hpv).
  rewrite E, Hpv, <- E, parse_number_text by done. done.
Qed.

Lemma number_json_head (n : Number.number) rest :
  ∃ c t, number_json n ++ rest = c :: t ∧ value_head c.
Proof.
  unfold number_json. destruct (Number.is_finite n) eqn:Hf.
  - destruct (number_text_head n rest Hf) as (c & t & E & H & _). eauto.
  - eexists _, _. split; [reflexivity|done].
Qed.

Lemma serialize_head ind v t rest :
  serialize ind v = Some t →
  ∃ c t', t ++ rest = c :: t' ∧ value_head c.
Proof.
  destruct v as [| |[]| | |l|l]; simpl; intros H; simplify_eq;
    try (eexists _, _; split; [reflexivity|done]).
  - apply number_json_head.
  - unfold wrap. destruct (map _ l); eexists _, _; (split; [reflexivity|done]).
  - unfold wrap. destruct (omap _ l); eexists _, _; (split; [reflexivity|done]).
Qed.

Lemma serialize_arr ind l :
  serialize ind (VArr l) = Some (wrap "["%char "]"%char ind (elem_texts (ind + 2) l)).
Proof. reflexivity. Qed.

Lemma serialize_obj ind l :
  serialize ind (VObj l) = Some (wrap "{"%char "}"%char ind (member_texts (ind + 2) l)).
Proof. reflexivity. Qed.

Lemma defined_serialize ind v : defined v = true → is_Some (serialize ind v).
Proof. destruct v as [| |[]| | | |]; simpl; eauto; done. Qed.

Lemma clean_is_defined v : clean v = true → defined v = true.
Proof.
  induction v as [| | b | n | s | l IH | l IH] using value_ind; try done.
  - cbn [clean defined]. intros Hc.
    induction IH as [|x l Hx _ IHl]; [done|].
    cbn [forallb] in *. apply andb_true_iff in Hc as [Hcx Hcl].
    by rewrite Hx, IHl.
  - cbn [clean defined]. intros Hc.
    induction IH as [|[k x] l Hx _ IHl]; [done|].
    cbn [forallb snd] in *. apply andb_true_iff in Hc as [Hcx Hcl].
    by rewrite Hx, IHl.
Qed.

Lemma clean_serialize ind v : clean v = true → is_Some (serialize ind v).
Proof. intros H. by apply defined_serialize, clean_is_defined. Qed.

Lemma parse_value_bracket fuel s :
  parse_value (S fuel) ("["%char :: s) =
  match skip_ws s with
  | c' :: r' =>
      if Ascii.eqb c' "]"%char then Some (VArr [], r')
      else '(l, r'') ← parse_elements fuel s; Some (VArr l, r'')
  | [] => None
  end.
Proof. reflexivity. Qed.

Lemma parse_value_brace fuel s :
  parse_value (S fuel) ("{"%char :: s) =
  match skip_ws s with
  | c' :: r' =>
      if Ascii.eqb c' "}"%char then Some (VObj [], r')
      else '(o, r'') ← parse_members fuel [] s; Some (VObj o, r'')
  | [] => None
  end.
Proof. reflexivity. Qed.

Lemma parse_value_quote fuel s :
  parse_value (S fuel) (quote :: s) =
  '(str, r') ← parse_string s; Some (VStr str, r').
Proof. reflexivity. Qed.

Lemma parse_members_quote fuel acc s :
  parse_members (S fuel) acc (quote :: s) =
  '(k, r1) ← parse_string s;
  match skip_ws r1 with
  | c1 :: r2 =>
      if Ascii.eqb c1 ":"%char then
        '(v, r3) ← parse_value fuel r2;
        match skip_ws r3 with
        | c3 :: r4 =>
            if Ascii.eqb c3 ","%char then parse_members fuel (JS.set k v acc) r4
            else if Ascii.eqb c3 "}"%char then Some (JS.set k v acc, r4)
            else None
        | [] => None
        end
      else None
  | [] => None
  end.
Proof. reflexivity. Qed.

Lemma set_fresh k v (o : obj) : k ∉ o.*1 → JS.set k v o = o ++ [(k, v)].
Proof.
  induction o as [|[k' v'] o IH]; simpl; [done|].
  intros Hk. apply not_elem_of_cons in Hk as [Hne Hk].
  destruct (String.eqb_spec k k'); [done|]. by rewrite IH.
Qed.

Lemma elem_texts_cons ind x l tx :
  serialize ind x = Some tx → elem_texts ind (x :: l) = tx :: elem_texts ind l.
Proof. intros H. unfold elem_texts. simpl. by rewrite H. Qed.

Lemma member_texts_cons ind k x (l : obj) tx :
  serialize ind x = Some tx →
  member_texts ind ((k, x) :: l)
  = (quote_string k ++ ":"%char :: " "%char :: tx) :: member_texts ind l.
Proof. intros H. unfold member_texts. simpl. by rewrite H. Qed.

Lemma member_texts_nonempty ind (l : obj) :
  forallb (fun p => clean (snd p)) l = true → l ≠ [] → member_texts ind l ≠ [].
Proof.
  destruct l as [|[k v] l]; [done|]. simpl forallb. intros [Hc _]%andb_true_iff _.
  destruct (clean_serialize ind v Hc) as [t Ht].
  by rewrite (member_texts_cons _ _ _ _ _ Ht).
Qed.

Lemma join_lines_one ind t : join_lines ind [t] = t.
Proof. reflexivity. Qed.

Lemma join_lines_cons ind t ts :
  ts ≠ [] →
  join_lines ind (t :: ts) = t ++ ","%char :: nl :: indent ind ++ join_lines ind ts.
Proof. by destruct ts. Qed.

Section roundtrip.

#[local] Arguments skip_ws : simpl never.
#[local] Arguments indent : simpl never.
#[local] Arguments parse_value : simpl never.
#[local] Arguments parse_elements : simpl never.
#[local] Arguments parse_members : simpl never.
#[local] Arguments join_lines : simpl never.
#[local] Arguments elem_texts : simpl never.
#[local] Arguments member_texts : simpl never.
#[local] Arguments serialize : simpl never.

Lemma parse_elements_join ind rest l :
  Forall parses_back l → forallb clean l = true → forallb wf l = true →
  l ≠ [] →
  ∀ fuel, (list_sum (map (fun x => S (nodes x)) l) ≤ fuel)%nat →
  parse_elements fuel
    (nl :: indent (ind + 2) ++ join_lines (ind + 2) (elem_texts (ind + 2) l)
       ++ nl :: indent ind ++ "]"%char :: rest) = Some (l, rest).
Proof.
  induction 1 as [|x l Hx Hl IH]; [done|].
  simpl forallb. intros [Hcx Hcl]%andb_true_iff [Hwx Hwl]%andb_true_iff _ fuel Hfuel.
  simpl in Hfuel. destruct fuel as [|fuel]; [lia|].
  rewrite parse_elements_S, parse_value_line.
  destruct (clean_serialize (ind + 2) x Hcx) as [tx Htx].
  rewrite (elem_texts_cons _ _ _ _ Htx).
  destruct l as [|y l'].
  - rewrite join_lines_one.
    rewrite (Hx (ind + 2)%nat fuel (nl :: indent ind ++ "]"%char :: rest) tx)
      by (done || lia).
    simpl. rewrite skip_ws_line, skip_ws_id by done. reflexivity.
  - rewrite join_lines_cons by done.
    rewrite <- !app_assoc, <- !app_comm_cons, <- !app_assoc.
    rewrite (Hx (ind + 2)%nat fuel _ tx) by (done || lia).
    simpl. rewrite ?skip_ws_id by done. simpl.
    rewrite IH; [done..| simpl in *; lia].
Qed.

Lemma parse_member_step ind fuel acc k x tx R :
  parses_back x → clean x = true → wf x = true →
  serialize ind x = Some tx → (nodes x ≤ fuel)%nat → number_end R = true →
  parse_members (S fuel) acc ((quote_string k ++ ":"%char :: " "%char :: tx) ++ R) =
  match skip_ws R with
  | c3 :: r4 =>
      if Ascii.eqb c3 ","%char then parse_members fuel (JS.set k x acc) r4
      else if Ascii.eqb c3 "}"%char then Some (JS.set k x acc, r4)
      else None
  | [] => None
  end.
Proof.
  intros Hx Hc Hw Htx Hfuel HR. unfold quote_string.
  rewrite <- !app_assoc, <- !app_comm_cons, <- !app_assoc.
  rewrite parse_members_quote. simpl app. rewrite parse_string_quoted.
  simpl. rewrite ?skip_ws_id by done. simpl.
  rewrite parse_value_space.
  rewrite (Hx ind fuel R tx) by done. reflexivity.
Qed.

Lemma parse_members_join ind rest (l : obj) :
  Forall (fun p => parses_back (snd p)) l →
  forallb (fun p => clean (snd p)) l = true →
  forallb (fun p => wf (snd p)) l = true →
  l ≠ [] →
  ∀ acc fuel, NoDup (acc.*1 ++ l.*1) →
  (list_sum (map (fun p => S (nodes (snd p))) l) ≤ fuel)%nat →
  parse_members fuel acc
    (nl :: indent (ind + 2) ++ join_lines (ind + 2) (member_texts (ind + 2) l)
       ++ nl :: indent ind ++ "}"%char :: rest) = Some (acc ++ l, rest).
Proof.
  induction 1 as [|[k x] l Hx Hl IH]; [done|].
  simpl forallb. intros [Hcx Hcl]%andb_true_iff [Hwx Hwl]%andb_true_iff _ acc fuel Hnd Hfuel.
  simpl in Hfuel, Hx, Hcx, Hwx. destruct fuel as [|fuel]; [lia|].
  rewrite parse_members_line.
  destruct (clean_serialize (ind + 2) x Hcx) as [tx Htx].
  rewrite (member_texts_cons _ _ _ _ _ Htx).
  assert (Hset : JS.set k x acc = acc ++ [(k, x)]).
  { apply set_fresh. simpl in Hnd. apply NoDup_app in Hnd as (_ & Hd & _).
    intros Hk. apply (Hd _ Hk). left. }
  destruct l as [|y l'].
  - rewrite join_lines_one.
    rewrite (parse_member_step (ind + 2) fuel acc k x tx) by (done || lia).
    rewrite skip_ws_line, skip_ws_id by done. simpl. by rewrite Hset.
  - rewrite join_lines_cons by (by apply member_texts_nonempty).
    rewrite <- (app_assoc (quote_string k ++ _)).
    rewrite (parse_member_step (ind + 2) fuel acc k x tx) by (done || lia).
    rewrite <- !app_comm_cons, <- !app_assoc.
    rewrite skip_ws_id by done. simpl.
    rewrite Hset, IH; [by rewrite <- app_assoc|done..| |simpl in *; lia].
    rewrite fmap_app, <- app_assoc. done.
Qed.

Lemma join_lines_head ind t ts :
  ∃ tl, join_lines ind (t :: ts) = t ++ tl.
Proof.
  destruct ts as [|t' ts].
  - exists []. by rewrite app_nil_r.
  - eexists. by rewrite join_lines_cons.
Qed.

Lemma parse_serialize v : parses_back v.
Proof.
  induction v as [| | b | n | s | l IH | l IH] using value_ind;
    intros ind fuel rest t Hc Hw Hs Hfuel Hend;
    (destruct fuel as [|fuel]; [simpl in Hfuel; lia|]).
  - done.
  - cbv in Hs. by injection Hs as <-.
  - destruct b; cbv in Hs; by injection Hs as <-.
  - injection Hs as <-. cbn [clean] in Hc.
    apply andb_true_iff in Hc as [Hf Hz]. apply negb_true_iff in Hz.
    by apply parse_value_number.
  - injection Hs as <-. unfold quote_string.
    rewrite <- !app_comm_cons, <- !app_assoc, parse_value_quote.
    simpl app. by rewrite parse_string_quoted.
  - rewrite serialize_arr in Hs. injection Hs as <-.
    destruct l as [|x l]; [done|].
    simpl in Hc. pose proof Hc as [Hcx _]%andb_true_iff.
    destruct (clean_serialize (ind + 2) x Hcx) as [tx Htx].
    unfold wrap. rewrite (elem_texts_cons _ _ _ _ Htx).
    rewrite <- (elem_texts_cons _ _ _ _ Htx).
    rewrite <- !app_comm_cons, <- !app_assoc, <- !app_comm_cons, <- !app_assoc.
    cbn [app]. rewrite parse_value_bracket, skip_ws_line.
    match goal with |- context [skip_ws ?s] =>
      assert (∃ c t', skip_ws s = c :: t' ∧ Ascii.eqb c "]"%char = false)
        as (c & t' & -> & ->)
    end.
    { rewrite (elem_texts_cons _ _ _ _ Htx).
      destruct (join_lines_head (ind + 2) tx (elem_texts (ind + 2) l)) as [tl ->].
      rewrite <- app_assoc.
      edestruct (serialize_head (ind + 2) x tx) as (c & t' & E & Hws & Hc');
        [exact Htx|].
      rewrite E. exists c, t'. by rewrite skip_ws_id. }
    rewrite (parse_elements_join ind rest (x :: l)); [done|done|done|done|done|].
    simpl in *. lia.
  - rewrite serialize_obj in Hs. injection Hs as <-.
    destruct l as [|[k x] l]; [done|].
    simpl in Hc, Hw. pose proof Hc as [Hcx _]%andb_true_iff.
    apply andb_true_iff in Hw as [Hnd Hw].
    destruct (clean_serialize (ind + 2) x Hcx) as [tx Htx].
    unfold wrap. rewrite (member_texts_cons _ _ _ _ _ Htx).
    rewrite <- (member_texts_cons _ _ _ _ _ Htx).
    rewrite <- !app_comm_cons, <- !app_assoc, <- !app_comm_cons, <- !app_assoc.
    cbn [app]. rewrite parse_value_brace, skip_ws_line.
    match goal with |- context [skip_ws ?s] =>
      assert (∃ c t', skip_ws s = c :: t' ∧ Ascii.eqb c "}"%char = false)
        as (c & t' & -> & ->)
    end.
    { rewrite (member_texts_cons _ _ _ _ _ Htx).
      edestruct (join_lines_head (ind + 2)) as [tl Etl]. rewrite Etl.
      unfold quote_string. rewrite <- !app_comm_cons.
      eexists _, _. by rewrite skip_ws_id. }
    rewrite (parse_members_join ind rest ((k, x) :: l) IH); [done|done|done|done| |].
    + simpl. unfold nodup_keys in Hnd. by apply bool_decide_eq_true_1 in Hnd.
    + simpl in *. lia.
Qed.

End roundtrip.

(** Fuel: a value never has more nodes than its text has characters. *)
Lemma length_join_elems ind (l : list value) :
  Forall (fun v => ∀ ind t, clean v = true → serialize ind v = Some t →
                            (nodes v ≤ length t)%nat) l →
  forallb clean l = true →
  (list_sum (map (fun x => S (nodes x)) l)
   ≤ S (length (join_lines ind (elem_texts ind l))))%nat.
Proof.
  induction 1 as [|x l Hx Hl IH]; [simpl; lia|].
  simpl forallb. intros [Hcx Hcl]%andb_true_iff.
  destruct (clean_serialize ind x Hcx) as [tx Htx].
  rewrite (elem_texts_cons _ _ _ _ Htx).
  specialize (Hx ind tx Hcx Htx). specialize (IH Hcl).
  destruct l as [|y l'].
  - rewrite join_lines_one. simpl. lia.
  - rewrite join_lines_cons by done.
    rewrite length_app. simpl length. rewrite length_app.
    simpl in *. lia.
Qed.

Lemma length_join_members ind (l : obj) :
  Forall (fun p => ∀ ind t, clean (snd p) = true → serialize ind (snd p) = Some t →
                            (nodes (snd p) ≤ length t)%nat) l →
  forallb (fun p => clean (snd p)) l = true →
  (list_sum (map (fun p => S (nodes (snd p))) l)
   ≤ S (length (join_lines ind (member_texts ind l))))%nat.
Proof.
  induction 1 as [|[k x] l Hx Hl IH]; [simpl; lia|].
  simpl forallb. intros [Hcx Hcl]%andb_true_iff. simpl in Hx, Hcx.
  destruct (clean_serialize ind x Hcx) as [tx Htx].
  rewrite (member_texts_cons _ _ _ _ _ Htx).
  specialize (Hx ind tx Hcx Htx). specialize (IH Hcl).
  destruct l as [|y l'].
  - rewrite join_lines_one. rewrite length_app. simpl. lia.
  - rewrite join_lines_cons by (by apply member_texts_nonempty).
    remember (join_lines ind (member_texts ind (y :: l'))) as J.
    remember (y :: l') as l.
    rewrite !length_app. simpl length. rewrite length_app.
    simpl in *. rewrite ?length_app. lia.
Qed.

Lemma size_le_length v :
  ∀ ind t, clean v = true → serialize ind v = Some t → (nodes v ≤ length t)%nat.
Proof.
  induction v as [| | b | n | s | l IH | l IH] using value_ind;
    intros ind t Hc Hs.
  - done.
  - injection Hs as <-. simpl. lia.
  - destruct b; injection Hs as <-; simpl; lia.
  - injection Hs as <-. destruct (number_json_head n []) as (c & t & E & _).
    rewrite app_nil_r in E. rewrite E. simpl. lia.
  - injection Hs as <-. simpl. lia.
  - rewrite serialize_arr in Hs. injection Hs as <-.
    pose proof (length_join_elems (ind + 2) l IH Hc) as Hlen.
    unfold wrap. destruct (elem_texts (ind + 2) l) eqn:E.
    + destruct l; [simpl; lia|done].
    + simpl length. rewrite !length_app. simpl in *. lia.
  - rewrite serialize_obj in Hs. injection Hs as <-.
    pose proof (length_join_members (ind + 2) l IH Hc) as Hlen.
    unfold wrap. destruct (member_texts (ind + 2) l) eqn:E.
    + destruct l; [simpl; lia|].
      by apply member_texts_nonempty in E.
    + simpl length. rewrite !length_app. simpl in *. lia.
Qed.

(** Reading back what was written: values that JSON text keeps. *)
Lemma parse_stringify_clean v t :
  clean v = true → wf v = true → stringify v = Some t → parse t = Some v.
Proof.
  intros Hc Hw Hs. unfold parse.
  pose proof (size_le_length v 0 t Hc Hs) as Hlen.
  pose proof (parse_serialize v 0 (S (length t)) [] t Hc Hw Hs) as Hp.
  rewrite app_nil_r in Hp. rewrite Hp; [done|lia|done].
Qed.

(** Normalisation and serialisation *)
Lemma number_json_zero (n : Number.number) :
  Number.is_negative_zero n = true →
  number_json n = number_json Number.zero.
Proof.
  unfold Number.is_negative_zero, number_json, Number.is_finite,
    Number.number_text.
  by destruct (Number.num n) as [[]| | |].
Qed.

Lemma serialize_norm v : ∀ ind, serialize ind (norm v) = serialize ind v.
Proof.
  induction v as [| | b | n | s | l IH | l IH] using value_ind; intros ind;
    try reflexivity.
  - cbn [norm]. unfold norm_number.
    destruct (Number.is_finite n) eqn:Hf.
    + destruct (Number.is_negative_zero n) eqn:Hz; [|done].
      cbn [serialize]. by rewrite (number_json_zero n).
    + cbn [serialize]. unfold number_json. by rewrite Hf.
  - change (norm (VArr l))
      with (VArr (map (fun x => match x with VUndefined => VNull | _ => norm x end) l)).
    rewrite !serialize_arr. do 2 f_equal.
    induction IH as [|x l Hx _ IHl]; [done|].
    unfold elem_texts in *. cbn [map]. rewrite IHl. f_equal.
    destruct x; try done; try (by rewrite Hx). 
  - change (norm (VObj l))
      with (VObj (omap (fun p => match snd p with
                                 | VUndefined => None
                                 | _ => Some (fst p, norm (snd p))
                                 end) l)).
    rewrite !serialize_obj. do 2 f_equal.
    induction IH as [|[k x] l Hx _ IHl]; [done|].
    unfold member_texts in *. cbn [omap list_omap fst snd] in *.
    destruct x; try done; cbn [omap list_omap fst snd]; rewrite ?Hx, IHl; done.
Qed.

Lemma norm_VArr l : norm (VArr l) = VArr (map norm_elem l).
Proof. reflexivity. Qed.

Lemma norm_VObj l : norm (VObj l) = VObj (omap norm_prop l).
Proof. reflexivity. Qed.

Lemma norm_props_nil : omap norm_prop [] = [].
Proof. reflexivity. Qed.

Lemma norm_props_undefined k (l : obj) :
  omap norm_prop ((k, VUndefined) :: l) = omap norm_prop l.
Proof. reflexivity. Qed.

Lemma norm_props_defined k x (l : obj) :
  x ≠ VUndefined →
  omap norm_prop ((k, x) :: l) = (k, norm x) :: omap norm_prop l.
Proof. by destruct x. Qed.

Lemma norm_elem_defined x : x ≠ VUndefined → norm_elem x = norm x.
Proof. by destruct x. Qed.

Lemma value_undefined_dec (x : value) : {x = VUndefined} + {x ≠ VUndefined}.
Proof. destruct x; (by left) || (by right). Defined.

Lemma clean_norm v : v ≠ VUndefined → clean (norm v) = true.
Proof.
  induction v as [| | b | n | s | l IH | l IH] using value_ind; intros Hne;
    try done; clear Hne.
  - cbn [norm]. unfold norm_number.
    destruct (Number.is_finite n) eqn:Hf; [|done].
    destruct (Number.is_negative_zero n) eqn:Hz; [done|].
    cbn [clean]. by rewrite Hf, Hz.
  - rewrite norm_VArr. cbn [clean].
    induction IH as [|x l Hx _ IHl]; [done|].
    cbn [map forallb]. rewrite IHl, andb_true_r.
    destruct (value_undefined_dec x) as [->|Hd]; [done|].
    rewrite norm_elem_defined by done. by apply Hx.
  - rewrite norm_VObj. cbn [clean].
    induction IH as [|[k x] l Hx _ IHl]; [done|].
    destruct (value_undefined_dec x) as [->|Hd].
    + by rewrite norm_props_undefined.
    + rewrite norm_props_defined by done. cbn [forallb snd].
      rewrite IHl, andb_true_r. by apply Hx.
Qed.

Lemma norm_keys_sublist (l : obj) : (omap norm_prop l).*1 `sublist_of` l.*1.
Proof.
  induction l as [|[k x] l IH]; [done|].
  destruct (value_undefined_dec x) as [->|Hd].
  - rewrite norm_props_undefined. by constructor.
  - rewrite norm_props_defined by done. by constructor.
Qed.

Lemma wf_norm v : wf v = true → wf (norm v) = true.
Proof.
  induction v as [| | b | n | s | l IH | l IH] using value_ind; try done.
  - intros _. cbn [norm]. unfold norm_number. by case_match.
  - rewrite norm_VArr. cbn [wf].
    induction IH as [|x l Hx _ IHl]; [done|].
    cbn [map forallb]. intros [Hwx Hwl]%andb_true_iff. rewrite IHl by done.
    rewrite andb_true_r. destruct (value_undefined_dec x) as [->|Hd]; [done|].
    rewrite norm_elem_defined by done. by apply Hx.
  - rewrite norm_VObj. cbn [wf].
    intros [Hnd Hw]%andb_true_iff. apply andb_true_iff. split.
    + apply bool_decide_eq_true_2. apply bool_decide_eq_true_1 in Hnd.
      eapply sublist_NoDup; [done|apply norm_keys_sublist].
    + clear Hnd. induction IH as [|[k x] l Hx _ IHl]; [done|].
      cbn [forallb snd] in Hw. apply andb_true_iff in Hw as [Hwx Hwl].
      destruct (value_undefined_dec x) as [->|Hd].
      * rewrite norm_props_undefined. by apply IHl.
      * rewrite norm_props_defined by done. cbn [forallb snd].
        rewrite IHl by done. rewrite andb_true_r. by apply Hx.
Qed.

Lemma clean_defined x : clean x = true → x ≠ VUndefined.
Proof. by intros H ->. Qed.

Lemma norm_clean v : clean v = true → norm v = v.
Proof.
  induction v as [| | b | n | s | l IH | l IH] using value_ind; try done.
  - cbn [clean norm]. unfold norm_number.
    intros [-> ->%negb_true_iff]%andb_true_iff. done.
  - rewrite norm_VArr. cbn [clean]. intros Hc. f_equal.
    induction IH as [|x l Hx _ IHl]; [done|].
    cbn [forallb] in Hc. apply andb_true_iff in Hc as [Hcx Hcl].
    cbn [map]. rewrite IHl by done. f_equal.
    rewrite norm_elem_defined by (by apply clean_defined). by apply Hx.
  - rewrite norm_VObj. cbn [clean]. intros Hc. f_equal.
    induction IH as [|[k x] l Hx _ IHl]; [done|].
    cbn [forallb snd] in Hc. apply andb_true_iff in Hc as [Hcx Hcl].
    rewrite norm_props_defined by (by apply clean_defined).
    rewrite IHl by done. do 2 f_equal. by apply Hx.
Qed.

(** [JSON.parse(JSON.stringify(v, null, 2))] *)
Theorem parse_stringify v t :
  wf v = true → stringify v = Some t → parse t = Some (norm v).
Proof.
  intros Hw Hs. unfold stringify in *.
  apply parse_stringify_clean.
  - apply clean_norm. by intros ->.
  - by apply wf_norm.
  - unfold stringify. by rewrite serialize_norm.
Qed.

(** What [JSON.parse] returns holds no [undefined] and is well formed. *)
Lemma elem_of_set_keys k k' v (o : obj) :
  k' ∈ (JS.set k v o).*1 ↔ k' = k ∨ k' ∈ o.*1.
Proof.
  induction o as [|[k0 v0] o IH]; simpl.
  - rewrite list_elem_of_singleton, elem_of_nil. tauto.
  - destruct (String.eqb_spec k k0) as [->|Hne]; simpl.
    + rewrite !elem_of_cons. tauto.
    + rewrite !elem_of_cons, IH. tauto.
Qed.

Lemma set_NoDup k v (o : obj) : NoDup o.*1 → NoDup (JS.set k v o).*1.
Proof.
  induction o as [|[k0 v0] o IH]; simpl.
  - intros _. apply NoDup_singleton.
  - rewrite NoDup_cons. intros [Hk0 Hnd].
    destruct (String.eqb_spec k k0) as [->|Hne]; simpl.
    + by apply NoDup_cons.
    + apply NoDup_cons. split; [|by apply IH].
      rewrite elem_of_set_keys. intros [->|?]; done.
Qed.

Lemma set_forallb (P : value → bool) k v (o : obj) :
  P v = true → forallb (fun p => P (snd p)) o = true →
  forallb (fun p => P (snd p)) (JS.set k v o) = true.
Proof.
  intros Hv. induction o as [|[k0 v0] o IH]; simpl.
  - by rewrite Hv.
  - intros [H0 Ho]%andb_true_iff.
    destruct (String.eqb k k0); simpl.
    + by rewrite Hv, Ho.
    + by rewrite H0, IH.
Qed.

Lemma good_obj_set k v o :
  defined v = true → wf v = true → good_obj o → good_obj (JS.set k v o).
Proof.
  intros Hc Hw (Hco & Hwo & Hnd). split_and!.
  - by apply (set_forallb defined).
  - by apply (set_forallb wf).
  - by apply set_NoDup.
Qed.

Lemma good_obj_value o :
  good_obj o → defined (VObj o) = true ∧ wf (VObj o) = true.
Proof.
  intros (Hco & Hwo & Hnd). split; [done|]. simpl.
  apply andb_true_iff. split; [|done]. by apply bool_decide_eq_true_2.
Qed.

Ltac parse_inv :=
  repeat match goal with
  | H : None = Some _ |- _ => discriminate H
  | H : Some _ = Some _ |- _ => injection H as H; subst
  | H : (_, _) = (_, _) |- _ => injection H as ??; subst
  | H : _ ≫= _ = Some _ |- _ =>
      let x := fresh "x" in let Hx := fresh "Hx" in
      apply bind_Some in H as (x & Hx & H); try destruct x as [? ?]
  | H : context [match skip_ws ?x with _ => _ end] |- _ =>
      destruct (skip_ws x) as [|? ?]
  | H : context [if ?b then _ else _] |- _ => destruct b
  end.

Lemma parse_value_good fuel :
  (∀ s v r, parse_value fuel s = Some (v, r) →
             defined v = true ∧ wf v = true) ∧
  (∀ s l r, parse_elements fuel s = Some (l, r) →
            forallb defined l = true ∧ forallb wf l = true) ∧
  (∀ acc s o r, parse_members fuel acc s = Some (o, r) → good_obj acc → good_obj o).
Proof.
  induction fuel as [|fuel (IHv & IHe & IHm)]; [done|]. split_and!.
  - intros s v r H. simpl in H. parse_inv; try done.
    + apply good_obj_value. eapply IHm; [done|]. by split_and!; try constructor.
    + by apply IHe in Hx.
  - intros s l r H. rewrite parse_elements_S in H. parse_inv.
    + apply IHv in Hx as [Hc Hw]. apply IHe in Hx0 as [? ?].
      simpl. by rewrite Hc, Hw.
    + apply IHv in Hx as [Hc Hw]. simpl. by rewrite Hc, Hw.
  - intros acc s o r H Hacc. simpl in H. parse_inv.
    + apply IHv in Hx0 as [? ?]. eapply IHm; [done|]. by apply good_obj_set.
    + apply IHv in Hx0 as [? ?]. by apply good_obj_set.
Qed.

Lemma parse_good s v : parse s = Some v → defined v = true ∧ wf v = true.
Proof.
  unfold parse. intros H. apply bind_Some in H as ([v' r] & Hv & H).
  apply parse_value_good in Hv. by parse_inv.
Qed.

(** Values that came out of [JSON.parse] can be written, and read back
    as their normal form. *)
Corollary parse_stringify_parse s v t :
  parse s = Some v → stringify v = Some t → parse t = Some (norm v).
Proof.
  intros [Hc Hw]%parse_good Ht. by apply parse_stringify.
Qed.

(** * Facts about objects *)

#[local] Arguments norm_obj : simpl never.

(** Objects as association lists *)

Lemma lookup_set_eq k v (o : obj) : lookup k (JS.set k v o) = v.
Proof.
  induction o as [|[k' v'] o IH]; simpl.
  - by rewrite String.eqb_refl.
  - destruct (String.eqb_spec k k') as [->|Hne]; simpl.
    + by rewrite String.eqb_refl.
    + by destruct (String.eqb_spec k k').
Qed.

Lemma lookup_set_ne k k' v (o : obj) :
  k ≠ k' → lookup k' (JS.set k v o) = lookup k' o.
Proof.
  intros Hne. induction o as [|[k0 v0] o IH]; simpl.
  - by destruct (String.eqb_spec k' k).
  - destruct (String.eqb_spec k k0) as [->|Hne0]; simpl.
    + by destruct (String.eqb_spec k' k0).
    + by rewrite IH.
Qed.

Lemma lookup_notin k (o : obj) : k ∉ o.*1 → lookup k o = VUndefined.
Proof.
  induction o as [|[k' v'] o IH]; simpl; [done|].
  rewrite not_elem_of_cons. intros [Hne Hk].
  destruct (String.eqb_spec k k'); [done|]. by apply IH.
Qed.

Lemma set_same k (o : obj) : k ∈ o.*1 → JS.set k (lookup k o) o = o.
Proof.
  induction o as [|[k' v'] o IH]; simpl.
  - by rewrite elem_of_nil.
  - rewrite elem_of_cons. intros Hk.
    destruct (String.eqb_spec k k') as [->|Hne]; [done|].
    rewrite IH; [done|]. by destruct Hk.
Qed.

Lemma spread_cons (o : obj) k v defs :
  spread o ((k, v) :: defs) = spread (JS.set k v o) defs.
Proof. reflexivity. Qed.

Lemma spread_NoDup (o : obj) defs : NoDup o.*1 → NoDup (spread o defs).*1.
Proof.
  revert o. induction defs as [|[k v] defs IH]; intros o Ho; [done|].
  rewrite spread_cons. by apply IH, set_NoDup.
Qed.

Lemma spread_keys (o : obj) defs k :
  k ∈ (spread o defs).*1 ↔ k ∈ defs.*1 ∨ k ∈ o.*1.
Proof.
  revert o. induction defs as [|[k' v] defs IH]; intros o.
  - simpl. rewrite elem_of_nil. tauto.
  - rewrite spread_cons, IH, elem_of_set_keys. simpl. rewrite elem_of_cons. tauto.
Qed.

Lemma lookup_spread_notin k (o : obj) defs :
  k ∉ defs.*1 → lookup k (spread o defs) = lookup k o.
Proof.
  revert o. induction defs as [|[k' v] defs IH]; intros o; [done|].
  simpl fmap. rewrite not_elem_of_cons. intros [Hne Hk].
  rewrite spread_cons, IH by done. by apply lookup_set_ne.
Qed.

Lemma lookup_spread_in k v (o : obj) defs :
  NoDup defs.*1 → (k, v) ∈ defs → lookup k (spread o defs) = v.
Proof.
  revert o. induction defs as [|[k' v'] defs IH]; intros o Hnd Hin.
  - by apply elem_of_nil in Hin.
  - simpl in Hnd. apply NoDup_cons in Hnd as [Hk' Hnd].
    rewrite spread_cons. apply elem_of_cons in Hin as [Heq|Hin].
    + injection Heq as -> ->.
      rewrite lookup_spread_notin by done. apply lookup_set_eq.
    + by apply IH.
Qed.

(** Normalised objects *)

Lemma norm_obj_props (o : obj) : norm_obj o = omap (M:=list) norm_prop o.
Proof. reflexivity. Qed.

Lemma norm_obj_nil : norm_obj [] = [].
Proof. reflexivity. Qed.

Lemma norm_obj_undefined k (o : obj) : norm_obj ((k, VUndefined) :: o) = norm_obj o.
Proof. reflexivity. Qed.

Lemma norm_obj_defined k x (o : obj) :
  x ≠ VUndefined → norm_obj ((k, x) :: o) = (k, norm x) :: norm_obj o.
Proof. rewrite !norm_obj_props. apply norm_props_defined. Qed.

Lemma norm_obj_keys k (o : obj) : k ∈ (norm_obj o).*1 → k ∈ o.*1.
Proof.
  intros Hk. eapply elem_of_sublist; [done|].
  rewrite norm_obj_props. apply norm_keys_sublist.
Qed.

Lemma norm_obj_NoDup (o : obj) : NoDup o.*1 → NoDup (norm_obj o).*1.
Proof.
  intros Hnd. eapply sublist_NoDup; [done|].
  rewrite norm_obj_props. apply norm_keys_sublist.
Qed.

Lemma norm_undefined x : norm x = VUndefined → x = VUndefined.
Proof.
  destruct x; try done. cbn [norm]. unfold norm_number. by case_match.
Qed.

Lemma lookup_norm_obj k (o : obj) :
  NoDup o.*1 → lookup k (norm_obj o) = norm (lookup k o).
Proof.
  induction o as [|[k' x] o IH]; [done|].
  simpl fmap. rewrite NoDup_cons. intros [Hk' Hnd].
  destruct (value_undefined_dec x) as [->|Hd].
  - rewrite norm_obj_undefined. simpl.
    destruct (String.eqb_spec k k') as [->|Hne]; [|by apply IH].
    apply lookup_notin. intros Hk. by apply Hk', norm_obj_keys.
  - rewrite norm_obj_defined by done. simpl.
    destruct (String.eqb_spec k k'); [done|]. by apply IH.
Qed.

Lemma norm_obj_key_defined k (o : obj) :
  NoDup o.*1 → (k ∈ (norm_obj o).*1 ↔ k ∈ o.*1 ∧ lookup k o ≠ VUndefined).
Proof.
  induction o as [|[k' x] o IH].
  - simpl. rewrite elem_of_nil. tauto.
  - simpl fmap. rewrite NoDup_cons. intros [Hk' Hnd]. specialize (IH Hnd).
    destruct (value_undefined_dec x) as [->|Hd].
    + rewrite norm_obj_undefined, IH. simpl. rewrite elem_of_cons.
      destruct (String.eqb_spec k k') as [->|Hne]; intuition congruence.
    + rewrite norm_obj_defined by done. simpl. rewrite !elem_of_cons, IH.
      destruct (String.eqb_spec k k') as [->|Hne]; intuition congruence.
Qed.








(** * Facts about the flat-file store *)

Local Open Scope Z_scope.

Import FlatFile.

Lemma load_missing s : store s = None → loadSubmissions s = (Ok (VArr []), s).
Proof.
  intros H. unfold loadSubmissions, try_catch, mbind, M_bind, readFile.
  by rewrite H.
Qed.

Lemma load_present s t :
  store s = Some t →
  loadSubmissions s =
  (match JSON.parse t with
   | Some v => Ok v
   | None => Throw (SyntaxError "Unexpected token in JSON")
   end, s).
Proof.
  intros H. unfold loadSubmissions, try_catch, mbind, M_bind, readFile, JSON_parse.
  rewrite H. by destruct (JSON.parse t).
Qed.

Lemma load_state s : (loadSubmissions s).2 = s.
Proof.
  destruct (store s) as [t|] eqn:E.
  - by rewrite (load_present s t).
  - by rewrite load_missing.
Qed.

Lemma load_good s v s' :
  loadSubmissions s = (Ok v, s') → defined v = true ∧ wf v = true.
Proof.
  destruct (store s) as [t|] eqn:E.
  - rewrite (load_present s t E).
    destruct (JSON.parse t) as [v'|] eqn:Hp; [|done].
    intros [= <- <-]. by apply parse_good in Hp.
  - rewrite load_missing by done. by intros [= <- <-].
Qed.

(** The loader returns what the file text denotes. *)
Lemma reads_load s v : reads s v → loadSubmissions s = (Ok v, s).
Proof.
  unfold reads. destruct (store s) as [t|] eqn:E.
  - intros Hp. by rewrite (load_present s t E), Hp.
  - intros ->. by apply load_missing.
Qed.

Lemma load_reads s v s' : loadSubmissions s = (Ok v, s') → reads s v.
Proof.
  unfold reads. destruct (store s) as [t|] eqn:E.
  - rewrite (load_present s t E).
    destruct (JSON.parse t) as [v'|]; [|done]. by intros [= <- <-].
  - rewrite load_missing by done. by intros [= <- <-].
Qed.

Lemma reads_inj s v1 v2 : reads s v1 → reads s v2 → v1 = v2.
Proof. unfold reads. destruct (store s); congruence. Qed.

Lemma holds_reads s l : holds s l → reads s (VArr l).
Proof. by intros [? _]. Qed.

Lemma holds_load s l : holds s l → loadSubmissions s = (Ok (VArr l), s).
Proof. intros H. by apply reads_load, holds_reads. Qed.

Lemma holds_good s l : holds s l → forallb clean l = true ∧ forallb wf l = true.
Proof.
  intros [Hr Hc]. split; [done|].
  apply reads_load, load_good in Hr as [_ Hw]. done.
Qed.

Lemma holds_inj s l1 l2 : holds s l1 → holds s l2 → l1 = l2.
Proof.
  intros [H1 _] [H2 _]. pose proof (reads_inj _ _ _ H1 H2). congruence.
Qed.

Lemma stringify_VArr l : JSON.stringify (VArr l) = Some (saved l).
Proof. reflexivity. Qed.

Lemma save_run l s :
  saveSubmissions (VArr l) s = (Ok (), {| store := Some (saved l); pinned := pinned s |}).
Proof. reflexivity. Qed.

Lemma norm_elems_clean l : forallb clean l = true → map norm_elem l = l.
Proof.
  intros Hc. pose proof (norm_clean (VArr l) Hc) as H.
  rewrite norm_VArr in H. by injection H.
Qed.

(** What was saved is what is read back, up to normalisation. *)
Lemma saved_holds l p :
  forallb wf l = true →
  holds {| store := Some (saved l); pinned := p |} (map norm_elem l).
Proof.
  intros Hw. split.
  - unfold reads. cbn [store].
    rewrite (parse_stringify (VArr l) (saved l)) by done.
    by rewrite norm_VArr.
  - pose proof (clean_norm (VArr l)) as H. rewrite norm_VArr in H. by apply H.
Qed.


(** Runs of the submit pipeline *)

Lemma bind_run {St A B} (m : M St A) (f : A → M St B) s :
  (m ≫= f) s =
  match m s with
  | (Ok a, s') => f a s'
  | (Throw e, s') => (Throw e, s')
  end.
Proof. reflexivity. Qed.

Lemma load_store s s' :
  store s' = store s → loadSubmissions s' = ((loadSubmissions s).1, s').
Proof.
  intros E. destruct (store s) as [t|] eqn:Es.
  - rewrite (load_present s t), (load_present s' t) by congruence. done.
  - rewrite (load_missing s), (load_missing s') by congruence. done.
Qed.

Lemma reads_store s s' v : store s' = store s → reads s v → reads s' v.
Proof. unfold reads. by intros ->. Qed.

Lemma holds_store s s' l : store s' = store s → holds s l → holds s' l.
Proof. intros E [Hr Hc]. split; [by apply (reads_store s)|done]. Qed.

Lemma axios_post_run {Store} form w (s : Runtime.state Store) :
  axios_post form w s =
  (match pin w with
   | PinResolved data => Ok data
   | PinRejected msg => Throw (AxiosError msg)
   end, {| store := store s; pinned := pinned s ++ [form] |}).
Proof. unfold axios_post. by destruct (pin w). Qed.

Section submit.
Variables (missing_file : string)
          (assemble : world → value → upload → value → value).
Variables (w : world) (req : upload_request) (s : state).

Let body := req_body req.
Abbreviation submitted := (submit missing_file assemble w req s).

Lemma submit_no_description :
  description_missing req = true →
  submitted = (json 400 (error_body "Missing required field: description"), s).
Proof.
  unfold description_missing, submit, handle. intros ->. reflexivity.
Qed.

Lemma submit_no_file :
  description_missing req = false → req_file req = None →
  submitted = (json 400 (error_body missing_file), s).
Proof.
  unfold description_missing, submit, handle. intros -> ->. reflexivity.
Qed.

Lemma submit_no_jwt file :
  description_missing req = false → req_file req = Some file →
  env_truthy (PINATA_JWT w) = false →
  submitted = (json 500 (error_body "Pinata JWT not configured on server"), s).
Proof.
  unfold description_missing, submit, handle. intros -> -> ->. reflexivity.
Qed.

Lemma submit_rejected file msg :
  description_missing req = false → req_file req = Some file →
  env_truthy (PINATA_JWT w) = true → pin w = PinRejected msg →
  submitted = (server_error (AxiosError msg),
         {| store := store s;
            pinned := pinned s ++ [pinata_form (PINATA_JWT w) body file] |}).
Proof.
  unfold description_missing, submit, handle, mbind, M_bind, axios_post.
  intros -> -> -> ->. reflexivity.
Qed.

Lemma submit_resolved file data l :
  description_missing req = false → req_file req = Some file →
  env_truthy (PINATA_JWT w) = true → pin w = PinResolved data →
  reads s (VArr l) →
  let submission := assemble w body file (opt_get "IpfsHash" data) in
  submitted = (created submission,
         {| store := Some (saved (l ++ [submission]));
            pinned := pinned s ++ [pinata_form (PINATA_JWT w) body file] |}).
Proof.
  unfold description_missing, submit, handle.
  intros -> -> -> Hpin Hl. cbv zeta. cbn [negb].
  rewrite bind_run, axios_post_run, Hpin, bind_run.
  match goal with |- context [loadSubmissions ?s'] =>
    pose proof (reads_store s s' _ eq_refl Hl) as Hl'
  end.
  rewrite (reads_load _ _ Hl'), bind_run.
  cbn [as_array mret M_ret]. rewrite bind_run, save_run. reflexivity.
Qed.

Lemma submit_unreadable file data :
  description_missing req = false → req_file req = Some file →
  env_truthy (PINATA_JWT w) = true → pin w = PinResolved data →
  (∀ l, ¬ reads s (VArr l)) →
  ∃ e, submitted = (server_error e,
              {| store := store s;
                 pinned := pinned s ++ [pinata_form (PINATA_JWT w) body file] |}).
Proof.
  unfold description_missing, submit, handle.
  intros -> -> -> Hpin Hl. cbv zeta. cbn [negb].
  rewrite bind_run, axios_post_run, Hpin, bind_run.
  match goal with |- context [loadSubmissions ?s'] =>
    rewrite (load_store s s' eq_refl)
  end.
  pose proof (load_state s) as Hs.
  destruct (loadSubmissions s) as [[v|e] s1] eqn:E; simpl in Hs; subst s1;
    [|by eexists].
  destruct v; try (by eexists). destruct (Hl elems). by eapply load_reads.
Qed.

(** Every submitted of the pipeline ends in one of three ways. *)
Lemma submit_cases :
  (status submitted.1 = 400 ∧ submitted.2 = s ∧
     (description_missing req = true ∨ req_file req = None) ∧
     ∃ msg, payload submitted.1 = error_body msg)
  ∨ (status submitted.1 = 500 ∧ store submitted.2 = store s ∧
     description_missing req = false ∧ is_Some (req_file req))
  ∨ (∃ file data l,
       description_missing req = false ∧ req_file req = Some file ∧
       env_truthy (PINATA_JWT w) = true ∧ pin w = PinResolved data ∧
       reads s (VArr l) ∧
       submitted = (created (assemble w body file (opt_get "IpfsHash" data)),
              {| store := Some (saved (l ++ [assemble w body file
                                               (opt_get "IpfsHash" data)]));
                 pinned := pinned s ++ [pinata_form (PINATA_JWT w) body file] |})).
Proof.
  destruct (description_missing req) eqn:Hd.
  { left. rewrite submit_no_description by done. eauto 10. }
  destruct (req_file req) as [file|] eqn:Hf.
  2:{ left. rewrite submit_no_file by done. eauto 10. }
  destruct (env_truthy (PINATA_JWT w)) eqn:Hj.
  2:{ right; left. rewrite (submit_no_jwt file) by done. eauto. }
  destruct (pin w) as [msg|data] eqn:Hp.
  { right; left. rewrite (submit_rejected file msg) by done. eauto. }
  destruct (loadSubmissions s) as [[v|e] s1] eqn:E.
  - pose proof (load_state s) as Hs. rewrite E in Hs. simpl in Hs. subst s1.
    assert (Hdec : (∃ l, v = VArr l) ∨ ¬ (∃ l, v = VArr l))
      by (destruct v; eauto; right; by intros [? ?]).
    destruct Hdec as [[l ->]|Hn].
    + apply load_reads in E.
      right; right. exists file, data, l. split_and!; try done.
      by apply submit_resolved.
    + right; left.
      destruct (submit_unreadable file data) as [e' ->]; try done; eauto.
      intros l Hl. apply Hn. exists l. apply reads_load in Hl. congruence.
  - right; left.
    destruct (submit_unreadable file data) as [e' ->]; try done; eauto.
    intros l Hl. apply reads_load in Hl. congruence.
Qed.
End submit.

(** [findIndex] *)

Lemma findIndex_found id l i :
  findIndex_id id l = Ok (Some i) →
  ∃ x, l !! i = Some x ∧ strict_eq_str (get "id" x) id = true ∧
       x ≠ VUndefined ∧ x ≠ VNull.
Proof.
  revert i. induction l as [|x l IH]; intros i; [done|]. simpl.
  destruct (strict_eq_str (get "id" x) id) eqn:E.
  - destruct x; try done; intros [= <-]; eexists; by split_and!.
  - destruct (findIndex_id id l) as [[j|]|e] eqn:Ef;
      destruct x; try done; intros [= <-]; by apply IH.
Qed.

Lemma findIndex_object id l i :
  findIndex_id id l = Ok (Some i) →
  ∃ o, l !! i = Some (VObj o) ∧ lookup "id" o = VStr id.
Proof.
  intros (x & Hx & Hid & _)%findIndex_found.
  destruct x as [| | | | | |o]; try done. exists o. split; [done|].
  simpl in Hid. destruct (lookup "id" o); try done.
  by apply String.eqb_eq in Hid as ->.
Qed.

Lemma findIndex_absent id l :
  forallb is_object l = true →
  (∀ x, x ∈ l → get "id" x ≠ VStr id) →
  findIndex_id id l = Ok None.
Proof.
  induction l as [|x l IH]; [done|]. simpl.
  intros [Hx Hl]%andb_true_iff Hid.
  destruct x as [| | | | | |o]; try done.
  destruct (strict_eq_str (get "id" (VObj o)) id) eqn:E.
  - exfalso. apply (Hid (VObj o)); [left|]. simpl in *.
    destruct (lookup "id" o); try done. by apply String.eqb_eq in E as ->.
  - rewrite IH; [done..|]. intros x Hx'. apply Hid. by right.
Qed.


(** Runs of [markMinted] *)

Lemma destructure_run {St} b (s : St) :
  destructurable b = true → destructure b s = (Ok b, s).
Proof. unfold destructure. by intros ->. Qed.

Section flat_minted.
Variables (id : string) (b : value) (s : state) (l : list value).
Hypothesis Hb : destructurable b = true.
Hypothesis Hl : reads s (VArr l).

Lemma markMinted_not_found :
  findIndex_id id l = Ok None →
  markMinted id b s = (json 404 (error_body "Not found"), s).
Proof.
  intros Hf. unfold markMinted, handle.
  rewrite bind_run, destructure_run, bind_run by done.
  rewrite (reads_load _ _ Hl), bind_run. cbn [as_array mret M_ret].
  rewrite bind_run. unfold lift. rewrite Hf. reflexivity.
Qed.

Lemma markMinted_found i :
  findIndex_id id l = Ok (Some i) →
  let updated :=
    VObj (spread (own_props (default VUndefined (l !! i))) (minted_fields b)) in
  markMinted id b s =
  (json 200 (VObj [("success", VBool true); ("submission", updated)]),
   {| store := Some (saved (<[i := updated]> l)); pinned := pinned s |}).
Proof.
  intros Hf. unfold markMinted, handle.
  rewrite bind_run, destructure_run, bind_run by done.
  rewrite (reads_load _ _ Hl), bind_run. cbn [as_array mret M_ret].
  rewrite bind_run. unfold lift. rewrite Hf. cbv zeta.
  rewrite bind_run, save_run. reflexivity.
Qed.
End flat_minted.

(** Values read off a JSON body *)

Lemma wf_lookup k (o : obj) :
  forallb (fun p => wf (snd p)) o = true → wf (lookup k o) = true.
Proof.
  induction o as [|[k' v] o IH]; [done|]. simpl.
  intros [Hv Ho]%andb_true_iff. destruct (String.eqb k k'); auto.
Qed.

Lemma norm_lookup k (o : obj) :
  forallb (fun p => clean (snd p)) o = true → norm (lookup k o) = lookup k o.
Proof.
  induction o as [|[k' v] o IH]; [done|]. simpl.
  intros [Hv Ho]%andb_true_iff.
  destruct (String.eqb k k'); [by apply norm_clean|auto].
Qed.

Lemma wf_get k b : wf b = true → wf (get k b) = true.
Proof.
  destruct b as [| | | | | |o]; try done. simpl.
  intros [_ Ho]%andb_true_iff. by apply wf_lookup.
Qed.

Lemma norm_get k b : clean b = true → norm (get k b) = get k b.
Proof. destruct b as [| | | | | |o]; try done. apply norm_lookup. Qed.

Lemma wf_spread (o : obj) defs :
  forallb (fun p => wf (snd p)) o = true →
  forallb (fun p => wf (snd p)) defs = true →
  forallb (fun p => wf (snd p)) (spread o defs) = true.
Proof.
  revert o. induction defs as [|[k v] defs IH]; intros o Ho; [done|].
  intros Hd. cbn [forallb snd] in Hd. apply andb_true_iff in Hd as [Hv Hd].
  rewrite spread_cons. apply IH; [|done]. by apply (set_forallb wf).
Qed.

Lemma wf_VObj (o : obj) :
  wf (VObj o) = true ↔ NoDup o.*1 ∧ forallb (fun p => wf (snd p)) o = true.
Proof.
  simpl. rewrite andb_true_iff. unfold nodup_keys.
  by rewrite bool_decide_eq_true.
Qed.

Lemma minted_fields_NoDup b : NoDup (minted_fields b).*1.
Proof. simpl. by apply (bool_decide_unpack _). Qed.

Lemma wf_minted_fields b :
  wf b = true → forallb (fun p => wf (snd p)) (minted_fields b) = true.
Proof. intros Hb. simpl. by rewrite !wf_get. Qed.

Lemma wf_minted (o : obj) b :
  wf (VObj o) = true → wf b = true →
  wf (VObj (spread o (minted_fields b))) = true.
Proof.
  rewrite !wf_VObj. intros [Hnd Ho] Hb. split.
  - by apply spread_NoDup.
  - apply wf_spread; [done|]. by apply wf_minted_fields.
Qed.

Lemma forallb_lookup {A} (P : A → bool) l i x :
  forallb P l = true → l !! i = Some x → P x = true.
Proof.
  rewrite forallb_forall. intros H Hx. apply H.
  apply list_elem_of_In. by eapply list_elem_of_lookup_2.
Qed.

Lemma forallb_insert {A} (P : A → bool) l i x :
  forallb P l = true → P x = true → forallb P (<[i := x]> l) = true.
Proof.
  revert i. induction l as [|y l IH]; intros i; [done|]. simpl.
  intros [Hy Hl]%andb_true_iff Hx. destruct i; simpl.
  - by rewrite Hx, Hl.
  - by rewrite Hy, IH.
Qed.

Lemma norm_elems_insert l i x :
  forallb clean l = true → x ≠ VUndefined →
  map norm_elem (<[i := x]> l) = <[i := norm x]> l.
Proof.
  intros Hl Hx. change (map norm_elem (<[i := x]> l)) with (norm_elem <$> <[i := x]> l).
  rewrite list_fmap_insert. change (norm_elem <$> l) with (map norm_elem l).
  by rewrite norm_elems_clean, norm_elem_defined.
Qed.

Lemma norm_object (o : obj) : norm (VObj o) = VObj (norm_obj o).
Proof. reflexivity. Qed.

(** The store after a successful [markMinted]. *)
Lemma markMinted_stored id b s l i o :
  destructurable b = true → wf b = true → holds s l →
  findIndex_id id l = Ok (Some i) → l !! i = Some (VObj o) →
  holds (markMinted id b s).2
    (<[i := VObj (norm_obj (spread o (minted_fields b)))]> l).
Proof.
  intros Hb Hwb Hl Hf Hi.
  rewrite (markMinted_found id b s l Hb (holds_reads _ _ Hl) i Hf).
  rewrite Hi. simpl snd. simpl default. simpl own_props.
  destruct (holds_good s l Hl) as [Hcl Hwl].
  rewrite <- (norm_object (spread o (minted_fields b))).
  rewrite <- norm_elems_insert by done.
  apply saved_holds. apply forallb_insert; [done|].
  apply wf_minted; [|done]. by apply (forallb_lookup wf l i).
Qed.



(** * Facts about the table store *)

(** Lexicographic order on strings *)

Lemma ascii_compare_lt a b :
  Ascii.compare a b = Lt ↔ (N_of_ascii a < N_of_ascii b)%N.
Proof. unfold Ascii.compare. apply N.compare_lt_iff. Qed.

Lemma ascii_compare_eq a b : Ascii.compare a b = Eq ↔ a = b.
Proof.
  split; [apply Ascii.compare_eq_iff|].
  intros ->. unfold Ascii.compare. apply N.compare_refl.
Qed.

Lemma string_compare_refl s : String.compare s s = Eq.
Proof.
  induction s as [|c s IH]; [done|]. simpl.
  by rewrite (proj2 (ascii_compare_eq c c) eq_refl).
Qed.

Lemma string_compare_lt_trans a b c :
  String.compare a b = Lt → String.compare b c = Lt → String.compare a c = Lt.
Proof.
  revert b c. induction a as [|x a IH]; intros [|y b] [|z c]; simpl; try done.
  destruct (Ascii.compare x y) eqn:Exy; try done;
    destruct (Ascii.compare y z) eqn:Eyz; try done; intros Hab Hbc.
  - apply ascii_compare_eq in Exy as ->, Eyz as ->.
    rewrite (proj2 (ascii_compare_eq z z) eq_refl). by eapply IH.
  - apply ascii_compare_eq in Exy as ->. by rewrite Eyz.
  - apply ascii_compare_eq in Eyz as ->. by rewrite Exy.
  - rewrite ascii_compare_lt in Exy, Eyz.
    assert (Ascii.compare x z = Lt) as -> by (apply ascii_compare_lt; lia). done.
Qed.

Lemma string_ltb_lt a b : String.ltb a b = true ↔ String.compare a b = Lt.
Proof. unfold String.ltb. by destruct (String.compare a b). Qed.

Lemma string_leb_cases a b :
  String.leb a b = true ↔ a = b ∨ String.compare a b = Lt.
Proof.
  unfold String.leb. destruct (String.compare a b) eqn:E.
  - apply String.compare_eq_iff in E. tauto.
  - tauto.
  - split; [done|]. intros [->|?]; [|done]. by rewrite string_compare_refl in E.
Qed.

Lemma string_leb_refl a : String.leb a a = true.
Proof. apply string_leb_cases. by left. Qed.

Lemma string_leb_trans a b c :
  String.leb a b = true → String.leb b c = true → String.leb a c = true.
Proof.
  rewrite !string_leb_cases. intros [->|Hab] [->|Hbc]; auto.
  right. by eapply string_compare_lt_trans.
Qed.

Lemma string_ltb_leb a b : String.ltb a b = true → String.leb a b = true.
Proof. rewrite string_ltb_lt, string_leb_cases. auto. Qed.

Lemma string_ltb_not_leb a b : String.ltb a b = true → String.leb b a = false.
Proof.
  rewrite string_ltb_lt. intros Hab. unfold String.leb.
  rewrite String.compare_antisym, Hab. done.
Qed.

Lemma string_ltb_trans a b c :
  String.ltb a b = true → String.ltb b c = true → String.ltb a c = true.
Proof. rewrite !string_ltb_lt. apply string_compare_lt_trans. Qed.

Import Supabase.

#[global] Instance desc_total col : Total (desc col).
Proof.
  intros r1 r2. unfold desc, desc_leb.
  destruct (sort_key col r1) as [a|], (sort_key col r2) as [b|]; auto.
  destruct (String.leb_total a b); auto.
Qed.

#[global] Instance desc_trans col : Transitive (desc col).
Proof.
  intros r1 r2 r3. unfold desc, desc_leb.
  destruct (sort_key col r1) as [a|], (sort_key col r2) as [b|],
    (sort_key col r3) as [c|]; try done.
  intros Hab Hbc. by eapply string_leb_trans.
Qed.

Lemma select_sorted col (t : table) :
  StronglySorted (desc col) (merge_sort (desc col) t) ∧
  merge_sort (desc col) t ≡ₚ t.
Proof.
  split; [apply StronglySorted_merge_sort; apply _|apply merge_sort_Permutation].
Qed.

Import Supabase Api.

Lemma remote_fault {A} w (call : M state (reply A)) s msg :
  store_error w = Some msg → remote w call s = (Ok (Error (StoreError msg)), s).
Proof. unfold remote. by intros ->. Qed.

Lemma remote_ok {A} w (call : M state (reply A)) s :
  store_error w = None → remote w call s = call s.
Proof. unfold remote. by intros ->. Qed.

Lemma insert_ok w t row s :
  store_error w = None →
  insert w t row s = (Ok (Data (norm_obj row)), inserted t row s).
Proof. intros H. unfold insert. by rewrite remote_ok. Qed.

Section post.
Variables (w : world) (req : upload_request) (s : state).
Let body := req_body req.
Abbreviation posted := (postSubmission w req s).

Lemma post_no_description :
  description_absent req = true →
  posted = (json 400 (error_body "Missing description"), s).
Proof. unfold description_absent, postSubmission, handle. by intros ->. Qed.

Lemma post_no_file :
  description_absent req = false → req_file req = None →
  posted = (json 400 (error_body "Missing file (field name 'file')"), s).
Proof. unfold description_absent, postSubmission, handle. by intros -> ->. Qed.

Lemma post_rejected file msg :
  description_absent req = false → req_file req = Some file →
  pin w = PinRejected msg →
  posted = (server_error (AxiosError msg),
         {| store := store s;
            pinned := pinned s ++ [pinata_form (PINATA_JWT w) body file] |}).
Proof.
  unfold description_absent, postSubmission, handle. intros -> -> Hp.
  rewrite bind_run, axios_post_run, Hp. reflexivity.
Qed.

Lemma post_fault file data msg :
  description_absent req = false → req_file req = Some file →
  pin w = PinResolved data → store_error w = Some msg →
  posted = (server_error (StoreError msg),
         {| store := store s;
            pinned := pinned s ++ [pinata_form (PINATA_JWT w) body file] |}).
Proof.
  unfold description_absent, postSubmission, handle. intros -> -> Hp He.
  rewrite bind_run, axios_post_run, Hp. cbv zeta.
  unfold insert. rewrite bind_run, (remote_fault _ _ _ msg) by done.
  reflexivity.
Qed.

Lemma post_created file data :
  description_absent req = false → req_file req = Some file →
  pin w = PinResolved data → store_error w = None →
  let submission := submission_record w body file (opt_get "IpfsHash" data) in
  posted = (created submission,
         inserted Submissions (own_props submission)
           {| store := store s;
              pinned := pinned s ++ [pinata_form (PINATA_JWT w) body file] |}).
Proof.
  unfold description_absent, postSubmission, handle. intros -> -> Hp He.
  rewrite bind_run, axios_post_run, Hp. cbv zeta.
  rewrite bind_run, insert_ok by done. reflexivity.
Qed.

Lemma post_cases :
  (status posted.1 = 400 ∧ posted.2 = s ∧
     (description_absent req = true ∨ req_file req = None) ∧
     ∃ msg, payload posted.1 = error_body msg)
  ∨ (status posted.1 = 500 ∧ store posted.2 = store s ∧
     description_absent req = false ∧ is_Some (req_file req))
  ∨ (∃ file data,
       description_absent req = false ∧ req_file req = Some file ∧
       pin w = PinResolved data ∧ store_error w = None ∧
       let submission := submission_record w body file (opt_get "IpfsHash" data) in
       posted = (created submission,
              inserted Submissions (own_props submission)
                {| store := store s;
                   pinned := pinned s ++ [pinata_form (PINATA_JWT w) body file] |})).
Proof.
  destruct (description_absent req) eqn:Hd.
  { left. rewrite post_no_description by done. eauto 10. }
  destruct (req_file req) as [file|] eqn:Hf.
  2:{ left. rewrite post_no_file by done. eauto 10. }
  destruct (pin w) as [msg|data] eqn:Hp.
  { right; left. rewrite (post_rejected file msg) by done. eauto. }
  destruct (store_error w) as [msg|] eqn:He.
  { right; left. rewrite (post_fault file data msg) by done. eauto. }
  right; right. exists file, data. split_and!; try done.
  by apply post_created.
Qed.
End post.

(** Listing *)
Lemma getSubmissions_ok w s :
  store_error w = None →
  getSubmissions w s =
  (json 200 (VArr (map VObj (merge_sort (desc "createdAt") (submissions (store s))))), s).
Proof.
  intros He. unfold getSubmissions, handle, select_order_desc.
  rewrite bind_run, remote_ok by done. reflexivity.
Qed.

(** [markMinted] *)
Section remote_minted.
Variables (w : world) (id : string) (b : value) (s : state).
Hypothesis Hb : destructurable b = true.

Lemma markMinted_fault msg :
  store_error w = Some msg →
  markMinted w id b s = (json 500 (error_body "Failed to mark minted"), s).
Proof.
  intros He. unfold markMinted, handle, update_eq_single.
  rewrite bind_run, destructure_run, bind_run by done.
  rewrite (remote_fault _ _ _ msg) by done. reflexivity.
Qed.

Lemma markMinted_one r :
  store_error w = None → selected "id" id (submissions (store s)) = [r] →
  markMinted w id b s =
  (json 200 (VObj [("success", VBool true);
                   ("submission", VObj (spread r (sent b)))]),
   {| store := with_rows Submissions (patched "id" id (sent b) (submissions (store s))) (store s);
      pinned := pinned s |}).
Proof.
  intros He Hs. unfold markMinted, handle, update_eq_single.
  rewrite bind_run, destructure_run, bind_run by done.
  rewrite remote_ok by done. cbn [rows].
  rewrite Hs. reflexivity.
Qed.

Lemma markMinted_none_or_many :
  (∀ r, selected "id" id (submissions (store s)) ≠ [r]) →
  markMinted w id b s = (json 500 (error_body "Failed to mark minted"), s).
Proof.
  intros Hs. destruct (store_error w) as [msg|] eqn:He.
  { by apply (markMinted_fault msg). }
  unfold markMinted, handle, update_eq_single.
  rewrite bind_run, destructure_run, bind_run by done.
  rewrite remote_ok by done. cbn [rows].
  destruct (selected _ _ _) as [|r [|r' l]] eqn:E; try done.
  by destruct (Hs r).
Qed.
End remote_minted.

(** Spreading a patch *)

Lemma spread_fixed (o : obj) defs :
  (∀ k v, (k, v) ∈ defs → k ∈ o.*1 ∧ lookup k o = v) → spread o defs = o.
Proof.
  induction defs as [|[k v] defs IH]; intros H; [done|].
  rewrite spread_cons. destruct (H k v) as [Hk <-]; [left|].
  rewrite set_same by done. apply IH. intros k' v' Hin. apply H. by right.
Qed.

Lemma spread_idem (o : obj) defs :
  NoDup defs.*1 → spread (spread o defs) defs = spread o defs.
Proof.
  intros Hnd. apply spread_fixed. intros k v Hin. split.
  - apply spread_keys. left. apply list_elem_of_fmap. by exists (k, v).
  - by apply lookup_spread_in.
Qed.

Lemma lookup_in_NoDup k v (defs : obj) :
  NoDup defs.*1 → (k, v) ∈ defs → lookup k defs = v.
Proof.
  induction defs as [|[k' v'] defs IH]; intros Hnd Hin.
  - by apply elem_of_nil in Hin.
  - simpl in Hnd. apply NoDup_cons in Hnd as [Hk' Hnd]. simpl.
    apply elem_of_cons in Hin as [[= -> ->]|Hin].
    + by rewrite String.eqb_refl.
    + destruct (String.eqb_spec k k') as [->|Hne]; [|by apply IH].
      destruct Hk'. apply list_elem_of_fmap. by exists (k', v).
Qed.

Lemma elem_of_keys_lookup k (defs : obj) :
  k ∈ defs.*1 → (k, lookup k defs) ∈ defs.
Proof.
  induction defs as [|[k' v'] defs IH]; simpl.
  - by rewrite elem_of_nil.
  - rewrite elem_of_cons. intros Hk.
    destruct (String.eqb_spec k k') as [->|Hne]; [left|].
    right. apply IH. by destruct Hk.
Qed.

Lemma lookup_spread (k : string) (o : obj) defs :
  NoDup defs.*1 →
  lookup k (spread o defs) = if decide (k ∈ defs.*1) then lookup k defs else lookup k o.
Proof.
  intros Hnd. destruct (decide (k ∈ defs.*1)) as [Hk|Hk].
  - apply lookup_spread_in; [done|]. by apply elem_of_keys_lookup.
  - by apply lookup_spread_notin.
Qed.

Lemma sent_NoDup b : NoDup (sent b).*1.
Proof. apply norm_obj_NoDup, minted_fields_NoDup. Qed.

Lemma sent_keys b k :
  k ∈ (sent b).*1 → k ∈ ["status"; "txHash"; "tokenId"; "metadataURI"].
Proof. intros H. by apply norm_obj_keys in H. Qed.

Lemma sent_keeps_id b : "id" ∉ (sent b).*1.
Proof.
  intros H%sent_keys. rewrite !elem_of_cons, elem_of_nil in H.
  by destruct H as [|[|[|[|]]]].
Qed.

Lemma matches_spread id (r : obj) b :
  matches "id" id (spread r (sent b)) = matches "id" id r.
Proof.
  unfold matches. rewrite lookup_spread_notin; [done|]. apply sent_keeps_id.
Qed.

Lemma selected_patched id b (t : table) :
  selected "id" id (patched "id" id (sent b) t)
  = map (λ r, spread r (sent b)) (selected "id" id t).
Proof.
  unfold selected, patched.
  induction t as [|r t IH]; [done|]. cbn [map].
  destruct (matches "id" id r) eqn:E.
  - rewrite (filter_cons_True _ (spread r (sent b))) by (by rewrite matches_spread).
    rewrite (filter_cons_True _ r) by done. cbn [map]. f_equal. exact IH.
  - rewrite !(filter_cons_False _ r) by (by rewrite E). exact IH.
Qed.


Lemma patched_lookup id b (t : table) j :
  patched "id" id (sent b) t !! j =
  (λ r, if matches "id" id r then spread r (sent b) else r) <$> t !! j.
Proof. unfold patched. apply list_lookup_fmap. Qed.


(** Three rows with increasing timestamps *)
Lemma sorted_three (r1 r2 r3 : obj) t1 t2 t3 (t : table) :
  sort_key "createdAt" r1 = Some t1 →
  sort_key "createdAt" r2 = Some t2 →
  sort_key "createdAt" r3 = Some t3 →
  String.ltb t1 t2 = true → String.ltb t2 t3 = true →
  t ≡ₚ [r1; r2; r3] →
  merge_sort (desc "createdAt") t = [r3; r2; r1].
Proof.
  intros K1 K2 K3 H12 H23 Hp.
  pose proof (string_ltb_trans _ _ _ H12 H23) as H13.
  destruct (select_sorted "createdAt" t) as [Hs Hperm].
  apply (StronglySorted_unique_strong (desc "createdAt")); [|done| |].
  3:{ rewrite Hperm, Hp. symmetry. apply (reverse_Permutation [r1; r2; r3]). }
  - intros x1 x2 Hx1 Hx2. rewrite Hperm, Hp in Hx1.
    unfold desc, desc_leb.
    rewrite !elem_of_cons, elem_of_nil in Hx1, Hx2.
    destruct Hx1 as [->|[->|[->|[]]]]; destruct Hx2 as [->|[->|[->|[]]]];
      rewrite ?K1, ?K2, ?K3; try done;
      rewrite ?(string_ltb_not_leb _ _ H12), ?(string_ltb_not_leb _ _ H23),
        ?(string_ltb_not_leb _ _ H13); done.
  - unfold desc, desc_leb. repeat constructor; rewrite ?K1, ?K2, ?K3;
      auto using string_ltb_leb.
Qed.

(** * Facts shared by the claims *)

Lemma description_missing_spec req :
  description_missing req = negb (truthy (get "description" (req_body req))).
Proof.
  unfold description_missing.
  destruct (req_body req); cbn [get truthy negb]; by rewrite ?orb_true_r.
Qed.

Lemma description_absent_spec req :
  Api.description_absent req
  = negb (truthy (get "description" (req_body req))).
Proof. unfold Api.description_absent. by destruct (req_body req). Qed.

Lemma or_else_truthy a b : truthy a = true → or_else a b = a.
Proof. unfold or_else. by intros ->. Qed.

Lemma findIndex_known id l :
  forallb is_object l = true → known id l = true →
  ∃ i, findIndex_id id l = Ok (Some i).
Proof.
  induction l as [|x l IH]; [done|]. simpl.
  intros [Hx Hl]%andb_true_iff Hk.
  destruct x as [| | | | | |o]; try done.
  destruct (strict_eq_str (get "id" (VObj o)) id) eqn:E; [by eexists|].
  simpl in Hk. destruct (IH Hl Hk) as [i ->]. by eexists.
Qed.

Lemma findIndex_unknown id l :
  forallb is_object l = true → known id l = false →
  findIndex_id id l = Ok None.
Proof.
  induction l as [|x l IH]; [done|]. simpl.
  intros [Hx Hl]%andb_true_iff Hk. apply orb_false_iff in Hk as [Hk1 Hk2].
  destruct x as [| | | | | |o]; try done.
  rewrite Hk1. by rewrite IH.
Qed.

(** Routes *)

Lemma route_accepted {St} name (h : upload_request → St → response * St) r s req :
  accepted name r = Ok req → upload_route name h r s = h req s.
Proof. unfold upload_route. by intros ->. Qed.

Lemma route_refused {St} name (h : upload_request → St → response * St) r s e :
  accepted name r = Throw e → upload_route name h r s = (express_error e, s).
Proof. unfold upload_route. by intros ->. Qed.





(** A file that reaches the handler came alone, under the field name of
    the route, and within the size limit. *)
Lemma accepted_file name r req file :
  accepted name r = Ok req → req_file req = Some file →
  files r = [(name, file)] ∧ (size file ≤ file_size_limit)%N.
Proof.
  unfold accepted, single. intros H Hf.
  repeat case_match; simplify_eq; simpl in *; simplify_eq.
  apply negb_false_iff, String.eqb_eq in H4 as ->.
  split; [done|]. by apply N.ltb_ge.
Qed.


(** * The claims *)

(** C6. When the pin call fails, no record is persisted: the store after
    the request is the store before it, and the answer is not a 201.
    This holds for [server.js] and for every other variant. *)
Theorem C6_pin_failure_persists_nothing (w : world) (req : upload_request) msg :
  pin w = PinRejected msg →
  (∀ s, store (Server.submitData w req s).2 = store s
        ∧ status (Server.submitData w req s).1 ≠ 201)
  ∧ (∀ s, store (FileApi.postSubmission w req s).2 = store s
          ∧ status (FileApi.postSubmission w req s).1 ≠ 201)
  ∧ (∀ s, store (Legacy.submitData w req s).2 = store s
          ∧ status (Legacy.submitData w req s).1 ≠ 201)
  ∧ (∀ s, store (Api.postSubmission w req s).2 = store s
          ∧ status (Api.postSubmission w req s).1 ≠ 201).
Proof.
  intros Hpin.
  assert (Hflat : ∀ m a s, store (submit m a w req s).2 = store s
                           ∧ status (submit m a w req s).1 ≠ 201).
  { intros m a s.
    destruct (submit_cases m a w req s)
      as [(Hst & -> & _)|[(Hst & Hs & _)|(f & d & l & _ & _ & _ & Hp & _)]].
    - by rewrite Hst.
    - by rewrite Hst, Hs.
    - congruence. }
  split_and!; try apply Hflat.
  intros s.
  destruct (post_cases w req s)
    as [(Hst & -> & _)|[(Hst & Hs & _)|(f & d & _ & _ & Hp & _)]].
  - by rewrite Hst.
  - by rewrite Hst, Hs.
  - congruence.
Qed.

Lemma C6_pin_failure_witness :
  store (Server.submitData (Example.outside Example.t1 Example.unreachable)
           Example.request Example.after_three).2 = store Example.after_three
  ∧ status (Server.submitData (Example.outside Example.t1 Example.unreachable)
              Example.request Example.after_three).1 ≠ 201.
Proof.
  apply (C6_pin_failure_persists_nothing
           (Example.outside Example.t1 Example.unreachable) Example.request
           "connect ECONNREFUSED").
  reflexivity.
Defined.

(** ** Requests the handlers turn away *)







Lemma truthy_zero : truthy (VNum 0) = false.
Proof. reflexivity. Qed.

(** C10. Project creation tests its required fields by truthiness: a
    request that supplies every required field, with a latitude or a
    longitude equal to the number 0, is answered 400 "Missing required
    fields", and no row is inserted. *)
Theorem C10_zero_coordinate_rejected (w : world) (b : value) (s : Supabase.state) :
  destructurable b = true →
  Forall (λ k, get k b ≠ VUndefined)
    ["projectId"; "projectName"; "latitude"; "longitude"; "ecosystemType";
     "implementingAgency"] →
  get "latitude" b = VNum 0 ∨ get "longitude" b = VNum 0 →
  Api.postProject w b s = (json 400 (error_body "Missing required fields"), s).
Proof.
  intros Hb _ Hzero. unfold Api.postProject, handle.
  rewrite bind_run, destructure_run by done. cbv zeta.
  destruct Hzero as [-> | ->]; rewrite truthy_zero; cbn [negb];
    rewrite ?orb_true_r; reflexivity.
Qed.

Lemma C10_zero_coordinate_witness :
  Api.postProject (Example.outside Example.t1 Example.no_hash)
    Example.equator_project Example.db_three
  = (json 400 (error_body "Missing required fields"), Example.db_three).
Proof.
  apply C10_zero_coordinate_rejected.
  - reflexivity.
  - repeat constructor; vm_compute; discriminate.
  - left. reflexivity.
Defined.

(** C3. On an id that the store does not know, the file-backed
    [markMinted] answers 404 and leaves the state as it was.  The
    table-backed [markMinted] also leaves the state as it was, but its
    answer is 500 "Failed to mark minted": the error of the empty
    [.single()] result is thrown to the catch-all handler. *)
Theorem C3_markMinted_unknown_id (id : string) (b : value) :
  destructurable b = true →
  (∀ s l, holds s l → forallb is_object l = true → known id l = false →
     FlatFile.markMinted id b s = (json 404 (error_body "Not found"), s))
  ∧ (∀ w s, Supabase.selected "id" id (Supabase.submissions (store s)) = [] →
       Api.markMinted w id b s = (json 500 (error_body "Failed to mark minted"), s)).
Proof.
  intros Hb. split.
  - intros s l Hl Hobj Hk.
    apply (markMinted_not_found id b s l Hb (holds_reads _ _ Hl)).
    by apply findIndex_unknown.
  - intros w s Hsel. apply markMinted_none_or_many; [done|].
    intros r. by rewrite Hsel.
Qed.

Lemma C3_markMinted_unknown_id_witness :
  Server.markMinted "no-such-id" Example.evidence Example.after_three
  = (json 404 (error_body "Not found"), Example.after_three)
  ∧ Api.markMinted (Example.outside Example.t1 Example.no_hash) "no-such-id"
      Example.evidence Example.db_three
    = (json 500 (error_body "Failed to mark minted"), Example.db_three).
Proof.
  destruct (C3_markMinted_unknown_id "no-such-id" Example.evidence eq_refl)
    as [Hflat Hapi].
  split.
  - apply (Hflat Example.after_three Example.stored);
      [split|..]; vm_compute; reflexivity.
  - apply Hapi. vm_compute. reflexivity.
Defined.

(** ** Records the handlers answer with *)






(** ** Records on their way to the store *)

Lemma wf_or_else a b : wf a = true → wf b = true → wf (or_else a b) = true.
Proof. unfold or_else. by destruct (truthy a). Qed.

Lemma wf_gateway_url h : wf (gateway_url h) = true.
Proof. unfold gateway_url. by destruct (truthy h). Qed.

Lemma wf_server_record w b file hash :
  wf b = true → wf hash = true →
  wf (Server.submission_record w b file hash) = true.
Proof.
  intros Hb Hh. apply wf_VObj. split.
  - simpl. by apply (bool_decide_unpack _).
  - cbn [forallb snd]. rewrite !wf_or_else, Hh, wf_gateway_url
      by (done || by apply wf_get).
    done.
Qed.

Lemma wf_legacy_record w b file hash :
  wf b = true → wf hash = true →
  wf (Legacy.submission_record w b file hash) = true.
Proof.
  intros Hb Hh. apply wf_VObj. split.
  - simpl. by apply (bool_decide_unpack _).
  - cbn [forallb snd]. rewrite !wf_or_else, Hh, wf_gateway_url
      by (done || by apply wf_get).
    done.
Qed.

Lemma wf_opt_get k v : wf v = true → wf (opt_get k v) = true.
Proof. intros H. destruct v; try done. by apply (wf_get k (VObj props)). Qed.

(** The store after one more record. *)
Lemma appended_holds l rec p :
  forallb clean l = true → forallb wf l = true → wf rec = true →
  rec ≠ VUndefined →
  holds {| store := Some (saved (l ++ [rec])); pinned := p |} (l ++ [norm rec]).
Proof.
  intros Hc Hw Hr Hd.
  replace (l ++ [norm rec]) with (map norm_elem (l ++ [rec])).
  - apply saved_holds. rewrite forallb_app. simpl. by rewrite Hw, Hr.
  - rewrite map_app. simpl. by rewrite norm_elems_clean, norm_elem_defined.
Qed.

Lemma get_norm_object k (o : obj) :
  NoDup o.*1 → get k (norm (VObj o)) = norm (lookup k o).
Proof. intros Hnd. rewrite norm_object. simpl. by apply lookup_norm_obj. Qed.

(** C1 as stated fails: a 200 answer without a hash does not stop the
    pipeline, and the record it persists has no content identifier. *)
Lemma C1_counterexample :
  let r := Server.submitData (Example.outside Example.t1 Example.no_hash)
             Example.request Example.fresh in
  status r.1 = 201
  ∧ Example.column "ipfsHash" (Server.getSubmissions r.2).1 = [VUndefined]
  ∧ Example.column "imageUrl" (Server.getSubmissions r.2).1 = [VNull].
Proof. vm_compute. by split_and!. Qed.

(** C1, amended.  When the pin call succeeds but its response names no
    content identifier, the pipeline does not fail: it answers 201 and
    persists a record whose [ipfsHash] is absent and whose [imageUrl] is
    null, in the file-backed and in the table-backed variant alike. *)
Theorem C1_missing_hash_still_persisted
    (w : world) (req : upload_request) (file : upload) (data : value) :
  truthy (get "description" (req_body req)) = true →
  wf (req_body req) = true →
  req_file req = Some file →
  pin w = PinResolved data →
  opt_get "IpfsHash" data = VUndefined →
  (∀ s l, env_truthy (PINATA_JWT w) = true → holds s l →
     let r := Server.submitData w req s in
     status r.1 = 201
     ∧ ∃ rec, holds r.2 (l ++ [rec])
              ∧ get "ipfsHash" rec = VUndefined ∧ get "imageUrl" rec = VNull)
  ∧ (∀ s, store_error w = None →
       let r := Api.postSubmission w req s in
       status r.1 = 201
       ∧ ∃ row, Supabase.submissions (store r.2)
                = Supabase.submissions (store s) ++ [row]
                ∧ lookup "ipfsHash" row = VUndefined
                ∧ lookup "imageUrl" row = VNull).
Proof.
  intros Hd Hwb Hf Hp Hh. split.
  - intros s l Hj Hl r. subst r. unfold Server.submitData.
    rewrite (submit_resolved _ _ w req s file data l);
      rewrite ?description_missing_spec, ?Hd; try done;
      [|by apply holds_reads].
    rewrite Hh. split; [done|].
    destruct (holds_good s l Hl) as [Hcl Hwl].
    eexists. split; [|split].
    + cbn [snd]. apply appended_holds; try done. by apply wf_server_record.
    + unfold Server.submission_record. rewrite get_norm_object; [done|].
      simpl. by apply (bool_decide_unpack _).
    + unfold Server.submission_record. rewrite get_norm_object; [done|].
      simpl. by apply (bool_decide_unpack _).
  - intros s He r. subst r.
    rewrite (post_created w req s file data);
      rewrite ?description_absent_spec, ?Hd; try done.
    rewrite Hh. split; [done|].
    eexists. split; [reflexivity|]. unfold Api.submission_record, own_props.
    rewrite !lookup_norm_obj by (simpl; by apply (bool_decide_unpack _)).
    done.
Qed.

Lemma C1_missing_hash_witness :
  status (Server.submitData (Example.outside Example.t1 Example.no_hash)
            Example.request Example.after_three).1 = 201
  ∧ status (Api.postSubmission (Example.outside Example.t1 Example.no_hash)
              Example.request Example.db_three).1 = 201.
Proof.
  destruct (C1_missing_hash_still_persisted
              (Example.outside Example.t1 Example.no_hash) Example.request
              Example.photo (VObj []) eq_refl eq_refl eq_refl eq_refl eq_refl)
    as [Hflat Hapi].
  split.
  - eapply (Hflat Example.after_three Example.stored);
      [|split]; vm_compute; reflexivity.
  - apply (Hapi Example.db_three). reflexivity.
Defined.

(** C2 as stated fails on the file-backed variant: three submissions
    made at [t1 < t2 < t3] are listed oldest first. *)
Lemma C2_counterexample :
  String.ltb Example.t1 Example.t2 = true
  ∧ String.ltb Example.t2 Example.t3 = true
  ∧ Example.column "createdAt" (Server.getSubmissions Example.after_three).1
    = [VStr Example.t1; VStr Example.t2; VStr Example.t3].
Proof. vm_compute. by split_and!. Qed.

(** C2, amended.  The table-backed listing returns the rows of the table
    ordered by [createdAt] descending: rows created at [t1 < t2 < t3]
    come back as [t3, t2, t1].  The file-backed listing returns the stored
    sequence as it is, and a successful submit puts its record at the end
    of that sequence, so the file-backed listing is in order of
    creation, oldest first. *)
Theorem C2_listing_order :
  (∀ w s, store_error w = None →
     ∃ sorted,
       Api.getSubmissions w s = (json 200 (VArr (map VObj sorted)), s)
       ∧ sorted ≡ₚ Supabase.submissions (store s)
       ∧ StronglySorted (Supabase.desc "createdAt") sorted
       ∧ ∀ r1 r2 r3 t1 t2 t3,
           Supabase.sort_key "createdAt" r1 = Some t1 →
           Supabase.sort_key "createdAt" r2 = Some t2 →
           Supabase.sort_key "createdAt" r3 = Some t3 →
           String.ltb t1 t2 = true → String.ltb t2 t3 = true →
           Supabase.submissions (store s) ≡ₚ [r1; r2; r3] →
           sorted = [r3; r2; r1])
  ∧ (∀ s l, holds s l →
       Server.getSubmissions s = (json 200 (VArr l), s)
       ∧ ∀ w req,
           let r := Server.submitData w req s in
           status r.1 = 201 →
           wf (req_body req) = true →
           (∀ data, pin w = PinResolved data → wf data = true) →
           ∃ rec, holds r.2 (l ++ [rec]) ∧ get "createdAt" rec = VStr (now w)).
Proof.
  split.
  - intros w s He. eexists. split; [by apply getSubmissions_ok|].
    destruct (select_sorted "createdAt" (Supabase.submissions (store s))) as [Hs Hp].
    split_and!; [done|done|]. intros. by eapply sorted_three.
  - intros s l Hl. split.
    + unfold Server.getSubmissions, handle.
      rewrite bind_run. by rewrite (holds_load _ _ Hl).
    + intros w req r Hst Hwb Hjson. subst r. unfold Server.submitData in *.
      match type of Hst with context [submit ?m ?a w req s] =>
        destruct (submit_cases m a w req s)
          as [(Hs & _)|[(Hs & _)|(f & d & l' & _ & _ & _ & Hp & Hl' & Hrun)]]
      end; [congruence|congruence|].
      rewrite Hrun.
      assert (l' = l) as ->.
      { pose proof (reads_inj _ _ _ Hl' (holds_reads _ _ Hl)). congruence. }
      destruct (holds_good s l Hl) as [Hcl Hwl].
      eexists. split.
      * cbn [snd]. apply appended_holds; try done.
        apply wf_server_record; [done|]. apply wf_opt_get. by eapply Hjson.
      * unfold Server.submission_record. rewrite get_norm_object; [done|].
        simpl. by apply (bool_decide_unpack _).
Qed.

Lemma C2_listing_order_witness :
  Example.column "createdAt"
    (Api.getSubmissions (Example.outside Example.t1 Example.no_hash)
       Example.db_three).1
  = [VStr Example.t3; VStr Example.t2; VStr Example.t1].
Proof.
  destruct C2_listing_order as [Hapi _].
  destruct (Hapi (Example.outside Example.t1 Example.no_hash) Example.db_three
              eq_refl) as (sorted & -> & _ & _ & Hthree).
  rewrite (Hthree (Example.row 0) (Example.row 1) (Example.row 2)
             Example.t1 Example.t2 Example.t3
             eq_refl eq_refl eq_refl eq_refl eq_refl (reflexivity _)).
  reflexivity.
Defined.

(** ** Records *)

Lemma is_record_wf r : is_record r = true → wf r = true.
Proof.
  destruct r as [| | | | | |o]; try done. simpl.
  intros [Hnd Hf]%andb_true_iff. rewrite Hnd. simpl.
  induction o as [|[k v] o IH]; [done|]. simpl in *.
  apply andb_true_iff in Hf as [Hv Ho].
  apply bool_decide_eq_true_1, NoDup_cons in Hnd as [_ Hnd].
  rewrite IH by (done || by apply bool_decide_eq_true_2).
  rewrite andb_true_r. destruct v; try done;
    by apply andb_true_iff in Hv as [_ ?].
Qed.

Lemma record_lookup_norm k (o : obj) :
  forallb (fun p => match snd p with
                    | VUndefined => true
                    | x => is_json x
                    end) o = true →
  norm (lookup k o) = lookup k o.
Proof.
  induction o as [|[k' v] o IH]; [done|]. simpl.
  intros [Hv Ho]%andb_true_iff.
  destruct (String.eqb k k'); [|by apply IH].
  destruct v; try done; apply norm_clean;
    by apply andb_true_iff in Hv as [? _].
Qed.

Lemma is_record_fields r k : is_record r = true → get k (norm r) = get k r.
Proof.
  destruct r as [| | | | | |o]; try done. simpl.
  intros [Hnd Hf]%andb_true_iff.
  change (get k (norm (VObj o)) = lookup k o).
  rewrite get_norm_object by (by apply bool_decide_eq_true_1 in Hnd).
  by apply record_lookup_norm.
Qed.

Lemma object_fields_norm r k :
  is_object r = true → wf r = true → get k (norm r) = norm (get k r).
Proof.
  destruct r as [| | | | | |o]; try done. intros _ [Hnd _]%wf_VObj.
  by apply get_norm_object.
Qed.

Lemma parse_overflow :
  JSON.parse (JSON.text_of_string "1e999") = Some (VNum Number.infinity).
Proof. vm_compute. reflexivity. Qed.

(** C8 as stated fails: a record that [markMinted] saves with the token
    id of the request body [{"tokenId": 1e999}], a Number that is not
    finite, is loaded with the token id [null]. *)
Lemma C8_counterexample :
  let rec := VObj [("id", VStr "a"); ("status", VStr "approved");
                   ("tokenId", VNum Number.infinity)] in
  let saving := saveSubmissions (VArr [rec]) Example.fresh in
  JSON.parse (JSON.text_of_string "1e999") = Some (get "tokenId" rec)
  ∧ is_object rec = true ∧ wf rec = true
  ∧ saving.1 = Ok ()
  ∧ ∃ rec', loadSubmissions saving.2 = (Ok (VArr [rec']), saving.2)
            ∧ get "tokenId" rec' = VNull
            ∧ get "tokenId" rec' ≠ get "tokenId" rec.
Proof.
  split_and!; try (vm_compute; reflexivity).
  eexists. split_and!; [vm_compute; reflexivity|reflexivity|discriminate].
Qed.

(** C8, amended.  Saving a sequence and loading it again yields a
    sequence of the same length, each element the normal form of the one
    saved: every field of a record comes back as the normal form of what
    it held, so a Number that is not finite comes back as [null] and
    negative zero as zero.  A record whose fields are JSON values, or
    left out, comes back equal in every field.  Loading when there is no
    file yields the empty sequence. *)
Theorem C8_flat_file_round_trip :
  (∀ arr s, forallb wf arr = true →
     let saving := saveSubmissions (VArr arr) s in
     ∃ arr',
       saving.1 = Ok ()
       ∧ loadSubmissions saving.2 = (Ok (VArr arr'), saving.2)
       ∧ Forall2 (λ r r',
                    r' = norm_elem r
                    ∧ (is_object r = true → ∀ k, get k r' = norm (get k r))
                    ∧ (is_record r = true → ∀ k, get k r' = get k r))
           arr arr')
  ∧ (∀ s, store s = None → loadSubmissions s = (Ok (VArr []), s)).
Proof.
  split; [|apply load_missing].
  intros arr s Hw saving. subst saving. rewrite save_run. cbn [fst snd].
  exists (map norm_elem arr). split_and!; [done| |].
  - by apply holds_load, saved_holds.
  - induction arr as [|r arr IH]; [constructor|].
    simpl in Hw. apply andb_true_iff in Hw as [Hr Harr].
    simpl. constructor; [|by apply IH]. split_and!; [done| |].
    + intros Ho k. rewrite norm_elem_defined by (by destruct r).
      by apply object_fields_norm.
    + intros Hrec k. rewrite norm_elem_defined by (by destruct r).
      by apply is_record_fields.
Qed.

Lemma C8_flat_file_round_trip_witness :
  ∃ arr', loadSubmissions
            (saveSubmissions
               (VArr [Server.submission_record
                        (Example.outside Example.t1 Example.no_hash)
                        (req_body Example.request) Example.photo
                        VUndefined]) Example.fresh).2
          = (Ok (VArr arr'),
             (saveSubmissions
                (VArr [Server.submission_record
                         (Example.outside Example.t1 Example.no_hash)
                         (req_body Example.request) Example.photo
                         VUndefined]) Example.fresh).2).
Proof.
  destruct C8_flat_file_round_trip as [H _].
  destruct (H [Server.submission_record
                 (Example.outside Example.t1 Example.no_hash)
                 (req_body Example.request) Example.photo VUndefined]
              Example.fresh eq_refl) as (arr' & _ & Hload & _).
  by exists arr'.
Defined.

(** ** The minted fields of a record *)

Lemma minted_fields_keys b : (minted_fields b).*1 = minted_keys.
Proof. reflexivity. Qed.

Lemma lookup_minted_fields b k :
  k ∈ ["txHash"; "tokenId"; "metadataURI"] →
  lookup k (minted_fields b) = get k b.
Proof.
  rewrite !elem_of_cons, elem_of_nil. by intros [->|[->|[->|[]]]].
Qed.

Lemma flat_minted_record (o : obj) b :
  NoDup o.*1 →
  let p := norm_obj (spread o (minted_fields b)) in
  lookup "status" p = VStr "approved"
  ∧ (∀ k, k ∈ ["txHash"; "tokenId"; "metadataURI"] →
          lookup k p = norm (get k b))
  ∧ ∀ k, k ∉ minted_keys → lookup k p = norm (lookup k o).
Proof.
  intros Hnd p. subst p.
  pose proof (spread_NoDup o (minted_fields b) Hnd) as Hnd'.
  pose proof (minted_fields_NoDup b) as Hf.
  split_and!.
  - rewrite lookup_norm_obj by done.
    erewrite lookup_spread_in; [|done|by left]. done.
  - intros k Hk. rewrite lookup_norm_obj by done.
    rewrite (lookup_spread_in k (get k b)); [done|done|].
    rewrite !elem_of_cons, elem_of_nil in Hk.
    destruct Hk as [->|[->|[->|[]]]]; unfold minted_fields;
      rewrite !elem_of_cons; auto.
  - intros k Hk. rewrite lookup_norm_obj by done.
    by rewrite lookup_spread_notin by (by rewrite minted_fields_keys).
Qed.

Lemma sent_lookup b k :
  k ∈ ["txHash"; "tokenId"; "metadataURI"] →
  get k b ≠ VUndefined →
  k ∈ (Api.sent b).*1 ∧ lookup k (Api.sent b) = norm (get k b).
Proof.
  intros Hk Hd. unfold Api.sent.
  pose proof (minted_fields_NoDup b) as Hf.
  rewrite norm_obj_key_defined, lookup_norm_obj by done.
  rewrite lookup_minted_fields by done. split_and!; [|done|done].
  rewrite minted_fields_keys. unfold minted_keys.
  rewrite !elem_of_cons in *. tauto.
Qed.

Lemma sent_status b :
  "status" ∈ (Api.sent b).*1 ∧ lookup "status" (Api.sent b) = VStr "approved".
Proof.
  unfold Api.sent. pose proof (minted_fields_NoDup b) as Hf.
  rewrite norm_obj_key_defined, lookup_norm_obj by done.
  split_and!; [by left|done|done].
Qed.






Lemma sent_keys_minted b k : k ∉ minted_keys → k ∉ (Api.sent b).*1.
Proof. intros Hk Hin. apply Hk. by apply sent_keys in Hin. Qed.

Lemma patched_frame id b (t : Supabase.table) :
  Forall2 (λ r r', (Supabase.matches "id" id r = false → r' = r)
                   ∧ ∀ k, k ∉ minted_keys → lookup k r' = lookup k r)
    t (Supabase.patched "id" id (Api.sent b) t).
Proof.
  induction t as [|r t IH]; [constructor|].
  unfold Supabase.patched. cbn [map]. constructor; [|exact IH].
  destruct (Supabase.matches "id" id r) eqn:E.
  - split; [done|]. intros k Hk.
    by rewrite lookup_spread_notin by (by apply sent_keys_minted).
  - by split.
Qed.

Lemma unchanged_frame id (t : Supabase.table) :
  Forall2 (λ r r', (Supabase.matches "id" id r = false → r' = r)
                   ∧ ∀ k, k ∉ minted_keys → lookup k r' = lookup k r) t t.
Proof. induction t; constructor; auto. Qed.

(** C9. [markMinted] touches only the status, txHash, tokenId and
    metadataURI fields of the record it matched: every other field of
    that record, its id among them, reads as before, and every other
    record of the store is the record it was. *)
Theorem C9_markMinted_frame (id : string) (b : value) :
  destructurable b = true → wf b = true →
  (∀ s l, holds s l → forallb is_object l = true → known id l = true →
     ∃ i x rec,
       l !! i = Some x ∧ get "id" x = VStr id
       ∧ holds (FlatFile.markMinted id b s).2 (<[i := rec]> l)
       ∧ pinned (FlatFile.markMinted id b s).2 = pinned s
       ∧ ∀ k, k ∉ ["status"; "txHash"; "tokenId"; "metadataURI"] →
              get k rec = get k x)
  ∧ (∀ w s,
       let after := (Api.markMinted w id b s).2 in
       Supabase.projects (store after) = Supabase.projects (store s)
       ∧ pinned after = pinned s
       ∧ Forall2
           (λ r r', (Supabase.matches "id" id r = false → r' = r)
                    ∧ ∀ k, k ∉ ["status"; "txHash"; "tokenId"; "metadataURI"] →
                           lookup k r' = lookup k r)
           (Supabase.submissions (store s)) (Supabase.submissions (store after))).
Proof.
  intros Hb Hwb. split.
  - intros s l Hl Hobj Hk.
    destruct (findIndex_known id l Hobj Hk) as [i Hf].
    destruct (findIndex_object id l i Hf) as (o & Hi & Hid).
    pose proof (markMinted_stored id b s l i o Hb Hwb Hl Hf Hi) as Hst.
    destruct (holds_good s l Hl) as [Hcl Hwl].
    pose proof (forallb_lookup wf l i _ Hwl Hi) as [Hnd _]%wf_VObj.
    pose proof (forallb_lookup clean l i _ Hcl Hi) as Hco.
    destruct (flat_minted_record o b Hnd) as (_ & _ & Hframe).
    exists i, (VObj o), (VObj (norm_obj (spread o (minted_fields b)))).
    split_and!; try done.
    + by rewrite (markMinted_found id b s l Hb (holds_reads _ _ Hl) i Hf).
    + intros k Hk'. cbn [get]. rewrite (Hframe k Hk'). by apply norm_lookup.
  - intros w s after. subst after.
    destruct (store_error w) as [msg|] eqn:He.
    { rewrite (markMinted_fault w id b s Hb msg He).
      split_and!; try done. apply unchanged_frame. }
    destruct (Supabase.selected "id" id (Supabase.submissions (store s)))
      as [|r [|r' rest]] eqn:Hsel.
    + rewrite markMinted_none_or_many by (done || by rewrite Hsel).
      split_and!; try done. apply unchanged_frame.
    + rewrite (markMinted_one w id b s Hb r He Hsel).
      split_and!; try done. apply patched_frame.
    + rewrite markMinted_none_or_many by (done || by rewrite Hsel).
      split_and!; try done. apply unchanged_frame.
Qed.

Lemma C9_markMinted_frame_witness :
  (∃ i x rec,
     Example.stored !! i = Some x
     ∧ get "id" x = VStr "id-2025-01-02T10:00:00.000Z"
     ∧ holds (FlatFile.markMinted "id-2025-01-02T10:00:00.000Z" Example.evidence
                Example.after_three).2 (<[i := rec]> Example.stored)
     ∧ pinned (FlatFile.markMinted "id-2025-01-02T10:00:00.000Z" Example.evidence
                 Example.after_three).2 = pinned Example.after_three
     ∧ ∀ k, k ∉ ["status"; "txHash"; "tokenId"; "metadataURI"] →
            get k rec = get k x)
  ∧ Supabase.projects
      (store (Api.markMinted (Example.outside Example.t1 Example.no_hash)
                "id-2025-01-02T10:00:00.000Z" Example.evidence Example.db_three).2)
    = Supabase.projects (store Example.db_three).
Proof.
  destruct (C9_markMinted_frame "id-2025-01-02T10:00:00.000Z"
              Example.evidence eq_refl eq_refl) as [Hflat Hapi].
  split.
  - apply (Hflat Example.after_three Example.stored);
      [split|..]; vm_compute; reflexivity.
  - by destruct (Hapi (Example.outside Example.t1 Example.no_hash) Example.db_three)
      as [H _].
Defined.

(** * Further properties of the handlers *)

(** ** The submit pipeline *)

Lemma description_present req :
  truthy (get "description" (req_body req)) = true →
  description_missing req = false ∧ Api.description_absent req = false.
Proof.
  intros H. by rewrite description_missing_spec, description_absent_spec, H.
Qed.

(** Every request that gets past validation and the token check sends one
    form to the pinning service, whatever happens afterwards. *)
Lemma submit_pinned missing_file assemble w req s file :
  description_missing req = false → req_file req = Some file →
  env_truthy (PINATA_JWT w) = true →
  pinned (submit missing_file assemble w req s).2
  = pinned s ++ [pinata_form (PINATA_JWT w) (req_body req) file].
Proof.
  intros Hd Hf Hj.
  destruct (pin w) as [msg|data] eqn:Hp.
  { by rewrite (submit_rejected _ _ w req s file msg). }
  destruct (loadSubmissions s) as [[v|e] s1] eqn:E.
  - pose proof (load_state s) as Hs. rewrite E in Hs. simpl in Hs. subst s1.
    destruct v as [| | | | |l|];
      try (destruct (submit_unreadable missing_file assemble w req s file data)
             as [e' ->]; [done..| |done];
           intros l Hl; apply reads_load in Hl; congruence).
    apply load_reads in E.
    by rewrite (submit_resolved _ _ w req s file data l).
  - destruct (submit_unreadable missing_file assemble w req s file data)
      as [e' ->]; [done..| |done].
    intros l Hl. apply reads_load in Hl. congruence.
Qed.

Lemma post_pinned w req s file :
  Api.description_absent req = false → req_file req = Some file →
  pinned (Api.postSubmission w req s).2
  = pinned s ++ [pinata_form (PINATA_JWT w) (req_body req) file].
Proof.
  intros Hd Hf.
  destruct (pin w) as [msg|data] eqn:Hp.
  { by rewrite (post_rejected w req s file msg). }
  destruct (store_error w) as [msg|] eqn:He.
  { by rewrite (post_fault w req s file data msg). }
  by rewrite (post_created w req s file data).
Qed.

(** X1. In the three file-backed variants a well-formed submit request
    that arrives while [PINATA_JWT] is unset or empty is answered with
    500 "Pinata JWT not configured on server" before anything is sent to
    the pinning service: the file and the log of pin requests are as
    they were. *)
Theorem X1_missing_jwt_stops_before_pin (w : world) (req : upload_request) :
  truthy (get "description" (req_body req)) = true →
  is_Some (req_file req) →
  env_truthy (PINATA_JWT w) = false →
  ∀ s,
    Forall (λ handler : world → upload_request → FlatFile.state
                        → response * FlatFile.state,
              handler w req s
              = (json 500 (error_body "Pinata JWT not configured on server"), s))
      [Server.submitData; FileApi.postSubmission; Legacy.submitData].
Proof.
  intros [Hd _]%description_present [file Hf] Hj s.
  repeat constructor; by apply (submit_no_jwt _ _ w req s file).
Qed.

Lemma X1_missing_jwt_witness :
  Forall (λ handler : world → upload_request → FlatFile.state
                      → response * FlatFile.state,
            handler (Example.no_jwt Example.t1 (Example.pinned_as "Qm1"))
              Example.request Example.after_three
            = (json 500 (error_body "Pinata JWT not configured on server"),
               Example.after_three))
    [Server.submitData; FileApi.postSubmission; Legacy.submitData].
Proof.
  apply (X1_missing_jwt_stops_before_pin
           (Example.no_jwt Example.t1 (Example.pinned_as "Qm1")) Example.request).
  - reflexivity.
  - by eexists.
  - reflexivity.
Defined.

(** X2. The table-backed variant has no such check.  With [PINATA_JWT]
    unset, a well-formed submit request still reaches the pinning
    service, carrying the header [Bearer undefined]; if the service
    accepts it and the store is up, the answer is 201. *)
Theorem X2_table_variant_pins_without_jwt
    (w : world) (req : upload_request) (file : upload) (s : Supabase.state) :
  truthy (get "description" (req_body req)) = true →
  req_file req = Some file →
  PINATA_JWT w = None →
  let r := Api.postSubmission w req s in
  (∃ form, pinned r.2 = pinned s ++ [form]
           ∧ pin_file form = file
           ∧ authorization form = "Bearer undefined")
  ∧ (∀ data, pin w = PinResolved data → store_error w = None →
       status r.1 = 201).
Proof.
  intros [_ Hd]%description_present Hf Hj r. subst r. split.
  - eexists. split; [by apply post_pinned|]. by rewrite Hj.
  - intros data Hp He. by rewrite (post_created w req s file data).
Qed.

Lemma X2_table_variant_witness :
  status (Api.postSubmission (Example.unset_jwt Example.t1 (Example.pinned_as "Qm1"))
            Example.request Example.db_three).1 = 201.
Proof.
  destruct (X2_table_variant_pins_without_jwt
              (Example.unset_jwt Example.t1 (Example.pinned_as "Qm1"))
              Example.request Example.photo Example.db_three
              eq_refl eq_refl eq_refl) as [_ H].
  by apply (H (VObj [("IpfsHash", VStr "Qm1"); ("PinSize", VNum 2048)])).
Defined.

(** X3. A submit whose file was pinned but whose record cannot be
    persisted is answered with 500 "Server error"; the store is as it
    was, while the pinning service has received the file.  In the
    file-backed variant this happens when the text of the file is not
    that of a JSON array, in the table-backed variant when the store
    reports an error, whose message becomes the [details] of the
    answer. *)
Theorem X3_persist_failure_leaves_pin
    (w : world) (req : upload_request) (file : upload) (data : value) :
  truthy (get "description" (req_body req)) = true →
  req_file req = Some file →
  pin w = PinResolved data →
  (∀ s, env_truthy (PINATA_JWT w) = true → (∀ l, ¬ reads s (VArr l)) →
     let r := Server.submitData w req s in
     status r.1 = 500
     ∧ get "error" (payload r.1) = VStr "Server error"
     ∧ store r.2 = store s
     ∧ ∃ form, pinned r.2 = pinned s ++ [form] ∧ pin_file form = file)
  ∧ (∀ s msg, store_error w = Some msg →
       let r := Api.postSubmission w req s in
       r.1 = json 500 (VObj [("error", VStr "Server error");
                             ("details", VStr msg)])
       ∧ store r.2 = store s
       ∧ ∃ form, pinned r.2 = pinned s ++ [form] ∧ pin_file form = file).
Proof.
  intros [Hd Hd']%description_present Hf Hp. split.
  - intros s Hj Hl r. subst r. unfold Server.submitData.
    match goal with |- context [submit ?m ?a w req s] =>
      destruct (submit_unreadable m a w req s file data) as [e ->]; try done
    end.
    split_and!; try done. by eexists.
  - intros s msg He r. subst r.
    rewrite (post_fault w req s file data msg) by done.
    split_and!; try done. by eexists.
Qed.

Lemma X3_persist_failure_witness :
  status (Server.submitData (Example.outside Example.t1 (Example.pinned_as "Qm1"))
            Example.request Example.corrupt).1 = 500
  ∧ status (Api.postSubmission
              (Example.store_down Example.t1 (Example.pinned_as "Qm1"))
              Example.request Example.db_three).1 = 500.
Proof.
  destruct (X3_persist_failure_leaves_pin
              (Example.outside Example.t1 (Example.pinned_as "Qm1"))
              Example.request Example.photo
              (VObj [("IpfsHash", VStr "Qm1"); ("PinSize", VNum 2048)])
              eq_refl eq_refl eq_refl) as [Hflat _].
  destruct (X3_persist_failure_leaves_pin
              (Example.store_down Example.t1 (Example.pinned_as "Qm1"))
              Example.request Example.photo
              (VObj [("IpfsHash", VStr "Qm1"); ("PinSize", VNum 2048)])
              eq_refl eq_refl eq_refl) as [_ Hapi].
  split.
  - apply (Hflat Example.corrupt); [reflexivity|].
    intros l Hl. vm_compute in Hl. discriminate Hl.
  - by destruct (Hapi Example.db_three "fetch failed" eq_refl) as [-> _].
Defined.

Lemma pinata_form_contents jwt body file :
  let form := pinata_form jwt body file in
  let keyvalues := get "keyvalues" (pinataMetadata form) in
  pin_file form = file
  ∧ get "name" (pinataMetadata form) = VStr (originalname file)
  ∧ get "uploader" keyvalues
    = (if truthy (get "name" body) then get "name" body else VStr "anonymous")
  ∧ get "description" keyvalues
    = (if truthy (get "description" body) then get "description" body
       else VStr EmptyString)
  ∧ pinataOptions form = VObj [("cidVersion", VNum 1)]
  ∧ authorization form = "Bearer " +:+ env_string jwt.
Proof. by split_and!. Qed.

(** X4. A submit request that passes validation (and, in the file-backed
    variants, the token check) makes exactly one call to the pinning
    service, whether or not the call or the later save succeeds.  The
    form carries the uploaded file under its original name, the
    description of the request, the uploader's name or "anonymous" when
    the request names none, the option [cidVersion: 1] and the
    configured token as bearer. *)
Theorem X4_one_pin_request_per_submit
    (w : world) (req : upload_request) (file : upload) (jwt : string) :
  let body := req_body req in
  truthy (get "description" body) = true →
  req_file req = Some file →
  PINATA_JWT w = Some jwt → jwt ≠ EmptyString →
  ∃ form,
    pin_file form = file
    ∧ get "name" (pinataMetadata form) = VStr (originalname file)
    ∧ get "uploader" (get "keyvalues" (pinataMetadata form))
      = (if truthy (get "name" body) then get "name" body else VStr "anonymous")
    ∧ get "description" (get "keyvalues" (pinataMetadata form))
      = get "description" body
    ∧ pinataOptions form = VObj [("cidVersion", VNum 1)]
    ∧ authorization form = "Bearer " +:+ jwt
    ∧ (∀ s, Forall (λ handler : world → upload_request → FlatFile.state
                                → response * FlatFile.state,
                      pinned (handler w req s).2 = pinned s ++ [form])
              [Server.submitData; FileApi.postSubmission; Legacy.submitData])
    ∧ (∀ s, pinned (Api.postSubmission w req s).2 = pinned s ++ [form]).
Proof.
  intros body Hd Hf Hj Hne.
  destruct (description_present req Hd) as [Hm Ha].
  assert (Ht : env_truthy (PINATA_JWT w) = true).
  { rewrite Hj. simpl. by destruct (String.eqb_spec jwt EmptyString). }
  exists (pinata_form (PINATA_JWT w) body file).
  destruct (pinata_form_contents (PINATA_JWT w) body file)
    as (F1 & F2 & F3 & F4 & F5 & F6).
  fold body in Hd. rewrite Hd in F4.
  split_and!; try done.
  - by rewrite F6, Hj.
  - intros s. repeat constructor; by apply submit_pinned.
  - intros s. by apply post_pinned.
Qed.

Lemma X4_one_pin_request_witness :
  ∃ form,
    get "uploader" (get "keyvalues" (pinataMetadata form)) = VStr "anonymous"
    ∧ authorization form = "Bearer jwt"
    ∧ pinned (Server.submitData (Example.outside Example.t1 Example.unreachable)
                Example.anonymous Example.fresh).2 = [form].
Proof.
  destruct (X4_one_pin_request_per_submit
              (Example.outside Example.t1 Example.unreachable)
              Example.anonymous Example.photo "jwt"
              eq_refl eq_refl eq_refl ltac:(discriminate))
    as (form & _ & _ & Hu & _ & _ & Ha & Hflat & _).
  exists form. split_and!; [exact Hu|exact Ha|].
  by destruct (Forall_cons_1 _ _ _ (Hflat Example.fresh)) as [-> _].
Defined.

(** ** Listing the file *)





(** ** What the file-backed handlers do to the file *)


Lemma findIndex_none_unknown id l :
  findIndex_id id l = Ok None → known id l = false.
Proof.
  induction l as [|x l IH]; [done|]. simpl.
  destruct (strict_eq_str (get "id" x) id) eqn:E.
  - by destruct x.
  - destruct (findIndex_id id l) as [[j|]|e]; destruct x; try done; auto.
Qed.

Lemma findIndex_some_known id l i :
  findIndex_id id l = Ok (Some i) → known id l = true.
Proof.
  intros (x & Hx & Hid & _)%findIndex_found. unfold known.
  apply existsb_exists. exists x. split; [|done].
  apply list_elem_of_In. by eapply list_elem_of_lookup_2.
Qed.

(** The ways a run of [markMinted] can end. *)
Lemma markMinted_cases id b s :
  (FlatFile.markMinted id b s = (json 500 (error_body "Failed to mark minted"), s))
  ∨ (FlatFile.markMinted id b s = (json 404 (error_body "Not found"), s)
     ∧ destructurable b = true
     ∧ ∃ l, reads s (VArr l) ∧ findIndex_id id l = Ok None)
  ∨ (∃ l i o, destructurable b = true ∧ reads s (VArr l)
       ∧ findIndex_id id l = Ok (Some i) ∧ l !! i = Some (VObj o)).
Proof.
  destruct (destructurable b) eqn:Hb.
  2:{ left. unfold FlatFile.markMinted, handle, destructure. rewrite bind_run.
      by rewrite Hb. }
  pose proof (load_state s) as Hs.
  destruct (loadSubmissions s) as [[v|e] s1] eqn:E; simpl in Hs; subst s1.
  - destruct v as [| | | | |l|].
    6:{ pose proof (load_reads _ _ _ E) as Hr.
        destruct (findIndex_id id l) as [[i|]|e] eqn:Hf.
        - right; right. destruct (findIndex_object id l i Hf) as (o & Hi & _).
          by exists l, i, o.
        - right; left. split_and!; [by apply (markMinted_not_found id b s l)|done|].
          by exists l.
        - left. unfold FlatFile.markMinted, handle.
          rewrite bind_run, destructure_run, bind_run, E, bind_run by done.
          cbn [as_array mret M_ret]. rewrite bind_run. unfold lift.
          by rewrite Hf. }
    all: left; unfold FlatFile.markMinted, handle;
      rewrite bind_run, destructure_run, bind_run, E, bind_run by done;
      reflexivity.
  - left. unfold FlatFile.markMinted, handle.
    rewrite bind_run, destructure_run, bind_run, E by done. reflexivity.
Qed.

Lemma minted_frame (o : obj) b k :
  NoDup o.*1 → forallb (fun p => clean (snd p)) o = true → k ∉ minted_keys →
  lookup k (norm_obj (spread o (minted_fields b))) = lookup k o.
Proof.
  intros Hnd Hc Hk. rewrite lookup_norm_obj by (by apply spread_NoDup).
  rewrite lookup_spread_notin by (by rewrite minted_fields_keys).
  by apply norm_lookup.
Qed.

(** The store after [submit], whatever its answer. *)
Lemma submit_keeps missing_file assemble w req s l :
  holds s l →
  (∀ file hash, wf hash = true →
     wf (assemble w (req_body req) file hash) = true
     ∧ assemble w (req_body req) file hash ≠ VUndefined) →
  (∀ data, pin w = PinResolved data → wf data = true) →
  holds (submit missing_file assemble w req s).2 l
  ∨ ∃ rec, holds (submit missing_file assemble w req s).2 (l ++ [rec]).
Proof.
  intros Hl Ha Hdata.
  destruct (submit_cases missing_file assemble w req s)
    as [(_ & -> & _)|[(_ & Hs & _)|(f & d & l' & _ & _ & _ & Hp & Hl' & ->)]].
  - by left.
  - left. by apply (holds_store s).
  - right.
    assert (l' = l) as ->.
    { pose proof (reads_inj _ _ _ Hl' (holds_reads _ _ Hl)). congruence. }
    destruct (holds_good s l Hl) as [Hcl Hwl].
    destruct (Ha f (opt_get "IpfsHash" d)) as [Hw Hne].
    { apply wf_opt_get. by eapply Hdata. }
    eexists. cbn [snd]. by apply appended_holds.
Qed.

Lemma server_record_ok w b file hash :
  wf b = true → wf hash = true →
  wf (Server.submission_record w b file hash) = true
  ∧ Server.submission_record w b file hash ≠ VUndefined.
Proof. intros Hb H. split; [by apply wf_server_record|done]. Qed.

Lemma legacy_record_ok w b file hash :
  wf b = true → wf hash = true →
  wf (Legacy.submission_record w b file hash) = true
  ∧ Legacy.submission_record w b file hash ≠ VUndefined.
Proof. intros Hb H. split; [by apply wf_legacy_record|done]. Qed.

(** X6. No handler of the file-backed variants removes, moves or
    replaces a stored record.  After any submit or [markMinted] request,
    whatever its answer, the file reads back as an array that is at
    least as long as before and holds, at every old position, a record
    that differs from the old one at most in [status], [txHash],
    [tokenId] and [metadataURI]; in particular every id stays where it
    was.  (The pin reply and the request body are JSON values, so their
    objects have no repeated keys.) *)
Theorem X6_records_stay_in_place (s : FlatFile.state) (l : list value) :
  holds s l →
  let kept (s' : FlatFile.state) :=
    ∃ l', holds s' l' ∧ (length l ≤ length l')%nat
          ∧ ∀ i x, l !! i = Some x →
              ∃ x', l' !! i = Some x'
                    ∧ ∀ k, k ∉ ["status"; "txHash"; "tokenId"; "metadataURI"] →
                           get k x' = get k x in
  (∀ w req, wf (req_body req) = true →
     (∀ data, pin w = PinResolved data → wf data = true) →
     kept (Server.submitData w req s).2
     ∧ kept (FileApi.postSubmission w req s).2
     ∧ kept (Legacy.submitData w req s).2)
  ∧ (∀ id b, wf b = true → kept (FlatFile.markMinted id b s).2).
Proof.
  intros Hl kept.
  assert (Hsame : ∀ s', holds s' l → kept s').
  { intros s' H. exists l. split_and!; [done|done|]. intros i x Hx. by exists x. }
  assert (Happ : ∀ s' rec, holds s' (l ++ [rec]) → kept s').
  { intros s' rec H. exists (l ++ [rec]). split_and!; [done| |].
    - rewrite length_app. lia.
    - intros i x Hx. exists x. split; [|done]. by apply lookup_app_l_Some. }
  split.
  - intros w req Hwb Hdata.
    split_and!;
      match goal with |- kept (?h w req s).2 =>
        unfold h;
        match goal with |- context [submit ?m ?a w req s] =>
          destruct (submit_keeps m a w req s l Hl) as [H|[rec H]];
            [intros; (by apply server_record_ok) || by apply legacy_record_ok
            |done|by apply Hsame|by eapply Happ]
        end
      end.
  - intros id b Hwb.
    destruct (markMinted_cases id b s)
      as [->|[(-> & _)|(l' & i & o & Hb & Hl' & Hf & Hi)]]; [by apply Hsame..|].
    assert (l' = l) as ->.
    { pose proof (reads_inj _ _ _ Hl' (holds_reads _ _ Hl)). congruence. }
    pose proof (markMinted_stored id b s l i o Hb Hwb Hl Hf Hi) as Hst.
    destruct (holds_good s l Hl) as [Hcl Hwl].
    pose proof (forallb_lookup wf l i _ Hwl Hi) as [Hnd _]%wf_VObj.
    pose proof (forallb_lookup clean l i _ Hcl Hi) as Hco.
    eexists. split_and!; [exact Hst|by rewrite length_insert|].
    intros j x Hx. destruct (decide (j = i)) as [->|Hne].
    + eexists. split.
      * apply list_lookup_insert_eq. by eapply lookup_lt_Some.
      * intros k Hk. assert (x = VObj o) as -> by congruence.
        cbn [get]. by apply minted_frame.
    + exists x. split; [|done]. by rewrite list_lookup_insert_ne.
Qed.

Lemma X6_records_stay_witness :
  ∃ l', holds (FlatFile.markMinted "id-2025-01-02T10:00:00.000Z" Example.evidence
                 Example.after_three).2 l'
        ∧ (length Example.stored ≤ length l')%nat.
Proof.
  assert (H : holds Example.after_three Example.stored)
    by (split; vm_compute; reflexivity).
  destruct (X6_records_stay_in_place Example.after_three Example.stored H)
    as [_ Hm].
  destruct (Hm "id-2025-01-02T10:00:00.000Z" Example.evidence eq_refl)
    as (l' & Hl' & Hlen & _).
  by exists l'.
Defined.



(** ** The metadata routes of the file-backed variants *)

Lemma find_id_findIndex id l :
  find_id id l = match findIndex_id id l with
                 | Ok (Some i) => Ok (default VUndefined (l !! i))
                 | Ok None => Ok VUndefined
                 | Throw e => Throw e
                 end.
Proof.
  induction l as [|x l IH]; [done|]. simpl.
  destruct (strict_eq_str (get "id" x) id) eqn:E.
  - by destruct x.
  - rewrite IH. destruct (findIndex_id id l) as [[j|]|e]; by destruct x.
Qed.

Lemma server_getMetadata_run id s :
  Server.getMetadata id s
  = (match (loadSubmissions s).1 with
     | Ok (VArr l) =>
         match find_id id l with
         | Ok sub =>
             if truthy sub
             then json 200 (VObj [("metadataURI", get "imageUrl" sub)])
             else json 404 (error_body "Not found")
         | Throw _ => json 500 (error_body "Error fetching metadata")
         end
     | _ => json 500 (error_body "Error fetching metadata")
     end, s).
Proof.
  unfold Server.getMetadata, handle. rewrite bind_run.
  pose proof (load_state s) as Hs.
  destruct (loadSubmissions s) as [[v|e] s1]; simpl in Hs; subst s1; [|done].
  cbn [fst]. destruct v as [| | | | |l|]; try done.
  rewrite bind_run. cbn [as_array mret M_ret]. rewrite bind_run. unfold lift.
  destruct (find_id id l) as [sub|e]; [|done].
  by destruct (truthy sub).
Qed.

Lemma fileapi_getMetadata_run id s :
  FileApi.getMetadata id s
  = (match (loadSubmissions s).1 with
     | Ok (VArr l) =>
         match find_id id l with
         | Ok sub =>
             if truthy sub then json 200 (metadata_view sub)
             else json 404 (error_body "Not found")
         | Throw _ => json 500 (error_body "Error fetching metadata")
         end
     | _ => json 500 (error_body "Error fetching metadata")
     end, s).
Proof.
  unfold FileApi.getMetadata, handle. rewrite bind_run.
  pose proof (load_state s) as Hs.
  destruct (loadSubmissions s) as [[v|e] s1]; simpl in Hs; subst s1; [|done].
  cbn [fst]. destruct v as [| | | | |l|]; try done.
  rewrite bind_run. cbn [as_array mret M_ret]. rewrite bind_run. unfold lift.
  destruct (find_id id l) as [sub|e]; [|done].
  by destruct (truthy sub).
Qed.

Lemma find_id_unknown id l :
  forallb is_object l = true → known id l = false → find_id id l = Ok VUndefined.
Proof.
  intros Ho Hk. by rewrite find_id_findIndex, findIndex_unknown.
Qed.

(** The first element that carries the id is the one [find] returns. *)
Lemma find_id_first id l i sub :
  forallb is_object l = true →
  l !! i = Some sub → get "id" sub = VStr id →
  (∀ j x, (j < i)%nat → l !! j = Some x → get "id" x ≠ VStr id) →
  find_id id l = Ok sub.
Proof.
  revert i. induction l as [|y l IH]; intros i Ho Hi Hid Hfirst; [done|].
  simpl in Ho. apply andb_true_iff in Ho as [Hy Ho].
  destruct y as [| | | | | |oy]; try done.
  destruct i as [|i].
  - injection Hi as <-. cbn [find_id]. rewrite Hid. simpl.
    by rewrite String.eqb_refl.
  - cbn [find_id].
    destruct (strict_eq_str (get "id" (VObj oy)) id) eqn:E.
    + exfalso. apply (Hfirst 0%nat (VObj oy)); [lia|done|].
      simpl in *. destruct (lookup "id" oy); try done.
      by apply String.eqb_eq in E as ->.
    + apply (IH i); try done.
      intros j x Hj Hx. apply (Hfirst (S j) x); [lia|done].
Qed.

(** X8. The metadata routes of the two file-backed variants that have
    one never write.  Over a file that holds an array of records they
    answer 404 "Not found" for an id no record carries; for an id that
    is there they answer 200 with the view of the first record carrying
    it, which in [server.js] is the image URL alone, under the name
    [metadataURI]; over a file whose text is not that of a JSON array
    they answer 500. *)
Theorem X8_metadata_lookup (id : string) (s : FlatFile.state) :
  (Server.getMetadata id s).2 = s ∧ (FileApi.getMetadata id s).2 = s
  ∧ (∀ l, reads s (VArr l) → forallb is_object l = true →
       (known id l = false →
          (Server.getMetadata id s).1 = json 404 (error_body "Not found")
          ∧ (FileApi.getMetadata id s).1 = json 404 (error_body "Not found"))
       ∧ (∀ i sub,
            l !! i = Some sub → get "id" sub = VStr id →
            (∀ j x, (j < i)%nat → l !! j = Some x → get "id" x ≠ VStr id) →
            (Server.getMetadata id s).1
            = json 200 (VObj [("metadataURI", get "imageUrl" sub)])
            ∧ (FileApi.getMetadata id s).1 = json 200 (metadata_view sub)))
  ∧ ((∀ l, ¬ reads s (VArr l)) →
       (Server.getMetadata id s).1
       = json 500 (error_body "Error fetching metadata")
       ∧ (FileApi.getMetadata id s).1
         = json 500 (error_body "Error fetching metadata")).
Proof.
  rewrite server_getMetadata_run, fileapi_getMetadata_run. cbn [fst snd].
  split_and!; try done.
  - intros l Hl Ho. rewrite (reads_load _ _ Hl). cbn [fst]. split.
    + intros Hk. by rewrite find_id_unknown.
    + intros i sub Hi Hid Hfirst.
      rewrite (find_id_first id l i sub) by done.
      pose proof (forallb_lookup is_object l i sub Ho Hi) as Hsub.
      by destruct sub.
  - intros Hn. pose proof (load_state s) as Hs.
    destruct (loadSubmissions s) as [[v|e] s1] eqn:E; simpl in Hs; subst s1;
      [|done].
    destruct v as [| | | | |l|]; try done. destruct (Hn l).
    by eapply load_reads.
Qed.

Lemma X8_metadata_lookup_witness :
  (Server.getMetadata "id-2025-01-02T10:00:00.000Z" Example.after_three).1
  = json 200 (VObj [("metadataURI", VStr "https://gateway.pinata.cloud/ipfs/Qm2")])
  ∧ (Server.getMetadata "no-such-id" Example.after_three).1
    = json 404 (error_body "Not found")
  ∧ (Server.getMetadata "no-such-id" Example.corrupt).1
    = json 500 (error_body "Error fetching metadata").
Proof.
  assert (H : reads Example.after_three (VArr Example.stored))
    by (vm_compute; reflexivity).
  destruct (X8_metadata_lookup "id-2025-01-02T10:00:00.000Z" Example.after_three)
    as (_ & _ & Hfound & _).
  destruct (Hfound Example.stored H eq_refl) as [_ Hfirst].
  destruct (X8_metadata_lookup "no-such-id" Example.after_three)
    as (_ & _ & Hnone & _).
  destruct (Hnone Example.stored H eq_refl) as [Hunknown _].
  destruct (X8_metadata_lookup "no-such-id" Example.corrupt) as (_ & _ & _ & Hbad).
  split_and!.
  - refine (proj1 (Hfirst 1%nat
                     (default VUndefined (Example.stored !! 1%nat)) _ _ _));
      [vm_compute; reflexivity..|].
    intros j x Hj Hx. assert (j = 0%nat) as -> by lia.
    vm_compute in Hx. injection Hx as <-. discriminate.
  - by destruct (Hunknown eq_refl).
  - refine (proj1 (Hbad _)). intros l Hl. vm_compute in Hl. discriminate Hl.
Defined.

Lemma clean_lookup k (o : obj) :
  forallb (fun p => clean (snd p)) o = true →
  lookup k o = VUndefined ∨ clean (lookup k o) = true.
Proof.
  induction o as [|[k' v] o IH]; [by left|]. simpl.
  intros [Hv Ho]%andb_true_iff. destruct (String.eqb k k'); auto.
Qed.

Lemma clean_get k b : clean b = true → get k b = VUndefined ∨ clean (get k b) = true.
Proof. destruct b; try (by left). apply clean_lookup. Qed.

Lemma clean_or_null k b : clean b = true → clean (or_else (get k b) VNull) = true.
Proof.
  intros Hb. unfold or_else. destruct (clean_get k b Hb) as [->|Hc]; [done|].
  by destruct (truthy (get k b)).
Qed.

Lemma clean_gateway_url h : clean (gateway_url h) = true.
Proof. unfold gateway_url. by destruct (truthy h). Qed.

(** The size of an upload is a Number that JSON text keeps. *)
Lemma clean_size file : clean (VNum (size file)) = true.
Proof.
  pose proof (size_ok file) as H. apply N.ltb_lt in H.
  assert (Hz : Z.abs (Z.of_N (size file)) < 2 ^ 53).
  { rewrite Z.abs_eq by lia. change (2 ^ 53) with (Z.of_N (2 ^ 53)). lia. }
  cbn [clean]. unfold Number.of_N.
  by rewrite of_Z_finite, of_Z_not_negative_zero.
Qed.

Lemma clean_server_record w b file hash :
  clean b = true → clean hash = true →
  clean (Server.submission_record w b file hash) = true.
Proof.
  intros Hb Hh. pose proof (clean_size file) as Hs.
  unfold Server.submission_record. cbn [clean forallb snd] in *.
  by rewrite !clean_or_null, Hh, clean_gateway_url, Hs.
Qed.

Lemma unknown_ids id l x : known id l = false → x ∈ l → get "id" x ≠ VStr id.
Proof.
  intros Hk Hx Hid. apply not_true_iff_false in Hk. apply Hk.
  apply existsb_exists. exists x. split; [by apply list_elem_of_In|].
  rewrite Hid. simpl. apply String.eqb_refl.
Qed.

Lemma or_else_twice a b c :
  or_else (or_else a b) c = if truthy a then a else or_else b c.
Proof. unfold or_else. destruct (truthy a) eqn:E; by rewrite ?E. Qed.

(** X9. A record that was just submitted is served by the metadata
    route under the id the 201 answer carried, provided no older record
    has that id.  When the pinning service named the content [h], the
    image URL served is the gateway URL of [h]; the name is the
    uploader's name, or "Untitled Submission" for a request without one;
    the attributes that the request left out are null. *)
Theorem X9_submitted_record_is_served
    (w : world) (req : upload_request) (file : upload) (data : value)
    (h : string) (s : FlatFile.state) (l : list value) :
  let body := req_body req in
  let url := VStr ("https://gateway.pinata.cloud/ipfs/" +:+ h) in
  truthy (get "description" body) = true → is_json body = true →
  req_file req = Some file →
  env_truthy (PINATA_JWT w) = true →
  pin w = PinResolved data → opt_get "IpfsHash" data = VStr h → h ≠ EmptyString →
  holds s l → forallb is_object l = true → known (uuidv4 w) l = false →
  (Server.getMetadata (uuidv4 w) (Server.submitData w req s).2).1
  = json 200 (VObj [("metadataURI", url)])
  ∧ ∃ view,
      (FileApi.getMetadata (uuidv4 w) (FileApi.postSubmission w req s).2).1
      = json 200 view
      ∧ get "name" view
        = (if truthy (get "name" body) then get "name" body
           else VStr "Untitled Submission")
      ∧ get "description" view = get "description" body
      ∧ get "image" view = url
      ∧ get "metadataURI" view = url
      ∧ get "attributes" view
        = VArr [trait "Applicant Address"
                  (or_else (get "applicantAddress" body) VNull);
                trait "Latitude" (or_else (get "latitude" body) VNull);
                trait "Longitude" (or_else (get "longitude" body) VNull)].
Proof.
  intros body url Hd [Hcb Hwb]%andb_true_iff Hf Hj Hp Hh Hne Hl Ho Hk.
  destruct (description_present req Hd) as [Hm _].
  set (rec := Server.submission_record w body file (VStr h)).
  assert (Hurl : gateway_url (VStr h) = url).
  { unfold gateway_url. simpl. by destruct (String.eqb_spec h EmptyString). }
  assert (Hst : ∀ m, holds (submit m Server.submission_record w req s).2
                       (l ++ [rec])).
  { intros m.
    rewrite (submit_resolved m _ w req s file data l)
      by (done || by apply holds_reads).
    rewrite Hh. fold body rec. cbn [snd].
    destruct (holds_good s l Hl) as [Hcl Hwl].
    rewrite <- (norm_clean rec) at 2 by (by apply clean_server_record).
    apply appended_holds; try done. by apply wf_server_record. }
  assert (Hfind : find_id (uuidv4 w) (l ++ [rec]) = Ok rec).
  { apply (find_id_first _ _ (length l)).
    - rewrite forallb_app, Ho. done.
    - by rewrite lookup_app_r, Nat.sub_diag by lia.
    - done.
    - intros j x Hj' Hx. rewrite lookup_app_l in Hx by done.
      eapply unknown_ids; [done|]. by eapply list_elem_of_lookup_2. }
  split.
  - rewrite server_getMetadata_run. cbn [fst]. unfold Server.submitData.
    specialize (Hst ("Missing image file (field name must be "
                     +:+ double_quoted "image" +:+ ")")).
    rewrite (holds_load _ _ Hst). cbn [fst]. rewrite Hfind.
    cbn [truthy rec Server.submission_record negb]. simpl get. by rewrite Hurl.
  - exists (metadata_view rec). split_and!.
    + rewrite fileapi_getMetadata_run. cbn [fst]. unfold FileApi.postSubmission.
      specialize (Hst ("Missing file (field name must be "
                       +:+ double_quoted "file" +:+ ")")).
      unfold FileApi.submission_record.
      rewrite (holds_load _ _ Hst). cbn [fst]. by rewrite Hfind.
    + simpl. apply or_else_twice.
    + simpl. rewrite or_else_twice. fold body. by rewrite Hd.
    + simpl. by rewrite Hurl.
    + simpl. by rewrite Hurl.
    + reflexivity.
Qed.

Lemma X9_submitted_record_witness :
  (Server.getMetadata "id-2025-01-01T10:00:00.000Z"
     (Server.submitData (Example.outside Example.t1 (Example.pinned_as "Qm1"))
        Example.anonymous Example.fresh).2).1
  = json 200 (VObj [("metadataURI", VStr "https://gateway.pinata.cloud/ipfs/Qm1")]).
Proof.
  refine (proj1 (X9_submitted_record_is_served
                   (Example.outside Example.t1 (Example.pinned_as "Qm1"))
                   Example.anonymous Example.photo
                   (VObj [("IpfsHash", VStr "Qm1"); ("PinSize", VNum 2048)])
                   "Qm1" Example.fresh []
                   eq_refl eq_refl eq_refl eq_refl eq_refl eq_refl _ _
                   eq_refl eq_refl)).
  - discriminate.
  - split; reflexivity.
Defined.

Lemma find_id_insert id l i (o p : obj) :
  l !! i = Some (VObj o) → lookup "id" p = lookup "id" o →
  match find_id id l, find_id id (<[i := VObj p]> l) with
  | Ok x, Ok x' => x' = x ∨ (x = VObj o ∧ x' = VObj p)
  | Throw _, Throw _ => True
  | _, _ => False
  end.
Proof.
  revert i. induction l as [|y l IH]; intros [|i] Hi Hid; try done.
  - injection Hi as ->. simpl. rewrite Hid.
    destruct (strict_eq_str (lookup "id" o) id); [by right|].
    destruct (find_id id l); auto.
  - simpl in Hi. simpl.
    destruct y; try done;
      match goal with
      | |- context [strict_eq_str ?a ?b] =>
          destruct (strict_eq_str a b); [by left|by apply IH]
      end.
Qed.

Lemma not_minted_key k :
  bool_decide (k ∉ minted_keys) = true → k ∉ minted_keys.
Proof. apply bool_decide_eq_true_1. Qed.

(** X10. Minting does not change what the metadata routes serve.  For
    every id, the answer of the metadata route after a [markMinted]
    request, whatever that request's id, body and outcome, is the answer
    it gave before: the view is built from fields [markMinted] does not
    write, and the [metadataURI] it reports is the image URL of the
    record, not the [metadataURI] stored with the minting evidence.
    (The file is taken to hold no Number that rewriting it would change,
    as is the case for every file the server wrote.) *)
Theorem X10_minting_keeps_metadata
    (id id' : string) (b : value) (s : FlatFile.state) :
  wf b = true →
  (∀ l, reads s (VArr l) → forallb clean l = true) →
  let s1 := (FlatFile.markMinted id b s).2 in
  (Server.getMetadata id' s1).1 = (Server.getMetadata id' s).1
  ∧ (FileApi.getMetadata id' s1).1 = (FileApi.getMetadata id' s).1.
Proof.
  intros Hwb Hclean s1. subst s1.
  destruct (markMinted_cases id b s)
    as [->|[(-> & _)|(l & i & o & Hb & Hr & Hf & Hi)]]; [done..|].
  assert (Hl : holds s l) by (split; [done|by apply Hclean]).
  pose proof (markMinted_stored id b s l i o Hb Hwb Hl Hf Hi) as Hst.
  destruct (holds_good s l Hl) as [Hcl Hwl].
  pose proof (forallb_lookup wf l i _ Hwl Hi) as [Hnd _]%wf_VObj.
  pose proof (forallb_lookup clean l i _ Hcl Hi) as Hco. simpl in Hco.
  set (p := norm_obj (spread o (minted_fields b))) in *.
  assert (Hframe : ∀ k, bool_decide (k ∉ minted_keys) = true →
                        lookup k p = lookup k o).
  { intros k Hk. apply minted_frame; try done. by apply not_minted_key. }
  pose proof (find_id_insert id' l i o p Hi (Hframe "id" eq_refl)) as Hfind.
  rewrite !server_getMetadata_run, !fileapi_getMetadata_run. cbn [fst].
  rewrite (holds_load _ _ Hl), (holds_load _ _ Hst). cbn [fst].
  destruct (find_id id' l) as [x|e], (find_id id' (<[i:=VObj p]> l)) as [x'|e'];
    try done.
  destruct Hfind as [->|[-> ->]]; [done|].
  unfold metadata_view. cbn [truthy get].
  by rewrite !Hframe.
Qed.

Lemma X10_minting_keeps_metadata_witness :
  (Server.getMetadata "id-2025-01-02T10:00:00.000Z"
     (FlatFile.markMinted "id-2025-01-02T10:00:00.000Z" Example.evidence
        Example.after_three).2).1
  = json 200 (VObj [("metadataURI", VStr "https://gateway.pinata.cloud/ipfs/Qm2")]).
Proof.
  rewrite (proj1 (X10_minting_keeps_metadata
                    "id-2025-01-02T10:00:00.000Z" "id-2025-01-02T10:00:00.000Z"
                    Example.evidence Example.after_three eq_refl
                    ltac:(intros l Hl; vm_compute in Hl;
                          injection Hl as <-; reflexivity))).
  vm_compute. reflexivity.
Defined.

(** ** The outcomes of [markMinted] *)

(** X11. A [markMinted] request on the file-backed store ends in one of
    three ways, and only the first writes: 200, given only when some
    record carries the id; 404, given only when the text of the file is
    that of a JSON array in which no record carries it; 500, given
    whenever the request has no body to destructure or the text of the
    file is not that of a JSON array.  The log of pin requests is never
    touched.  The table-backed handler, too, answers a request without a
    body with 500 and changes nothing. *)
Theorem X11_markMinted_outcomes (id : string) (b : value) (s : FlatFile.state) :
  let r := FlatFile.markMinted id b s in
  pinned r.2 = pinned s
  ∧ (status r.1 = 200 ∨ status r.1 = 404 ∨ status r.1 = 500)
  ∧ (status r.1 ≠ 200 → r.2 = s)
  ∧ (status r.1 = 200 → ∃ l, reads s (VArr l) ∧ known id l = true)
  ∧ (status r.1 = 404 → ∃ l, reads s (VArr l) ∧ known id l = false)
  ∧ (destructurable b = false ∨ (∀ l, ¬ reads s (VArr l)) →
       r = (json 500 (error_body "Failed to mark minted"), s))
  ∧ (destructurable b = false →
       ∀ w t, Api.markMinted w id b t
              = (json 500 (error_body "Failed to mark minted"), t)).
Proof.
  intros r. subst r.
  assert (Hapi : destructurable b = false →
                 ∀ w t, Api.markMinted w id b t
                        = (json 500 (error_body "Failed to mark minted"), t)).
  { intros Hb w t. unfold Api.markMinted, handle, destructure.
    rewrite bind_run. by rewrite Hb. }
  destruct (markMinted_cases id b s)
    as [->|[(-> & Hb & l & Hl & Hf)|(l & i & o & Hb & Hl & Hf & Hi)]].
  - split_and!; try done; auto.
  - split_and!; try done; auto.
    + intros _. exists l. split; [done|]. by apply findIndex_none_unknown.
    + intros [Hn|Hn]; [congruence|]. by destruct (Hn l).
  - rewrite (markMinted_found id b s l Hb Hl i Hf).
    split_and!; try done; auto.
    + intros _. exists l. split; [done|]. by eapply findIndex_some_known.
    + intros [Hn|Hn]; [congruence|]. by destruct (Hn l).
Qed.

Lemma X11_markMinted_outcomes_witness :
  FlatFile.markMinted "id-2025-01-02T10:00:00.000Z" VUndefined Example.after_three
  = (json 500 (error_body "Failed to mark minted"), Example.after_three).
Proof.
  destruct (X11_markMinted_outcomes "id-2025-01-02T10:00:00.000Z" VUndefined
              Example.after_three) as (_ & _ & _ & _ & _ & H & _).
  apply H. by left.
Defined.

(** X12. The two stores treat evidence that the request left out
    differently.  When the body lacks one of [txHash], [tokenId] and
    [metadataURI], the file-backed [markMinted] leaves the record
    without that field, erasing any value it had; the table-backed one
    sends no value for it, and the row keeps the value it had. *)
Theorem X12_missing_evidence_field (id : string) (b : value) (k : string) :
  destructurable b = true → wf b = true →
  k ∈ ["txHash"; "tokenId"; "metadataURI"] → get k b = VUndefined →
  (∀ s l, holds s l → forallb is_object l = true → known id l = true →
     ∃ i x rec,
       l !! i = Some x ∧ get "id" x = VStr id
       ∧ holds (FlatFile.markMinted id b s).2 (<[i := rec]> l)
       ∧ get k rec = VUndefined)
  ∧ (∀ w s r, store_error w = None →
       Supabase.selected "id" id (Supabase.submissions (store s)) = [r] →
       ∃ row,
         Supabase.selected "id" id
           (Supabase.submissions (store (Api.markMinted w id b s).2)) = [row]
         ∧ lookup k row = lookup k r).
Proof.
  intros Hb Hwb Hk Hu.
  assert (Hin : (k, VUndefined) ∈ minted_fields b).
  { rewrite <- Hu. unfold minted_fields.
    rewrite !elem_of_cons, elem_of_nil in Hk. rewrite !elem_of_cons.
    destruct Hk as [->|[->|[->|[]]]]; auto. }
  split.
  - intros s l Hl Ho Hkn.
    destruct (findIndex_known id l Ho Hkn) as [i Hf].
    destruct (findIndex_object id l i Hf) as (o & Hi & Hid).
    destruct (holds_good s l Hl) as [_ Hwl].
    pose proof (forallb_lookup wf l i _ Hwl Hi) as [Hnd _]%wf_VObj.
    exists i, (VObj o), (VObj (norm_obj (spread o (minted_fields b)))).
    split_and!; [done|done|by apply markMinted_stored|].
    cbn [get]. rewrite lookup_norm_obj by (by apply spread_NoDup).
    by rewrite (lookup_spread_in k VUndefined) by (done || apply minted_fields_NoDup).
  - intros w s r He Hsel.
    rewrite (markMinted_one w id b s Hb r He Hsel).
    cbn [snd store Supabase.with_rows Supabase.submissions].
    rewrite selected_patched, Hsel. eexists. split; [reflexivity|].
    apply lookup_spread_notin. unfold Api.sent.
    rewrite norm_obj_key_defined by apply minted_fields_NoDup.
    intros [_ Hd]. apply Hd.
    by apply lookup_in_NoDup; [apply minted_fields_NoDup|].
Qed.

Lemma X12_missing_evidence_witness :
  ∃ row,
    Supabase.selected "id" "id-2025-01-02T10:00:00.000Z"
      (Supabase.submissions
         (store (Api.markMinted (Example.outside Example.t1 Example.no_hash)
                   "id-2025-01-02T10:00:00.000Z" (VObj [("txHash", VStr "0xdef")])
                   (Api.markMinted (Example.outside Example.t1 Example.no_hash)
                      "id-2025-01-02T10:00:00.000Z" Example.evidence
                      Example.db_three).2).2)) = [row]
    ∧ lookup "tokenId" row = VNum 7.
Proof.
  destruct (X12_missing_evidence_field "id-2025-01-02T10:00:00.000Z"
              (VObj [("txHash", VStr "0xdef")]) "tokenId" eq_refl eq_refl)
    as [_ Hapi].
  - rewrite !elem_of_cons. auto.
  - reflexivity.
  - edestruct (Hapi (Example.outside Example.t1 Example.no_hash)
                (Api.markMinted (Example.outside Example.t1 Example.no_hash)
                   "id-2025-01-02T10:00:00.000Z" Example.evidence
                   Example.db_three).2) as (row & Hrow & Hk);
      [reflexivity|vm_compute; reflexivity|].
    exists row. split; [exact Hrow|]. rewrite Hk. reflexivity.
Defined.

(** ** From submission to minting *)

Lemma findIndex_app_fresh id l (o : obj) :
  forallb is_object l = true → known id l = false → lookup "id" o = VStr id →
  findIndex_id id (l ++ [VObj o]) = Ok (Some (length l)).
Proof.
  intros Ho Hk Hid. induction l as [|x l IH]; simpl.
  - rewrite Hid. simpl. by rewrite String.eqb_refl.
  - simpl in Ho, Hk. apply andb_true_iff in Ho as [Hx Ho].
    apply orb_false_iff in Hk as [Hk1 Hk2].
    destruct x as [| | | | | |ox]; try done.
    rewrite Hk1. by rewrite IH.
Qed.

Lemma insert_last {A} (l : list A) x y : <[length l := y]> (l ++ [x]) = l ++ [y].
Proof.
  rewrite insert_app_r_alt by done. by rewrite Nat.sub_diag.
Qed.

Lemma server_record_NoDup w body file hash :
  NoDup (own_props (Server.submission_record w body file hash)).*1.
Proof. simpl. by apply (bool_decide_unpack _). Qed.

Lemma api_record_NoDup w body file hash :
  NoDup (own_props (Api.submission_record w body file hash)).*1.
Proof. simpl. by apply (bool_decide_unpack _). Qed.

Lemma selected_app col val (t1 t2 : Supabase.table) :
  Supabase.selected col val (t1 ++ t2)
  = Supabase.selected col val t1 ++ Supabase.selected col val t2.
Proof. unfold Supabase.selected. apply filter_app. Qed.

Lemma patched_none col val sent (t : Supabase.table) :
  Supabase.selected col val t = [] → Supabase.patched col val sent t = t.
Proof.
  unfold Supabase.selected, Supabase.patched.
  induction t as [|r t IH]; [done|]. cbn [map].
  destruct (Supabase.matches col val r) eqn:E.
  - by rewrite (filter_cons_True _ r).
  - rewrite (filter_cons_False _ r) by (by rewrite E). intros H. by rewrite IH.
Qed.

Lemma patched_app col val sent (t1 t2 : Supabase.table) :
  Supabase.patched col val sent (t1 ++ t2)
  = Supabase.patched col val sent t1 ++ Supabase.patched col val sent t2.
Proof. unfold Supabase.patched. apply map_app. Qed.

(** X13. A submitted record can be minted under the id its 201 answer
    carried, provided no older record has that id: [markMinted] then
    answers 200, and the store holds the old records followed by one
    record that has the id, the description and the creation time of
    the submission, the status "approved" and the evidence of the
    request.  This holds for [server.js] and, with rows for records,
    for the table-backed variant. *)
Theorem X13_submit_then_mint
    (w : world) (req : upload_request) (file : upload) (data b : value) :
  let body := req_body req in
  let id := uuidv4 w in
  truthy (get "description" body) = true → is_json body = true →
  req_file req = Some file →
  pin w = PinResolved data → wf data = true →
  destructurable b = true → is_json b = true →
  (∀ s l, env_truthy (PINATA_JWT w) = true →
     holds s l → forallb is_object l = true → known id l = false →
     let r := Server.markMinted id b (Server.submitData w req s).2 in
     status r.1 = 200
     ∧ ∃ rec, holds r.2 (l ++ [rec])
              ∧ get "id" rec = VStr id
              ∧ get "description" rec = get "description" body
              ∧ get "createdAt" rec = VStr (now w)
              ∧ get "status" rec = VStr "approved"
              ∧ get "txHash" rec = get "txHash" b
              ∧ get "tokenId" rec = get "tokenId" b
              ∧ get "metadataURI" rec = get "metadataURI" b)
  ∧ (∀ w' s, store_error w = None → store_error w' = None →
       Supabase.selected "id" id (Supabase.submissions (store s)) = [] →
       let r := Api.markMinted w' id b (Api.postSubmission w req s).2 in
       status r.1 = 200
       ∧ ∃ row, Supabase.submissions (store r.2)
                = Supabase.submissions (store s) ++ [row]
                ∧ lookup "id" row = VStr id
                ∧ lookup "description" row = get "description" body
                ∧ lookup "createdAt" row = VStr (now w)
                ∧ lookup "status" row = VStr "approved"
                ∧ ∀ k, k ∈ ["txHash"; "tokenId"; "metadataURI"] →
                       get k b ≠ VUndefined → lookup k row = get k b).
Proof.
  intros body id Hd [Hcbody Hwbody]%andb_true_iff Hf Hp Hwd Hb
    [Hcb Hwb]%andb_true_iff.
  destruct (description_present req Hd) as [Hm Ha].
  assert (Hdesc : norm (get "description" body) = get "description" body)
    by (by apply norm_get).
  assert (Hev : ∀ k, norm (get k b) = get k b) by (intros k; by apply norm_get).
  set (hash := opt_get "IpfsHash" data).
  assert (Hwh : wf hash = true) by (by apply wf_opt_get).
  split.
  - intros s l Hj Hl Ho Hk r. subst r.
    set (rec0 := Server.submission_record w body file hash).
    set (o := norm_obj (own_props rec0)).
    assert (Hnd0 : NoDup (own_props rec0).*1) by apply server_record_NoDup.
    assert (Hnd : NoDup o.*1) by (by apply norm_obj_NoDup).
    assert (Hs1 : holds (Server.submitData w req s).2 (l ++ [VObj o])).
    { unfold Server.submitData.
      rewrite (submit_resolved _ _ w req s file data l)
        by (done || by apply holds_reads).
      fold body hash rec0. cbn [snd].
      destruct (holds_good s l Hl) as [Hcl Hwl].
      change (VObj o) with (norm rec0).
      apply appended_holds; try done. by apply wf_server_record. }
    assert (Hlook : ∀ k, lookup k o = norm (lookup k (own_props rec0)))
      by (intros k; by apply lookup_norm_obj).
    assert (Hid : lookup "id" o = VStr id) by (by rewrite Hlook).
    pose proof (findIndex_app_fresh id l o Ho Hk Hid) as Hfind.
    assert (Hi : (l ++ [VObj o]) !! length l = Some (VObj o))
      by (by rewrite lookup_app_r, Nat.sub_diag by lia).
    unfold Server.markMinted. split.
    + by rewrite (markMinted_found id b _ _ Hb (holds_reads _ _ Hs1) _ Hfind).
    + pose proof (markMinted_stored id b _ _ _ o Hb Hwb Hs1 Hfind Hi) as Hst.
      rewrite insert_last in Hst.
      destruct (flat_minted_record o b Hnd) as (F1 & F2 & Hframe).
      eexists. split; [exact Hst|]. cbn [get].
      rewrite (Hframe "id"), (Hframe "description"), (Hframe "createdAt")
        by (by apply not_minted_key).
      rewrite !Hlook.
      rewrite (F2 "txHash"), (F2 "tokenId"), (F2 "metadataURI"), !Hev
        by (rewrite !elem_of_cons; auto).
      split_and!; try done.
      simpl. rewrite or_else_truthy by done. by rewrite Hdesc.
  - intros w' s He He' Hsel r. subst r.
    set (rec0 := Api.submission_record w body file hash).
    set (o := norm_obj (own_props rec0)).
    assert (Hnd0 : NoDup (own_props rec0).*1) by apply api_record_NoDup.
    assert (Hlook : ∀ k, lookup k o = norm (lookup k (own_props rec0)))
      by (intros k; by apply lookup_norm_obj).
    assert (Hid : lookup "id" o = VStr id) by (by rewrite Hlook).
    rewrite (post_created w req s file data) by done.
    fold body hash rec0. cbn [snd].
    assert (Hsel1 : Supabase.selected "id" id
                      (Supabase.submissions (store s) ++ [o]) = [o]).
    { rewrite selected_app, Hsel. unfold Supabase.selected.
      rewrite (filter_cons_True _ o); [done|].
      unfold Supabase.matches. rewrite Hid. simpl. apply String.eqb_refl. }
    rewrite (markMinted_one w' id b _ Hb o He') by exact Hsel1.
    split; [done|].
    cbn [snd store pinned Supabase.inserted Supabase.rows Supabase.with_rows
         Supabase.submissions Supabase.projects].
    rewrite patched_app, patched_none by done.
    unfold Supabase.patched at 1. cbn [map].
    assert (Hmo : Supabase.matches "id" id o = true).
    { unfold Supabase.matches. rewrite Hid. simpl. apply String.eqb_refl. }
    fold o. rewrite Hmo. eexists. split; [reflexivity|].
    pose proof (sent_NoDup b) as Hsent.
    destruct (sent_status b) as [Hin Hv].
    split_and!.
    + rewrite lookup_spread_notin by apply sent_keeps_id. done.
    + rewrite lookup_spread_notin
        by (apply sent_keys_minted; by apply not_minted_key).
      rewrite Hlook. simpl. by rewrite Hdesc.
    + rewrite lookup_spread_notin
        by (apply sent_keys_minted; by apply not_minted_key).
      by rewrite Hlook.
    + rewrite lookup_spread by done. by rewrite decide_True.
    + intros k Hk Hdef. destruct (sent_lookup b k Hk Hdef) as [Hin' Hv'].
      rewrite lookup_spread by done. by rewrite decide_True, Hv', Hev.
Qed.

Lemma X13_submit_then_mint_witness :
  status (Server.markMinted "id-2025-01-01T10:00:00.000Z" Example.evidence
            (Server.submitData
               (Example.outside Example.t1 (Example.pinned_as "Qm1"))
               Example.request Example.fresh).2).1 = 200
  ∧ status (Api.markMinted (Example.outside Example.t2 Example.no_hash)
              "id-2025-01-01T10:00:00.000Z" Example.evidence
              (Api.postSubmission
                 (Example.outside Example.t1 (Example.pinned_as "Qm1"))
                 Example.request Example.empty_db).2).1 = 200.
Proof.
  destruct (X13_submit_then_mint
              (Example.outside Example.t1 (Example.pinned_as "Qm1"))
              Example.request Example.photo
              (VObj [("IpfsHash", VStr "Qm1"); ("PinSize", VNum 2048)])
              Example.evidence eq_refl eq_refl eq_refl eq_refl eq_refl eq_refl
              eq_refl)
    as [Hflat Hapi].
  split.
  - destruct (Hflat Example.fresh [] eq_refl) as [H _];
      [split; reflexivity|reflexivity..|exact H].
  - by destruct (Hapi (Example.outside Example.t2 Example.no_hash)
                   Example.empty_db eq_refl eq_refl eq_refl) as [H _].
Defined.

(** ** The metadata route of the table-backed server *)

Lemma api_getMetadata_run w id s :
  Api.getMetadata w id s
  = (match store_error w, Supabase.selected "id" id (Supabase.submissions (store s)) with
     | None, [row] => json 200 (metadata_view (VObj row))
     | _, _ => json 404 (error_body "Not found")
     end, s).
Proof.
  unfold Api.getMetadata, handle, Supabase.select_eq_single. rewrite bind_run.
  destruct (store_error w) as [msg|] eqn:He.
  - by rewrite (remote_fault _ _ _ msg).
  - rewrite remote_ok by done. cbn [Supabase.rows].
    by destruct (Supabase.selected _ _ _) as [|row [|row' rest]].
Qed.

(** X14. The metadata route of the table-backed server never writes,
    and since the store client reports a failure in its answer instead
    of throwing, it never answers 500.  It answers 200 with the view of
    the row when exactly one row carries the id; in every other case, a
    failing store included, it answers 404 "Not found". *)
Theorem X14_table_metadata (w : world) (id : string) (s : Supabase.state) :
  let r := Api.getMetadata w id s in
  let found := Supabase.selected "id" id (Supabase.submissions (store s)) in
  r.2 = s
  ∧ (∀ msg, store_error w = Some msg → r.1 = json 404 (error_body "Not found"))
  ∧ ((∀ row, found ≠ [row]) → r.1 = json 404 (error_body "Not found"))
  ∧ (∀ row, store_error w = None → found = [row] →
       r.1 = json 200 (metadata_view (VObj row)))
  ∧ status r.1 ≠ 500.
Proof.
  intros r found. subst r found. rewrite api_getMetadata_run. cbn [fst snd].
  split_and!; try done.
  - by intros msg ->.
  - intros Hn. destruct (store_error w); [done|].
    destruct (Supabase.selected _ _ _) as [|row [|row' rest]]; try done.
    by destruct (Hn row).
  - by intros row -> ->.
  - destruct (store_error w); [done|].
    by destruct (Supabase.selected _ _ _) as [|row [|row' rest]].
Qed.

Lemma X14_table_metadata_witness :
  (Api.getMetadata (Example.store_down Example.t1 Example.no_hash)
     "id-2025-01-02T10:00:00.000Z" Example.db_three).1
  = json 404 (error_body "Not found")
  ∧ status (Api.getMetadata (Example.outside Example.t1 Example.no_hash)
              "id-2025-01-02T10:00:00.000Z" Example.db_three).1 = 200.
Proof.
  split.
  - destruct (X14_table_metadata (Example.store_down Example.t1 Example.no_hash)
                "id-2025-01-02T10:00:00.000Z" Example.db_three)
      as (_ & H & _).
    by apply (H "fetch failed").
  - destruct (X14_table_metadata (Example.outside Example.t1 Example.no_hash)
                "id-2025-01-02T10:00:00.000Z" Example.db_three)
      as (_ & _ & _ & H & _).
    by rewrite (H (Example.row 1) eq_refl eq_refl).
Defined.

(** ** Projects *)

Lemma postProject_row_NoDup (w : world) (b : value) :
  NoDup [("projectId", get "projectId" b); ("projectName", get "projectName" b);
         ("latitude", get "latitude" b); ("longitude", get "longitude" b);
         ("ecosystemType", get "ecosystemType" b); ("ownership", get "ownership" b);
         ("governance", get "governance" b);
         ("implementingAgency", get "implementingAgency" b);
         ("projectDescription", get "projectDescription" b); ("area", get "area" b);
         ("establishmentDate", get "establishmentDate" b);
         ("status", VStr "draft"); ("createdAt", VStr (now w))].*1.
Proof. simpl. by apply (bool_decide_unpack _). Qed.

(** X15. [POST /api/projects] with a body answers in one of three ways.
    If one of projectId, projectName, latitude, longitude, ecosystemType
    and implementingAgency is missing or falsy, it answers 400 and the
    store is untouched.  Otherwise, if the store fails, it answers 500
    with the store's message as [details], and again nothing is stored.
    Otherwise it answers 201 with the stored row, which is appended to
    the projects table: the row has status "draft", the creation time of
    the request, and every field of the body under its own name; a
    field the body lacks is not stored. *)
Theorem X15_postProject_outcomes (w : world) (b : value) (s : Supabase.state) :
  destructurable b = true → is_json b = true →
  let required := ["projectId"; "projectName"; "latitude"; "longitude";
                   "ecosystemType"; "implementingAgency"] in
  let r := Api.postProject w b s in
  (Exists (λ k, truthy (get k b) = false) required →
     r = (json 400 (error_body "Missing required fields"), s))
  ∧ (Forall (λ k, truthy (get k b) = true) required →
       (∀ msg, store_error w = Some msg →
          r = (json 500 (VObj [("error", VStr "Server error");
                               ("details", VStr msg)]), s))
       ∧ (store_error w = None →
            ∃ row,
              r.1 = json 201 (VObj [("success", VBool true);
                                    ("project", VObj row)])
              ∧ Supabase.projects (store r.2)
                = Supabase.projects (store s) ++ [row]
              ∧ Supabase.submissions (store r.2) = Supabase.submissions (store s)
              ∧ pinned r.2 = pinned s
              ∧ lookup "status" row = VStr "draft"
              ∧ lookup "createdAt" row = VStr (now w)
              ∧ ∀ k, k ∈ ["projectId"; "projectName"; "latitude"; "longitude";
                          "ecosystemType"; "ownership"; "governance";
                          "implementingAgency"; "projectDescription"; "area";
                          "establishmentDate"] →
                     lookup k row = get k b)).
Proof.
  intros Hb [Hcb _]%andb_true_iff required r. subst required r.
  unfold Api.postProject, handle.
  rewrite bind_run, destructure_run by done. cbv zeta. split.
  - rewrite !Exists_cons, Exists_nil.
    intros [H|[H|[H|[H|[H|[H|[]]]]]]]; rewrite H; cbn [negb orb];
      by rewrite ?orb_true_r.
  - rewrite !Forall_cons. intros (H1 & H2 & H3 & H4 & H5 & H6 & _).
    rewrite H1, H2, H3, H4, H5, H6. cbn [negb orb].
    unfold Supabase.insert_single. split.
    + intros msg He. unfold Supabase.insert.
      by rewrite bind_run, (remote_fault _ _ _ msg).
    + intros He. rewrite bind_run, insert_ok by done.
      eexists. split_and!; try reflexivity.
      * by rewrite lookup_norm_obj by apply postProject_row_NoDup.
      * by rewrite lookup_norm_obj by apply postProject_row_NoDup.
      * intros k Hk. rewrite lookup_norm_obj by apply postProject_row_NoDup.
        rewrite !elem_of_cons, elem_of_nil in Hk.
        destruct Hk as [->|[->|[->|[->|[->|[->|[->|[->|[->|[->|[->|[]]]]]]]]]]]];
          by apply norm_get.
Qed.

Lemma X15_postProject_witness :
  status (Api.postProject (Example.outside Example.t1 Example.no_hash)
            Example.project Example.empty_db).1 = 201
  ∧ status (Api.postProject (Example.outside Example.t1 Example.no_hash)
              (VObj [("projectId", VStr "P-1"); ("projectName", VStr EmptyString)])
              Example.empty_db).1 = 400.
Proof.
  split.
  - destruct (X15_postProject_outcomes
                (Example.outside Example.t1 Example.no_hash) Example.project
                Example.empty_db eq_refl eq_refl) as [_ H].
    destruct H as [_ H]; [by repeat constructor|].
    destruct (H eq_refl) as (row & -> & _). reflexivity.
  - destruct (X15_postProject_outcomes
                (Example.outside Example.t1 Example.no_hash)
                (VObj [("projectId", VStr "P-1"); ("projectName", VStr EmptyString)])
                Example.empty_db eq_refl eq_refl) as [H _].
    rewrite H; [reflexivity|]. right. by left.
Defined.

Lemma matches_spread_other col val (r sent : obj) :
  col ∉ sent.*1 →
  Supabase.matches col val (spread r sent) = Supabase.matches col val r.
Proof. intros H. unfold Supabase.matches. by rewrite lookup_spread_notin. Qed.

Lemma selected_patched_other col val sent (t : Supabase.table) :
  col ∉ sent.*1 →
  Supabase.selected col val (Supabase.patched col val sent t)
  = map (λ r, spread r sent) (Supabase.selected col val t).
Proof.
  intros Hc. unfold Supabase.selected, Supabase.patched.
  induction t as [|r t IH]; [done|]. cbn [map].
  destruct (Supabase.matches col val r) eqn:E.
  - rewrite (filter_cons_True _ (spread r sent))
      by (by rewrite matches_spread_other).
    rewrite (filter_cons_True _ r) by done. cbn [map]. f_equal. exact IH.
  - rewrite !(filter_cons_False _ r) by (by rewrite E). exact IH.
Qed.

Lemma patched_again col val sent (t : Supabase.table) :
  NoDup sent.*1 → col ∉ sent.*1 →
  Supabase.patched col val sent (Supabase.patched col val sent t)
  = Supabase.patched col val sent t.
Proof.
  intros Hnd Hc. unfold Supabase.patched. induction t as [|r t IH]; [done|].
  cbn [map]. f_equal; [|exact IH]. destruct (Supabase.matches col val r) eqn:E.
  - rewrite matches_spread_other, E by done. by apply spread_idem.
  - by rewrite E.
Qed.

Lemma patched_others col val sent (t : Supabase.table) :
  Forall2 (λ r r', Supabase.matches col val r = false → r' = r)
    t (Supabase.patched col val sent t).
Proof.
  induction t as [|r t IH]; [constructor|].
  unfold Supabase.patched. cbn [map]. constructor; [|exact IH].
  by intros ->.
Qed.

Lemma submitProject_run w id s :
  Api.submitProject w id s
  = match store_error w,
          Supabase.selected "projectId" id (Supabase.projects (store s)) with
    | None, [r] =>
        (json 200 (VObj [("success", VBool true);
                         ("project", VObj (spread r [("status", VStr "submitted")]))]),
         {| store :=
              Supabase.with_rows Supabase.Projects
                (Supabase.patched "projectId" id [("status", VStr "submitted")]
                   (Supabase.projects (store s))) (store s);
            pinned := pinned s |})
    | _, _ => (json 500 (error_body "Failed to submit project"), s)
    end.
Proof.
  unfold Api.submitProject, handle, Supabase.update_eq_single. rewrite bind_run.
  destruct (store_error w) as [msg|] eqn:He.
  - by rewrite (remote_fault _ _ _ msg).
  - rewrite remote_ok by done. cbn [Supabase.rows].
    by destruct (Supabase.selected _ _ _) as [|row [|row' rest]].
Qed.

(** X16. [PUT /api/projects/:id/submit] answers 200 exactly when the
    store is up and one project row carries the id.  It then sets the
    status of that row to "submitted", whatever the status was, leaves
    every other column of the row, every other project and every
    submission as they were, and a second request changes nothing
    further.  With the store down, with no such row, or with several,
    it answers 500 "Failed to submit project" and the store is
    untouched. *)
Theorem X16_submitProject (w : world) (id : string) (s : Supabase.state) :
  let r := Api.submitProject w id s in
  let found := Supabase.selected "projectId" id (Supabase.projects (store s)) in
  (is_Some (store_error w) ∨ (∀ row, found ≠ [row]) →
     r = (json 500 (error_body "Failed to submit project"), s))
  ∧ (∀ row, store_error w = None → found = [row] →
       ∃ row',
         r.1 = json 200 (VObj [("success", VBool true); ("project", VObj row')])
         ∧ lookup "status" row' = VStr "submitted"
         ∧ (∀ k, k ≠ "status" → lookup k row' = lookup k row)
         ∧ Supabase.selected "projectId" id (Supabase.projects (store r.2))
           = [row']
         ∧ Forall2 (λ p p', Supabase.matches "projectId" id p = false → p' = p)
             (Supabase.projects (store s)) (Supabase.projects (store r.2))
         ∧ Supabase.submissions (store r.2) = Supabase.submissions (store s)
         ∧ Api.submitProject w id r.2 = r).
Proof.
  intros r found. subst r found. rewrite submitProject_run. split.
  - intros [[msg ->]|Hn]; [done|]. destruct (store_error w); [done|].
    destruct (Supabase.selected _ _ _) as [|row [|row' rest]]; try done.
    by destruct (Hn row).
  - intros row He Hsel. rewrite He, Hsel. cbn [fst snd].
    assert (Hc : "projectId" ∉ [("status", VStr "submitted")].*1)
      by (by apply (bool_decide_unpack _)).
    assert (Hnd : NoDup [("status", VStr "submitted")].*1)
      by (by apply (bool_decide_unpack _)).
    eexists. split_and!; try reflexivity.
    + apply (lookup_set_eq "status").
    + intros k Hk. by apply (lookup_set_ne "status" k).
    + cbn [store Supabase.with_rows Supabase.projects].
      by rewrite selected_patched_other, Hsel.
    + apply patched_others.
    + rewrite submitProject_run, He.
      cbn [store pinned Supabase.with_rows Supabase.projects Supabase.submissions].
      rewrite selected_patched_other, Hsel by done. cbn [map].
      rewrite patched_again by done.
      by rewrite (spread_idem row [("status", VStr "submitted")]).
Qed.

Lemma X16_submitProject_witness :
  status (Api.submitProject (Example.outside Example.t2 Example.no_hash) "P-1"
            Example.db_project).1 = 200
  ∧ Api.submitProject (Example.outside Example.t2 Example.no_hash) "P-2"
      Example.db_project
    = (json 500 (error_body "Failed to submit project"), Example.db_project).
Proof.
  destruct (X16_submitProject (Example.outside Example.t2 Example.no_hash) "P-1"
              Example.db_project) as [_ Hone].
  destruct (X16_submitProject (Example.outside Example.t2 Example.no_hash) "P-2"
              Example.db_project) as [Hnone _].
  split.
  - edestruct Hone as (row' & -> & _);
      [reflexivity|vm_compute; reflexivity|reflexivity].
  - apply Hnone. right. intros row. vm_compute. discriminate.
Defined.

(** ** Listings of the table-backed server *)

Lemma sorted_head col (t : Supabase.table) (row : obj) k :
  row ∈ t → Supabase.sort_key col row = Some k →
  (∀ r, r ∈ t →
     r = row
     ∨ ∃ k', Supabase.sort_key col r = Some k' ∧ String.ltb k' k = true) →
  ∃ rest, merge_sort (Supabase.desc col) t = row :: rest.
Proof.
  intros Hin Hk Hold.
  destruct (select_sorted col t) as [Hs Hp].
  destruct (merge_sort (Supabase.desc col) t) as [|h rest] eqn:E.
  { rewrite <- Hp in Hin. by apply elem_of_nil in Hin. }
  exists rest. f_equal.
  assert (Hh : h ∈ t) by (rewrite <- Hp; left).
  destruct (Hold h Hh) as [|(k' & Hk' & Hlt)]; [done|]. exfalso.
  rewrite <- Hp in Hin. apply elem_of_cons in Hin as [Heq|Hin].
  { subst h. rewrite Hk in Hk'. injection Hk' as ->.
    apply string_ltb_lt in Hlt. by rewrite string_compare_refl in Hlt. }
  apply StronglySorted_inv in Hs as [_ Hall].
  rewrite Forall_forall in Hall. specialize (Hall row Hin).
  unfold Supabase.desc, Supabase.desc_leb in Hall. rewrite Hk', Hk in Hall.
  by rewrite (string_ltb_not_leb _ _ Hlt) in Hall.
Qed.

Lemma sorted_newest col (t : Supabase.table) (row : obj) k :
  Supabase.sort_key col row = Some k →
  (∀ r, r ∈ t →
     ∃ k', Supabase.sort_key col r = Some k' ∧ String.ltb k' k = true) →
  ∃ rest, merge_sort (Supabase.desc col) (t ++ [row]) = row :: rest.
Proof.
  intros Hk Hold. apply (sorted_head col _ row k); [|done|].
  - rewrite elem_of_app, list_elem_of_singleton. by right.
  - intros r. rewrite elem_of_app, list_elem_of_singleton. intros [Hr|Hr]; auto.
Qed.

Lemma postProject_created w b s :
  status (Api.postProject w b s).1 = 201 → store_error w = None →
  ∃ row : obj,
    Api.postProject w b s
    = (json 201 (VObj [("success", VBool true); ("project", VObj row)]),
       {| store :=
            Supabase.with_rows Supabase.Projects
              (Supabase.projects (store s) ++ [row]) (store s);
          pinned := pinned s |})
    ∧ lookup "createdAt" row = VStr (now w).
Proof.
  intros Hst He. destruct (destructurable b) eqn:Hb.
  2:{ exfalso. revert Hst. unfold Api.postProject, handle, destructure.
      rewrite bind_run, Hb. done. }
  revert Hst. unfold Api.postProject, handle.
  rewrite bind_run, destructure_run by done. cbv zeta.
  match goal with |- context [if ?c then _ else _] => destruct c end; [done|].
  intros _. unfold Supabase.insert_single.
  rewrite bind_run, insert_ok by done.
  eexists. split; [reflexivity|].
  by rewrite lookup_norm_obj by apply postProject_row_NoDup.
Qed.

Lemma getProjects_ok w s :
  store_error w = None →
  Api.getProjects w s =
  (json 200 (VArr (map VObj (merge_sort (Supabase.desc "createdAt")
                               (Supabase.projects (store s))))), s).
Proof.
  intros He. unfold Api.getProjects, handle, Supabase.select_order_desc.
  rewrite bind_run, remote_ok by done. reflexivity.
Qed.

(** X17. What was created last is listed first.  After a submission or
    a project was created with 201 at a time later than the creation
    time of every row already in its table, the listing route of that
    table answers 200 with an array whose first element is the row just
    created: it has the creation time of the request, and the id the
    201 answer carried or, for a project, is the row the 201 answer
    carried. *)
Theorem X17_newest_listed_first (w w' : world) :
  store_error w = None → store_error w' = None →
  (∀ req s, status (Api.postSubmission w req s).1 = 201 →
     (∀ r, r ∈ Supabase.submissions (store s) →
        ∃ t, Supabase.sort_key "createdAt" r = Some t
             ∧ String.ltb t (now w) = true) →
     ∃ row rest,
       (Api.getSubmissions w' (Api.postSubmission w req s).2).1
       = json 200 (VArr (VObj row :: rest))
       ∧ lookup "createdAt" row = VStr (now w)
       ∧ lookup "id" row = VStr (uuidv4 w)
       ∧ get "id" (get "submission" (payload (Api.postSubmission w req s).1))
         = VStr (uuidv4 w))
  ∧ (∀ b s, status (Api.postProject w b s).1 = 201 →
       (∀ r, r ∈ Supabase.projects (store s) →
          ∃ t, Supabase.sort_key "createdAt" r = Some t
               ∧ String.ltb t (now w) = true) →
       ∃ row rest,
         (Api.getProjects w' (Api.postProject w b s).2).1
         = json 200 (VArr (VObj row :: rest))
         ∧ lookup "createdAt" row = VStr (now w)
         ∧ get "project" (payload (Api.postProject w b s).1) = VObj row).
Proof.
  intros He He'. split.
  - intros req s Hst Hold.
    destruct (post_cases w req s)
      as [(H & _)|[(H & _)|(file & data & _ & _ & _ & _ & Hrun)]];
      [congruence..|].
    cbv zeta in Hrun. rewrite Hrun. cbn [fst snd payload created json get lookup].
    rewrite getSubmissions_ok by done.
    cbn [store Supabase.inserted Supabase.rows Supabase.with_rows
         Supabase.submissions String.eqb Ascii.eqb Bool.eqb].
    set (rec := Api.submission_record w _ file _).
    assert (Hlook : ∀ k, lookup k (norm_obj (own_props rec))
                         = norm (lookup k (own_props rec)))
      by (intros k; apply lookup_norm_obj, api_record_NoDup).
    destruct (sorted_newest "createdAt" (Supabase.submissions (store s))
                (norm_obj (own_props rec)) (now w)) as [rest Hrest]; [|done|].
    { unfold Supabase.sort_key. by rewrite Hlook. }
    rewrite Hrest. eexists _, _.
    split_and!; [reflexivity|by rewrite Hlook|by rewrite Hlook|done].
  - intros b s Hst Hold.
    destruct (postProject_created w b s Hst He) as (row & -> & Hc).
    cbn [fst snd payload json get lookup String.eqb Ascii.eqb Bool.eqb].
    rewrite getProjects_ok by done.
    cbn [store Supabase.with_rows Supabase.projects].
    destruct (sorted_newest "createdAt" (Supabase.projects (store s))
                row (now w)) as [rest Hrest]; [|done|].
    { unfold Supabase.sort_key. by rewrite Hc. }
    rewrite Hrest. by eexists _, _.
Qed.

Lemma X17_newest_listed_first_witness :
  ∃ row rest,
    (Api.getSubmissions (Example.outside Example.t3 Example.no_hash)
       (Api.postSubmission (Example.outside Example.t2 (Example.pinned_as "Qm2"))
          Example.request
          (Api.postSubmission (Example.outside Example.t1 (Example.pinned_as "Qm1"))
             Example.request Example.empty_db).2).2).1
    = json 200 (VArr (VObj row :: rest))
    ∧ lookup "createdAt" row = VStr Example.t2.
Proof.
  destruct (X17_newest_listed_first
              (Example.outside Example.t2 (Example.pinned_as "Qm2"))
              (Example.outside Example.t3 Example.no_hash) eq_refl eq_refl)
    as [Hsub _].
  destruct (Hsub Example.request
              (Api.postSubmission (Example.outside Example.t1 (Example.pinned_as "Qm1"))
                 Example.request Example.empty_db).2 eq_refl)
    as (row & rest & Hlist & Hc & _).
  - intros r Hr. vm_compute in Hr. apply list_elem_of_singleton in Hr as ->.
    exists Example.t1. by split.
  - by exists row, rest.
Defined.

(** * Facts about the project-data routes *)

Lemma data_remote_fault {A} w (call : M ProjectData.state (Supabase.reply A)) s msg :
  store_error w = Some msg →
  ProjectData.remote w call s = (Ok (Supabase.Error (StoreError msg)), s).
Proof. unfold ProjectData.remote. by intros ->. Qed.

Lemma data_remote_ok {A} w (call : M ProjectData.state (Supabase.reply A)) s :
  store_error w = None → ProjectData.remote w call s = call s.
Proof. unfold ProjectData.remote. by intros ->. Qed.

Lemma data_insert_fault w t row s msg :
  store_error w = Some msg →
  ProjectData.insert_single w t row s = (Ok (Supabase.Error (StoreError msg)), s).
Proof. apply data_remote_fault. Qed.

Lemma data_insert_ok w t row s :
  store_error w = None →
  ProjectData.insert_single w t row s
  = (Ok (Supabase.Data (norm_obj row)),
     {| store :=
          ProjectData.with_rows t
            (ProjectData.rows t (store s) ++ [norm_obj row]) (store s);
        pinned := pinned s |}).
Proof. intros He. unfold ProjectData.insert_single. by rewrite data_remote_ok. Qed.

Lemma or_else_cases a b : or_else a b = if truthy a then a else b.
Proof. reflexivity. Qed.

Ltac required_missing H :=
  rewrite ?Exists_cons, Exists_nil in H;
  repeat (destruct H as [H|H]; [rewrite H; cbn [negb orb]; by rewrite ?orb_true_r|]);
  destruct H.

Ltac required_present H :=
  rewrite ?Forall_cons in H;
  repeat (let H1 := fresh in destruct H as [H1 H]; rewrite H1);
  cbn [negb orb].

(** X18. The three create routes for project data reject a request by
    truthiness alone.  A body that lacks one of the required fields, or
    gives it as an empty string or the number zero, is answered with
    400 "Missing required fields" and nothing is stored; the required
    fields are projectId and samplingDate for a baseline, projectId,
    type and date for an activity, and projectId, date and type for an
    MRV record.  A request without a body is answered with 500. *)
Theorem X18_project_data_validation
    (w : world) (b : value) (s : ProjectData.state) :
  (destructurable b = true →
     (Exists (λ k, truthy (get k b) = false) ["projectId"; "samplingDate"] →
        ProjectData.postBaseline w b s
        = (json 400 (error_body "Missing required fields"), s))
     ∧ (Exists (λ k, truthy (get k b) = false) ["projectId"; "type"; "date"] →
          ProjectData.postActivity w b s
          = (json 400 (error_body "Missing required fields"), s))
     ∧ (Exists (λ k, truthy (get k b) = false) ["projectId"; "date"; "type"] →
          ProjectData.postMrv w b s
          = (json 400 (error_body "Missing required fields"), s)))
  ∧ (destructurable b = false →
       Forall (λ handler : world → value → ProjectData.state
                           → response * ProjectData.state,
                 status (handler w b s).1 = 500 ∧ (handler w b s).2 = s)
         [ProjectData.postBaseline; ProjectData.postActivity;
          ProjectData.postMrv]).
Proof.
  split.
  - intros Hb. split_and!; intros H;
      [unfold ProjectData.postBaseline|unfold ProjectData.postActivity
      |unfold ProjectData.postMrv];
      unfold handle; rewrite bind_run, destructure_run by done; cbv zeta;
      required_missing H.
  - intros Hb. rewrite !Forall_cons, Forall_nil.
    unfold ProjectData.postBaseline, ProjectData.postActivity,
      ProjectData.postMrv, handle, destructure.
    rewrite !bind_run, Hb. done.
Qed.

Lemma X18_project_data_validation_witness :
  ProjectData.postBaseline (Example.outside Example.t1 Example.no_hash)
    (VObj [("projectId", VStr "P-1"); ("samplingDate", VStr EmptyString)])
    Example.no_data
  = (json 400 (error_body "Missing required fields"), Example.no_data)
  ∧ ProjectData.postMrv (Example.outside Example.t1 Example.no_hash)
      (VObj [("projectId", VNum 0); ("date", VStr "2025-01-01");
             ("type", VStr "satellite")])
      Example.no_data
    = (json 400 (error_body "Missing required fields"), Example.no_data).
Proof.
  split.
  - destruct (X18_project_data_validation
                (Example.outside Example.t1 Example.no_hash)
                (VObj [("projectId", VStr "P-1");
                       ("samplingDate", VStr EmptyString)])
                Example.no_data) as [H _].
    destruct (H eq_refl) as (Hbase & _). apply Hbase. right. by left.
  - destruct (X18_project_data_validation
                (Example.outside Example.t1 Example.no_hash)
                (VObj [("projectId", VNum 0); ("date", VStr "2025-01-01");
                       ("type", VStr "satellite")])
                Example.no_data) as [H _].
    destruct (H eq_refl) as (_ & _ & Hmrv). apply Hmrv. by left.
Defined.

Ltac stored_lookup :=
  rewrite lookup_norm_obj by (simpl; by apply (bool_decide_unpack _)).

Ltac body_fields Hk Hcb :=
  rewrite !elem_of_cons, elem_of_nil in Hk;
  repeat (destruct Hk as [->|Hk]; [by apply norm_get|]);
  destruct Hk.

(** X19. A create request for project data that has its required
    fields is answered with 201 and the stored row when the store is
    up: the row is appended to the table of its kind, the two other
    tables are untouched, the row carries the creation time of the
    request and every field of the body under its own name, and a field
    the body lacks is not stored.  The status of an activity is the one
    the body gives, or "planned" when it gives none or a falsy one; for
    an MRV record the default is "pending".  When the store fails,
    nothing is stored and the answer is 400 or a 500 whose [details]
    are the store's message. *)
Theorem X19_project_data_creation
    (w : world) (b : value) (s : ProjectData.state) :
  destructurable b = true → is_json b = true →
  let stored (t : ProjectData.table_name) (name : string)
        (r : response * ProjectData.state) (row : obj) :=
    r.1 = json 201 (VObj [("success", VBool true); (name, VObj row)])
    ∧ ProjectData.rows t (store r.2) = ProjectData.rows t (store s) ++ [row]
    ∧ (∀ t', t' ≠ t →
         ProjectData.rows t' (store r.2) = ProjectData.rows t' (store s))
    ∧ lookup "createdAt" row = VStr (now w) in
  let status_or (dflt : string) :=
    if truthy (get "status" b) then get "status" b else VStr dflt in
  (store_error w = None →
     (Forall (λ k, truthy (get k b) = true) ["projectId"; "samplingDate"] →
        ∃ row,
          stored ProjectData.BaselineData "baseline"
            (ProjectData.postBaseline w b s) row
          ∧ ∀ k, k ∈ ["projectId"; "vegetationCover"; "ndvi";
                      "soilOrganicCarbon"; "bulkDensity"; "soilDepth";
                      "historicalLandUse"; "samplingDate"; "samplingMethod";
                      "laboratoryCertification"; "carbonStock"] →
                 lookup k row = get k b)
     ∧ (Forall (λ k, truthy (get k b) = true) ["projectId"; "type"; "date"] →
          ∃ row,
            stored ProjectData.Activities "activity"
              (ProjectData.postActivity w b s) row
            ∧ lookup "status" row = status_or "planned"
            ∧ ∀ k, k ∈ ["projectId"; "type"; "date"; "species"; "saplings";
                        "area"; "maintenance"; "crew"; "coordinates"; "photos"] →
                   lookup k row = get k b)
     ∧ (Forall (λ k, truthy (get k b) = true) ["projectId"; "date"; "type"] →
          ∃ row,
            stored ProjectData.MrvData "mrv" (ProjectData.postMrv w b s) row
            ∧ lookup "status" row = status_or "pending"
            ∧ ∀ k, k ∈ ["projectId"; "date"; "type"; "source"; "ndvi"; "evi";
                        "carbonStock"; "changeDetection"] →
                   lookup k row = get k b))
  ∧ (∀ msg, store_error w = Some msg →
       Forall (λ handler : world → value → ProjectData.state
                           → response * ProjectData.state,
                 (handler w b s).2 = s
                 ∧ (status (handler w b s).1 = 400
                    ∨ (handler w b s).1
                      = json 500 (VObj [("error", VStr "Server error");
                                        ("details", VStr msg)])))
         [ProjectData.postBaseline; ProjectData.postActivity;
          ProjectData.postMrv]).
Proof.
  intros Hb [Hcb _]%andb_true_iff stored status_or. subst stored status_or.
  assert (Hstatus : ∀ dflt,
            norm (or_else (get "status" b) (VStr dflt))
            = if truthy (get "status" b) then get "status" b else VStr dflt).
  { intros dflt. rewrite or_else_cases.
    destruct (truthy (get "status" b)); [by apply norm_get|done]. }
  split.
  - intros He. split_and!; intros H;
      [unfold ProjectData.postBaseline|unfold ProjectData.postActivity
      |unfold ProjectData.postMrv];
      unfold handle; rewrite bind_run, destructure_run by done; cbv zeta;
      required_present H; rewrite bind_run, data_insert_ok by done;
      eexists; (split; [split_and!; [reflexivity|reflexivity| |]|]).
    + intros t' Ht. by destruct t'.
    + by stored_lookup.
    + intros k Hk. stored_lookup. body_fields Hk Hcb.
    + intros t' Ht. by destruct t'.
    + by stored_lookup.
    + split; [stored_lookup; apply Hstatus|].
      intros k Hk. stored_lookup. body_fields Hk Hcb.
    + intros t' Ht. by destruct t'.
    + by stored_lookup.
    + split; [stored_lookup; apply Hstatus|].
      intros k Hk. stored_lookup. body_fields Hk Hcb.
  - intros msg He. rewrite !Forall_cons, Forall_nil.
    unfold ProjectData.postBaseline, ProjectData.postActivity,
      ProjectData.postMrv, handle.
    rewrite !bind_run, !destructure_run by done. cbv zeta.
    split_and!; try done;
      match goal with |- context [if ?c then _ else _] => destruct c end;
      try done; try (by left);
      rewrite bind_run, (data_insert_fault _ _ _ _ msg) by done;
      try done; by right.
Qed.

Lemma X19_project_data_creation_witness :
  ∃ row,
    ProjectData.activities
      (store (ProjectData.postActivity (Example.outside Example.t1 Example.no_hash)
                Example.planting Example.no_data).2) = [row]
    ∧ lookup "status" row = VStr "planned"
    ∧ lookup "saplings" row = VNum 500.
Proof.
  destruct (X19_project_data_creation
              (Example.outside Example.t1 Example.no_hash) Example.planting
              Example.no_data eq_refl eq_refl) as [H _].
  destruct (H eq_refl) as (_ & Hact & _).
  destruct Hact as (row & (_ & Hrows & _) & Hstatus & Hfields);
    [by repeat constructor|].
  exists row. split_and!; [exact Hrows|exact Hstatus|].
  rewrite Hfields; [reflexivity|]. rewrite !elem_of_cons. auto 10.
Defined.

Lemma data_select_ok w t col val s :
  store_error w = None →
  ProjectData.select_eq w t col val s
  = (Ok (Supabase.Data (Supabase.selected col val (ProjectData.rows t (store s)))), s).
Proof. intros He. unfold ProjectData.select_eq. by rewrite data_remote_ok. Qed.

Lemma selected_spec col val (t : Supabase.table) r :
  r ∈ Supabase.selected col val t ↔ r ∈ t ∧ lookup col r = VStr val.
Proof.
  unfold Supabase.selected. rewrite list_elem_of_filter.
  unfold Supabase.matches, strict_eq_str.
  split; intros [H1 H2].
  - split; [done|].
    destruct (lookup col r); try done. by apply String.eqb_eq in H1 as ->.
  - split; [|done]. rewrite H2. apply String.eqb_refl.
Qed.

Lemma selected_none col val (t : Supabase.table) :
  (∀ r, r ∈ t → lookup col r ≠ VStr val) → Supabase.selected col val t = [].
Proof.
  intros H. destruct (Supabase.selected col val t) as [|r l] eqn:E; [done|].
  assert (Hr : r ∈ Supabase.selected col val t) by (rewrite E; left).
  apply selected_spec in Hr as [Hr Hv]. by destruct (H r Hr).
Qed.

(** X20. The three listing routes for project data never write.  With
    the store up they answer 200 with the rows of their table whose
    projectId is the one asked for, in the order of the table, under
    the names [baseline], [activities] and [mrv]; for a project without
    rows, or one that does not exist, the answer is still 200, with an
    empty array.  With the store down they answer 500 with the store's
    message as the [error]. *)
Theorem X20_listing_by_project
    (w : world) (projectId : string) (s : ProjectData.state) :
  let listed (t : ProjectData.table_name) :=
    VArr (map VObj (Supabase.selected "projectId" projectId
                      (ProjectData.rows t (store s)))) in
  (store_error w = None →
     ProjectData.getBaseline w projectId s
     = (json 200 (VObj [("success", VBool true);
                        ("baseline", listed ProjectData.BaselineData)]), s)
     ∧ ProjectData.getActivities w projectId s
       = (json 200 (VObj [("success", VBool true);
                          ("activities", listed ProjectData.Activities)]), s)
     ∧ ProjectData.getMrv w projectId s
       = (json 200 (VObj [("success", VBool true);
                          ("mrv", listed ProjectData.MrvData)]), s))
  ∧ (∀ t, (∀ r, r ∈ ProjectData.rows t (store s) →
             lookup "projectId" r ≠ VStr projectId) →
          listed t = VArr [])
  ∧ (∀ t r, r ∈ Supabase.selected "projectId" projectId
                  (ProjectData.rows t (store s)) ↔
            r ∈ ProjectData.rows t (store s)
            ∧ lookup "projectId" r = VStr projectId)
  ∧ (∀ msg, store_error w = Some msg →
       Forall (λ handler : world → string → ProjectData.state
                           → response * ProjectData.state,
                 handler w projectId s = (json 500 (error_body msg), s))
         [ProjectData.getBaseline; ProjectData.getActivities;
          ProjectData.getMrv]).
Proof.
  intros listed. subst listed. split_and!.
  - intros He.
    unfold ProjectData.getBaseline, ProjectData.getActivities,
      ProjectData.getMrv, handle.
    by rewrite !bind_run, !data_select_ok.
  - intros t H. by rewrite selected_none.
  - intros t r. apply selected_spec.
  - intros msg He. rewrite !Forall_cons, Forall_nil.
    unfold ProjectData.getBaseline, ProjectData.getActivities,
      ProjectData.getMrv, handle, ProjectData.select_eq.
    by rewrite !bind_run, !(data_remote_fault _ _ _ msg).
Qed.

Lemma X20_listing_by_project_witness :
  ProjectData.getBaseline (Example.outside Example.t1 Example.no_hash) "P-9"
    Example.no_data
  = (json 200 (VObj [("success", VBool true); ("baseline", VArr [])]),
     Example.no_data)
  ∧ ProjectData.getMrv (Example.store_down Example.t1 Example.no_hash) "P-1"
      Example.no_data
    = (json 500 (error_body "fetch failed"), Example.no_data).
Proof.
  destruct (X20_listing_by_project (Example.outside Example.t1 Example.no_hash)
              "P-9" Example.no_data) as (Hup & _).
  destruct (X20_listing_by_project (Example.store_down Example.t1 Example.no_hash)
              "P-1" Example.no_data) as (_ & _ & _ & Hdown).
  split.
  - by destruct (Hup eq_refl) as (-> & _).
  - specialize (Hdown "fetch failed" eq_refl).
    rewrite !Forall_cons in Hdown. by destruct Hdown as (_ & _ & -> & _).
Defined.

Ltac created_run Hst Hb handler :=
  revert Hst; unfold handler, handle;
  rewrite bind_run, destructure_run by exact Hb; cbv zeta;
  match goal with |- context [if ?c then _ else _] => destruct c end;
  [done|]; intros _;
  rewrite bind_run, data_insert_ok by done;
  eexists; split; [reflexivity|]; by stored_lookup.

Lemma created_has_body w b s (handler : world → value → ProjectData.state
                                        → response * ProjectData.state) :
  status (handler w b s).1 = 201 →
  handler = ProjectData.postBaseline ∨ handler = ProjectData.postActivity
  ∨ handler = ProjectData.postMrv →
  destructurable b = true.
Proof.
  intros Hst Hh. destruct (destructurable b) eqn:Hb; [done|]. exfalso.
  revert Hst.
  destruct Hh as [-> | [-> | ->]];
    [unfold ProjectData.postBaseline|unfold ProjectData.postActivity
    |unfold ProjectData.postMrv];
    unfold handle, destructure; rewrite bind_run, Hb; done.
Qed.

Lemma postBaseline_created w b s :
  status (ProjectData.postBaseline w b s).1 = 201 → store_error w = None →
  ∃ row : obj,
    ProjectData.postBaseline w b s
    = (json 201 (VObj [("success", VBool true); ("baseline", VObj row)]),
       {| store :=
            ProjectData.with_rows ProjectData.BaselineData
              (ProjectData.baseline_data (store s) ++ [row]) (store s);
          pinned := pinned s |})
    ∧ lookup "projectId" row = norm (get "projectId" b).
Proof.
  intros Hst He.
  assert (Hb : destructurable b = true) by (eapply created_has_body; eauto).
  created_run Hst Hb ProjectData.postBaseline.
Qed.

Lemma postActivity_created w b s :
  status (ProjectData.postActivity w b s).1 = 201 → store_error w = None →
  ∃ row : obj,
    ProjectData.postActivity w b s
    = (json 201 (VObj [("success", VBool true); ("activity", VObj row)]),
       {| store :=
            ProjectData.with_rows ProjectData.Activities
              (ProjectData.activities (store s) ++ [row]) (store s);
          pinned := pinned s |})
    ∧ lookup "projectId" row = norm (get "projectId" b).
Proof.
  intros Hst He.
  assert (Hb : destructurable b = true) by (eapply created_has_body; eauto).
  created_run Hst Hb ProjectData.postActivity.
Qed.

Lemma postMrv_created w b s :
  status (ProjectData.postMrv w b s).1 = 201 → store_error w = None →
  ∃ row : obj,
    ProjectData.postMrv w b s
    = (json 201 (VObj [("success", VBool true); ("mrv", VObj row)]),
       {| store :=
            ProjectData.with_rows ProjectData.MrvData
              (ProjectData.mrv_data (store s) ++ [row]) (store s);
          pinned := pinned s |})
    ∧ lookup "projectId" row = norm (get "projectId" b).
Proof.
  intros Hst He.
  assert (Hb : destructurable b = true) by (eapply created_has_body; eauto).
  created_run Hst Hb ProjectData.postMrv.
Qed.

Lemma selected_snoc col val (t : Supabase.table) (row : obj) :
  Supabase.selected col val (t ++ [row])
  = Supabase.selected col val t
    ++ (if strict_eq_str (lookup col row) val then [row] else []).
Proof.
  rewrite selected_app. f_equal. unfold Supabase.selected.
  destruct (strict_eq_str (lookup col row) val) eqn:E.
  - by rewrite (filter_cons_True _ row).
  - rewrite (filter_cons_False _ row); [done|].
    unfold Supabase.matches. by rewrite E.
Qed.

Lemma strict_eq_str_other (a b : string) : a ≠ b → strict_eq_str (VStr a) b = false.
Proof. intros H. simpl. by apply String.eqb_neq. Qed.

(** X21. A project-data row shows up where it belongs.  After a create
    request was answered with 201 for a body whose projectId is the
    string [p], the listing route of the same kind answers, for [p],
    with the rows it listed before followed by the row the 201 answer
    carried; for every other project it answers as it did before. *)
Theorem X21_created_row_is_listed
    (w w' : world) (b : value) (p : string) (s : ProjectData.state) :
  get "projectId" b = VStr p →
  store_error w = None → store_error w' = None →
  let before (t : ProjectData.table_name) :=
    Supabase.selected "projectId" p (ProjectData.rows t (store s)) in
  (let r := ProjectData.postBaseline w b s in
   status r.1 = 201 →
   ∃ row,
     get "baseline" (payload r.1) = VObj row
     ∧ (ProjectData.getBaseline w' p r.2).1
       = json 200 (VObj [("success", VBool true);
                         ("baseline",
                          VArr (map VObj (before ProjectData.BaselineData
                                          ++ [row])))])
     ∧ ∀ p', p' ≠ p →
         (ProjectData.getBaseline w' p' r.2).1
         = (ProjectData.getBaseline w' p' s).1)
  ∧ (let r := ProjectData.postActivity w b s in
     status r.1 = 201 →
     ∃ row,
       get "activity" (payload r.1) = VObj row
       ∧ (ProjectData.getActivities w' p r.2).1
         = json 200 (VObj [("success", VBool true);
                           ("activities",
                            VArr (map VObj (before ProjectData.Activities
                                            ++ [row])))])
       ∧ ∀ p', p' ≠ p →
           (ProjectData.getActivities w' p' r.2).1
           = (ProjectData.getActivities w' p' s).1)
  ∧ (let r := ProjectData.postMrv w b s in
     status r.1 = 201 →
     ∃ row,
       get "mrv" (payload r.1) = VObj row
       ∧ (ProjectData.getMrv w' p r.2).1
         = json 200 (VObj [("success", VBool true);
                           ("mrv",
                            VArr (map VObj (before ProjectData.MrvData
                                            ++ [row])))])
       ∧ ∀ p', p' ≠ p →
           (ProjectData.getMrv w' p' r.2).1 = (ProjectData.getMrv w' p' s).1).
Proof.
  intros Hp He He' before. subst before.
  pose proof (Hlist := λ q t, data_select_ok w' t "projectId" q).
  split_and!; intros r Hst; subst r.
  - destruct (postBaseline_created w b s Hst He) as (row & -> & Hrow).
    rewrite Hp in Hrow. simpl in Hrow. exists row. split; [done|].
    unfold ProjectData.getBaseline, handle.
    split; [|intros p' Hne]; rewrite !bind_run, !Hlist by done;
      cbn [fst snd store ProjectData.rows ProjectData.with_rows
           ProjectData.baseline_data];
      rewrite selected_snoc, Hrow.
    + simpl strict_eq_str. by rewrite String.eqb_refl.
    + by rewrite (strict_eq_str_other p p'), app_nil_r.
  - destruct (postActivity_created w b s Hst He) as (row & -> & Hrow).
    rewrite Hp in Hrow. simpl in Hrow. exists row. split; [done|].
    unfold ProjectData.getActivities, handle.
    split; [|intros p' Hne]; rewrite !bind_run, !Hlist by done;
      cbn [fst snd store ProjectData.rows ProjectData.with_rows
           ProjectData.activities];
      rewrite selected_snoc, Hrow.
    + simpl strict_eq_str. by rewrite String.eqb_refl.
    + by rewrite (strict_eq_str_other p p'), app_nil_r.
  - destruct (postMrv_created w b s Hst He) as (row & -> & Hrow).
    rewrite Hp in Hrow. simpl in Hrow. exists row. split; [done|].
    unfold ProjectData.getMrv, handle.
    split; [|intros p' Hne]; rewrite !bind_run, !Hlist by done;
      cbn [fst snd store ProjectData.rows ProjectData.with_rows
           ProjectData.mrv_data];
      rewrite selected_snoc, Hrow.
    + simpl strict_eq_str. by rewrite String.eqb_refl.
    + by rewrite (strict_eq_str_other p p'), app_nil_r.
Qed.

Lemma X21_created_row_is_listed_witness :
  ∃ row,
    (ProjectData.getBaseline (Example.outside Example.t2 Example.no_hash) "P-1"
       (ProjectData.postBaseline (Example.outside Example.t1 Example.no_hash)
          Example.baseline Example.no_data).2).1
    = json 200 (VObj [("success", VBool true);
                      ("baseline", VArr [VObj row])])
    ∧ lookup "soilDepth" row = VNum 30.
Proof.
  destruct (X21_created_row_is_listed
              (Example.outside Example.t1 Example.no_hash)
              (Example.outside Example.t2 Example.no_hash)
              Example.baseline "P-1" Example.no_data eq_refl eq_refl eq_refl)
    as (Hbase & _).
  destruct (Hbase eq_refl) as (row & Hrow & Hlist & _).
  exists row. split; [exact Hlist|].
  vm_compute in Hrow. injection Hrow as <-. reflexivity.
Defined.

(** * Facts about the stand-alone MRV router *)

Lemma router_create_run w b s :
  destructurable b = true → store_error w = None →
  ∃ row : obj,
    MrvRouter.create w b s
    = (json 200 (VObj [("success", VBool true); ("mrv", VObj row)]),
       {| store :=
            ProjectData.with_rows ProjectData.MrvData
              (ProjectData.mrv_data (store s) ++ [row]) (store s);
          pinned := pinned s |})
    ∧ (∀ k, lookup k row
            = norm (lookup k
                      [("project_id", get "projectId" b); ("date", get "date" b);
                       ("type", get "type" b); ("source", get "source" b);
                       ("ndvi", get "ndvi" b); ("evi", get "evi" b);
                       ("carbon_stock", get "carbonStock" b);
                       ("change_detection", get "changeDetection" b);
                       ("status", or_else (get "status" b) (VStr "pending"))]))
    ∧ (b = VObj [] → row = [("status", VStr "pending")]).
Proof.
  intros Hb He. unfold MrvRouter.create, handle.
  rewrite bind_run, destructure_run by done. cbv zeta.
  rewrite bind_run, data_insert_ok by done.
  eexists. split_and!; [reflexivity| |].
  - intros k. by stored_lookup.
  - by intros ->.
Qed.

(** X22. The stand-alone MRV router stores a record for any body at
    all.  With the store up, [router.post("/")] answers 200, not 201,
    and appends one row, whose columns are [project_id], [carbon_stock]
    and [change_detection] for the body's projectId, carbonStock and
    changeDetection, the body's own names for the rest, and a status
    that defaults to "pending"; it stores no creation time.  It asks
    for no field: the empty body gives a row that has a status and
    nothing else, a body that [POST /api/mrv] of the server rejects
    with 400.  With the store down it answers 500 "Failed to save MRV
    data" with the store's message as [details], and stores nothing. *)
Theorem X22_router_accepts_any_body
    (w : world) (b : value) (s : ProjectData.state) :
  destructurable b = true → is_json b = true →
  (store_error w = None →
   ∃ row,
     MrvRouter.create w b s
     = (json 200 (VObj [("success", VBool true); ("mrv", VObj row)]),
        {| store :=
             ProjectData.with_rows ProjectData.MrvData
               (ProjectData.mrv_data (store s) ++ [row]) (store s);
           pinned := pinned s |})
     ∧ lookup "project_id" row = get "projectId" b
     ∧ lookup "carbon_stock" row = get "carbonStock" b
     ∧ lookup "change_detection" row = get "changeDetection" b
     ∧ (∀ k, k ∈ ["date"; "type"; "source"; "ndvi"; "evi"] →
             lookup k row = get k b)
     ∧ lookup "status" row
       = (if truthy (get "status" b) then get "status" b else VStr "pending")
     ∧ lookup "createdAt" row = VUndefined
     ∧ (b = VObj [] → row = [("status", VStr "pending")]))
  ∧ (∀ msg, store_error w = Some msg →
       MrvRouter.create w b s
       = (json 500 (VObj [("error", VStr "Failed to save MRV data");
                          ("details", VStr msg)]), s))
  ∧ ProjectData.postMrv w (VObj []) s
    = (json 400 (error_body "Missing required fields"), s).
Proof.
  intros Hb [Hcb _]%andb_true_iff. split_and!; [| |done].
  - intros He.
    destruct (router_create_run w b s Hb He) as (row & Hrun & Hrow & Hempty).
    exists row. split_and!; try done; rewrite ?Hrow; simpl lookup;
      try (by apply norm_get).
    + intros k Hk. rewrite Hrow. body_fields Hk Hcb.
    + rewrite or_else_cases. destruct (truthy (get "status" b)); [|done].
      by apply norm_get.
  - intros msg He. unfold MrvRouter.create, handle.
    rewrite bind_run, destructure_run by done. cbv zeta.
    by rewrite bind_run, (data_insert_fault _ _ _ _ msg).
Qed.

Lemma X22_router_accepts_any_body_witness :
  (MrvRouter.create (Example.outside Example.t1 Example.no_hash) (VObj [])
     Example.no_data).1
  = json 200 (VObj [("success", VBool true);
                    ("mrv", VObj [("status", VStr "pending")])]).
Proof.
  destruct (X22_router_accepts_any_body
              (Example.outside Example.t1 Example.no_hash) (VObj [])
              Example.no_data eq_refl eq_refl) as [H _].
  destruct (H eq_refl) as (row & -> & _ & _ & _ & _ & _ & _ & Hempty).
  by rewrite (Hempty eq_refl).
Defined.

Lemma router_listing_ok w p s :
  store_error w = None →
  MrvRouter.byProject w p s
  = (json 200 (VArr (map VObj
                       (merge_sort (Supabase.desc "date")
                          (Supabase.selected "project_id" p
                             (ProjectData.mrv_data (store s)))))), s).
Proof.
  intros He.
  unfold MrvRouter.byProject, handle, ProjectData.select_eq_order_desc.
  by rewrite bind_run, data_remote_ok.
Qed.

(** X23. [router.get("/:projectId")] never writes.  With the store up
    it answers 200 with the rows whose [project_id] is the one asked
    for, each once, ordered by [date] descending; a record that was just
    created through the router for that project, with a date later than
    the dates of the project's other rows, comes first.  With the store
    down it answers 500 "Failed to fetch MRV data" with the store's
    message as [details]. *)
Theorem X23_router_listing (w : world) (p : string) (s : ProjectData.state) :
  (store_error w = None →
     ∃ sorted,
       MrvRouter.byProject w p s = (json 200 (VArr (map VObj sorted)), s)
       ∧ sorted ≡ₚ Supabase.selected "project_id" p
                     (ProjectData.mrv_data (store s))
       ∧ StronglySorted (Supabase.desc "date") sorted
       ∧ ∀ w' b d,
           store_error w' = None → destructurable b = true →
           get "projectId" b = VStr p → get "date" b = VStr d →
           (∀ r, r ∈ sorted →
              ∃ d', Supabase.sort_key "date" r = Some d'
                    ∧ String.ltb d' d = true) →
           ∃ row rest,
             (MrvRouter.byProject w p (MrvRouter.create w' b s).2).1
             = json 200 (VArr (VObj row :: rest))
             ∧ get "mrv" (payload (MrvRouter.create w' b s).1) = VObj row)
  ∧ (∀ msg, store_error w = Some msg →
       MrvRouter.byProject w p s
       = (json 500 (VObj [("error", VStr "Failed to fetch MRV data");
                          ("details", VStr msg)]), s)).
Proof.
  split.
  - intros He. eexists. split; [by apply router_listing_ok|].
    destruct (select_sorted "date"
                (Supabase.selected "project_id" p (ProjectData.mrv_data (store s))))
      as [Hs Hp].
    split_and!; [done|done|].
    intros w' b d He' Hb Hproj Hdate Hold.
    destruct (router_create_run w' b s Hb He') as (row & -> & Hrow & _).
    cbn [fst snd payload json get lookup String.eqb Ascii.eqb Bool.eqb].
    rewrite router_listing_ok by done.
    cbn [fst store ProjectData.with_rows ProjectData.mrv_data].
    rewrite selected_snoc, Hrow. simpl lookup. rewrite Hproj. simpl norm.
    simpl strict_eq_str. rewrite String.eqb_refl.
    destruct (sorted_newest "date"
                (Supabase.selected "project_id" p (ProjectData.mrv_data (store s)))
                row d) as [rest Hrest].
    + unfold Supabase.sort_key. rewrite Hrow. simpl lookup. by rewrite Hdate.
    + intros r Hr. apply Hold. by rewrite Hp.
    + rewrite Hrest. by eexists _, _.
  - intros msg He.
    unfold MrvRouter.byProject, handle, ProjectData.select_eq_order_desc.
    by rewrite bind_run, (data_remote_fault _ _ _ msg).
Qed.

Lemma X23_router_listing_witness :
  ∃ row rest,
    (MrvRouter.byProject (Example.outside Example.t3 Example.no_hash) "P-1"
       (MrvRouter.create (Example.outside Example.t2 Example.no_hash)
          (Example.survey "2025-02-01")
          (MrvRouter.create (Example.outside Example.t1 Example.no_hash)
             (Example.survey "2025-01-01") Example.no_data).2).2).1
    = json 200 (VArr (VObj row :: rest))
    ∧ lookup "date" row = VStr "2025-02-01".
Proof.
  destruct (X23_router_listing (Example.outside Example.t3 Example.no_hash) "P-1"
              (MrvRouter.create (Example.outside Example.t1 Example.no_hash)
                 (Example.survey "2025-01-01") Example.no_data).2)
    as [H _].
  destruct (H eq_refl) as (sorted & _ & Hperm & _ & Hnew).
  destruct (Hnew (Example.outside Example.t2 Example.no_hash)
              (Example.survey "2025-02-01") "2025-02-01"
              eq_refl eq_refl eq_refl eq_refl)
    as (row & rest & Hlist & Hrow).
  - intros r Hr. rewrite Hperm in Hr. vm_compute in Hr.
    apply list_elem_of_singleton in Hr as ->.
    exists "2025-01-01". by split.
  - exists row, rest. split; [exact Hlist|].
    vm_compute in Hrow. injection Hrow as <-. reflexivity.
Defined.

Lemma getMrv_run w p s :
  ProjectData.getMrv w p s
  = (match store_error w with
     | None =>
         json 200 (VObj [("success", VBool true);
                         ("mrv", VArr (map VObj
                                         (Supabase.selected "projectId" p
                                            (ProjectData.mrv_data (store s)))))])
     | Some msg => json 500 (error_body msg)
     end, s).
Proof.
  unfold ProjectData.getMrv, handle, ProjectData.select_eq. rewrite bind_run.
  destruct (store_error w) as [msg|] eqn:He.
  - by rewrite (data_remote_fault _ _ _ msg).
  - by rewrite data_remote_ok.
Qed.

Lemma router_listing_run w p s :
  MrvRouter.byProject w p s
  = (match store_error w with
     | None =>
         json 200 (VArr (map VObj
                           (merge_sort (Supabase.desc "date")
                              (Supabase.selected "project_id" p
                                 (ProjectData.mrv_data (store s))))))
     | Some msg =>
         json 500 (VObj [("error", VStr "Failed to fetch MRV data");
                         ("details", VStr msg)])
     end, s).
Proof.
  unfold MrvRouter.byProject, handle, ProjectData.select_eq_order_desc.
  rewrite bind_run. destruct (store_error w) as [msg|] eqn:He.
  - by rewrite (data_remote_fault _ _ _ msg).
  - by rewrite data_remote_ok.
Qed.

(** X24. The router and the server do not see each other's MRV rows,
    though both write to the table [mrv_data].  A row stored through
    the router has the column [project_id] and none named [projectId],
    on which [GET /api/mrv/:projectId] of the server filters; a row
    stored by [POST /api/mrv] of the server has [projectId] and no
    [project_id], on which the router filters.  So after a create
    request on one side, every listing on the other side answers as it
    did before. *)
Theorem X24_router_and_server_columns
    (w w' : world) (b : value) (p : string) (s : ProjectData.state) :
  store_error w = None →
  (destructurable b = true →
     (MrvRouter.create w b s).2 ≠ s
     ∧ (ProjectData.getMrv w' p (MrvRouter.create w b s).2).1
       = (ProjectData.getMrv w' p s).1)
  ∧ (status (ProjectData.postMrv w b s).1 = 201 →
       (ProjectData.postMrv w b s).2 ≠ s
       ∧ (MrvRouter.byProject w' p (ProjectData.postMrv w b s).2).1
         = (MrvRouter.byProject w' p s).1).
Proof.
  intros He. split.
  - intros Hb. destruct (router_create_run w b s Hb He) as (row & -> & Hrow & _).
    cbn [snd]. split.
    + intros Heq. apply (f_equal (λ x, length (ProjectData.mrv_data (store x)))) in Heq.
      cbn [store ProjectData.with_rows ProjectData.mrv_data] in Heq.
      rewrite length_app in Heq. simpl in Heq. lia.
    + rewrite !getMrv_run. cbn [fst store ProjectData.with_rows ProjectData.mrv_data].
      rewrite selected_snoc, Hrow. by rewrite app_nil_r.
  - intros Hst.
    assert (Hb : destructurable b = true)
      by (eapply created_has_body; eauto).
    assert (H : ∃ row : obj,
              ProjectData.postMrv w b s
              = (json 201 (VObj [("success", VBool true); ("mrv", VObj row)]),
                 {| store :=
                      ProjectData.with_rows ProjectData.MrvData
                        (ProjectData.mrv_data (store s) ++ [row]) (store s);
                    pinned := pinned s |})
              ∧ lookup "project_id" row = VUndefined).
    { created_run Hst Hb ProjectData.postMrv. }
    destruct H as (row & -> & Hrow). cbn [snd]. split.
    + intros Heq. apply (f_equal (λ x, length (ProjectData.mrv_data (store x)))) in Heq.
      cbn [store ProjectData.with_rows ProjectData.mrv_data] in Heq.
      rewrite length_app in Heq. simpl in Heq. lia.
    + rewrite !router_listing_run.
      cbn [fst store ProjectData.with_rows ProjectData.mrv_data].
      rewrite selected_snoc, Hrow. by rewrite app_nil_r.
Qed.

Lemma X24_router_and_server_columns_witness :
  (ProjectData.getMrv (Example.outside Example.t2 Example.no_hash) "P-1"
     (MrvRouter.create (Example.outside Example.t1 Example.no_hash)
        (Example.survey "2025-01-01") Example.no_data).2).1
  = json 200 (VObj [("success", VBool true); ("mrv", VArr [])]).
Proof.
  destruct (X24_router_and_server_columns
              (Example.outside Example.t1 Example.no_hash)
              (Example.outside Example.t2 Example.no_hash)
              (Example.survey "2025-01-01") "P-1" Example.no_data eq_refl)
    as [H _].
  destruct (H eq_refl) as [_ ->]. reflexivity.
Defined.

(** * Records across the file-backed variants *)

(** X25. What [server.js] persists for a submission.  The record a 201
    answer leaves at the end of the file has the generated id, the name
    of the uploaded file, its content type and its size, and for each of
    applicantAddress, title (the request's [name]), latitude and
    longitude what the body of the request holds under that name, or
    null where it holds nothing or something falsy, such as the empty
    text; so the text "0" is kept as it is, and so is the array that a
    field sent more than once arrives as. *)
Theorem X25_persisted_record_fields
    (w : world) (req : upload_request) (file : upload) (data : value)
    (s : FlatFile.state) (l : list value) :
  let body := req_body req in
  let given (k : string) :=
    if truthy (get k body) then get k body else VNull in
  truthy (get "description" body) = true → is_json body = true →
  req_file req = Some file →
  env_truthy (PINATA_JWT w) = true →
  pin w = PinResolved data → wf data = true →
  holds s l →
  ∃ rec,
    holds (Server.submitData w req s).2 (l ++ [rec])
    ∧ get "id" rec = VStr (uuidv4 w)
    ∧ get "applicantAddress" rec = given "applicantAddress"
    ∧ get "title" rec = given "name"
    ∧ get "description" rec = get "description" body
    ∧ get "latitude" rec = given "latitude"
    ∧ get "longitude" rec = given "longitude"
    ∧ get "originalFileName" rec = VStr (originalname file)
    ∧ get "mimeType" rec = VStr (mimetype file)
    ∧ get "size" rec = VNum (size file).
Proof.
  intros body given Hd [Hcb Hwb]%andb_true_iff Hf Hj Hp Hwd Hl. subst given.
  destruct (description_present req Hd) as [Hm _].
  unfold Server.submitData.
  rewrite (submit_resolved _ _ w req s file data l)
    by (done || by apply holds_reads).
  fold body. cbn [snd].
  destruct (holds_good s l Hl) as [Hcl Hwl].
  eexists. split.
  { apply appended_holds; try done.
    apply wf_server_record; [done|]. by apply wf_opt_get. }
  assert (Hgiven : ∀ k, norm (or_else (get k body) VNull)
                        = if truthy (get k body) then get k body else VNull).
  { intros k. by apply norm_clean, clean_or_null. }
  pose proof (norm_clean _ (clean_size file)) as Hsize.
  unfold Server.submission_record.
  rewrite !get_norm_object by (simpl; by apply (bool_decide_unpack _)).
  cbn [lookup String.eqb Ascii.eqb Bool.eqb]. rewrite !Hgiven, Hsize, Hd.
  by split_and!.
Qed.

Lemma X25_persisted_record_witness :
  ∃ rec,
    holds (Server.submitData (Example.outside Example.t1 (Example.pinned_as "Qm1"))
             Example.twice_described Example.fresh).2 [rec]
    ∧ get "title" rec = VNull
    ∧ get "description" rec = VArr [VStr "a"; VStr "b"].
Proof.
  destruct (X25_persisted_record_fields
              (Example.outside Example.t1 (Example.pinned_as "Qm1"))
              Example.twice_described Example.photo
              (VObj [("IpfsHash", VStr "Qm1"); ("PinSize", VNum 2048)])
              Example.fresh []
              eq_refl eq_refl eq_refl eq_refl eq_refl eq_refl)
    as (rec & Hrec & _ & _ & Ht & Hdesc & _).
  - split; reflexivity.
  - by exists rec.
Defined.

Lemma legacy_record_NoDup w body file hash :
  NoDup (own_props (Legacy.submission_record w body file hash)).*1.
Proof. simpl. by apply (bool_decide_unpack _). Qed.

(** X26. The file-backed variants share one file but not one record
    shape.  A record written by the first variant, which names its
    fields [name] and [ipfsUrl], is found by the later variants under
    its id, but is served without its image: the metadata route of
    [server.js] answers 200 with an undefined [metadataURI], the later
    one with the name "Untitled Submission" and no image, whatever name
    and image the submission had.  [markMinted] accepts the record. *)
Theorem X26_first_variant_records
    (w : world) (req : upload_request) (file : upload) (data : value)
    (s : FlatFile.state) (l : list value) :
  let body := req_body req in
  let id := uuidv4 w in
  truthy (get "description" body) = true → is_json body = true →
  req_file req = Some file →
  env_truthy (PINATA_JWT w) = true →
  pin w = PinResolved data → wf data = true →
  holds s l → forallb is_object l = true → known id l = false →
  let s1 := (Legacy.submitData w req s).2 in
  (Server.getMetadata id s1).1 = json 200 (VObj [("metadataURI", VUndefined)])
  ∧ (∃ view,
       (FileApi.getMetadata id s1).1 = json 200 view
       ∧ get "name" view = VStr "Untitled Submission"
       ∧ get "description" view = get "description" body
       ∧ get "image" view = VUndefined)
  ∧ (∀ b, destructurable b = true →
          status (FlatFile.markMinted id b s1).1 = 200).
Proof.
  intros body id Hd [Hcb Hwb]%andb_true_iff Hf Hj Hp Hwd Hl Ho Hk s1.
  destruct (description_present req Hd) as [Hm _].
  assert (Hdesc : norm (get "description" body) = get "description" body)
    by (by apply norm_get).
  set (rec0 := Legacy.submission_record w body file (opt_get "IpfsHash" data)).
  set (o := norm_obj (own_props rec0)).
  assert (Hnd0 : NoDup (own_props rec0).*1) by apply legacy_record_NoDup.
  assert (Hlook : ∀ k, lookup k o = norm (lookup k (own_props rec0)))
    by (intros k; by apply lookup_norm_obj).
  assert (Hid : lookup "id" o = VStr id) by (by rewrite Hlook).
  assert (Hs1 : holds s1 (l ++ [VObj o])).
  { unfold s1, Legacy.submitData.
    rewrite (submit_resolved _ _ w req s file data l)
      by (done || by apply holds_reads).
    fold body rec0. cbn [snd].
    destruct (holds_good s l Hl) as [Hcl Hwl].
    change (VObj o) with (norm rec0).
    apply appended_holds; try done.
    apply wf_legacy_record; [done|]. by apply wf_opt_get. }
  assert (Hfind : find_id id (l ++ [VObj o]) = Ok (VObj o)).
  { apply (find_id_first _ _ (length l)).
    - rewrite forallb_app, Ho. done.
    - by rewrite lookup_app_r, Nat.sub_diag by lia.
    - done.
    - intros j x Hj' Hx. rewrite lookup_app_l in Hx by done.
      eapply unknown_ids; [done|]. by eapply list_elem_of_lookup_2. }
  pose proof (holds_load _ _ Hs1) as Hload. split_and!.
  - rewrite server_getMetadata_run, Hload. cbn [fst]. rewrite Hfind.
    cbn [truthy get]. rewrite Hlook. reflexivity.
  - exists (metadata_view (VObj o)). split.
    + rewrite fileapi_getMetadata_run, Hload. cbn [fst]. by rewrite Hfind.
    + unfold metadata_view. cbn [get lookup String.eqb Ascii.eqb Bool.eqb].
      rewrite !Hlook. simpl lookup.
      rewrite (or_else_truthy (get "description" body)) by done.
      rewrite Hdesc. split_and!; try done.
      by apply or_else_truthy.
  - intros b Hb.
    pose proof (findIndex_app_fresh id l o Ho Hk Hid) as Hfi.
    by rewrite (markMinted_found id b s1 _ Hb (holds_reads _ _ Hs1) _ Hfi).
Qed.

Lemma X26_first_variant_records_witness :
  (Server.getMetadata "id-2025-01-01T10:00:00.000Z"
     (Legacy.submitData (Example.outside Example.t1 (Example.pinned_as "Qm1"))
        Example.request Example.fresh).2).1
  = json 200 (VObj [("metadataURI", VUndefined)]).
Proof.
  refine (proj1 (X26_first_variant_records
                   (Example.outside Example.t1 (Example.pinned_as "Qm1"))
                   Example.request Example.photo
                   (VObj [("IpfsHash", VStr "Qm1"); ("PinSize", VNum 2048)])
                   Example.fresh []
                   eq_refl eq_refl eq_refl eq_refl eq_refl eq_refl _ eq_refl
                   eq_refl)).
  split; reflexivity.
Defined.


(** * The upload middleware *)

Lemma accepted_misnamed name field file r :
  json_fault r = None → parse_fault r = None →
  files r = [(field, file)] → field ≠ name →
  accepted name r = Throw unexpected_file.
Proof.
  intros Hj Hp Hf Hne. unfold accepted, single. rewrite Hj, Hp, Hf.
  by destruct (String.eqb_spec field name).
Qed.

Lemma accepted_bare name r :
  json_fault r = None → parse_fault r = None → files r = [] →
  accepted name r = Ok {| req_body := fields r; req_file := None |}.
Proof. intros Hj Hp Hf. unfold accepted, single. by rewrite Hj, Hp, Hf. Qed.

(** X27. The first variant asks for a field name its route does not
    take.  A request with a description and no file is answered 400
    "Missing image file (field name must be "image")"; a request that
    then sends its file under the field name [image] is refused by the
    upload middleware, which takes the file under [file] alone: the
    answer is 500, nothing is pinned and nothing is persisted.  In
    [server.js], where route and message agree, it is the field name
    [file] that is refused. *)
Theorem X27_field_name_mismatch
    (w : world) (r : http_request) (file : upload) (s : FlatFile.state) :
  json_fault r = None → parse_fault r = None →
  truthy (get "description" (fields r)) = true →
  (files r = [] →
     Legacy.submitData_route w r s
     = (json 400 (error_body ("Missing image file (field name must be "
                              +:+ double_quoted "image" +:+ ")")), s))
  ∧ (files r = [("image", file)] →
       status (Legacy.submitData_route w r s).1 = 500
       ∧ (Legacy.submitData_route w r s).2 = s)
  ∧ (files r = [("file", file)] →
       status (Server.submitData_route w r s).1 = 500
       ∧ (Server.submitData_route w r s).2 = s).
Proof.
  intros Hj Hp Hd. split_and!; intros Hf.
  - unfold Legacy.submitData_route.
    rewrite (route_accepted _ _ _ _ _ (accepted_bare "file" r Hj Hp Hf)).
    unfold Legacy.submitData. apply submit_no_file; [|done].
    rewrite description_missing_spec. cbn [req_body]. by rewrite Hd.
  - unfold Legacy.submitData_route.
    by rewrite (route_refused _ _ _ _ _
                  (accepted_misnamed "file" "image" file r Hj Hp Hf
                     ltac:(discriminate))).
  - unfold Server.submitData_route.
    by rewrite (route_refused _ _ _ _ _
                  (accepted_misnamed "image" "file" file r Hj Hp Hf
                     ltac:(discriminate))).
Qed.

Lemma X27_field_name_mismatch_witness :
  status (Legacy.submitData_route
            (Example.outside Example.t1 (Example.pinned_as "Qm1"))
            (Example.described "image") Example.after_three).1 = 500
  ∧ (Legacy.submitData_route
       (Example.outside Example.t1 (Example.pinned_as "Qm1"))
       (Example.described "image") Example.after_three).2
    = Example.after_three.
Proof.
  destruct (X27_field_name_mismatch
              (Example.outside Example.t1 (Example.pinned_as "Qm1"))
              (Example.described "image") Example.photo Example.after_three
              eq_refl eq_refl eq_refl) as (_ & H & _).
  by apply H.
Defined.
